(** * HiLink SCRAM login: a shallow embedding of HwScramAuth, HwRequest and HwApi

    The development follows the three TypeScript classes of the repository.
    JavaScript values are modelled as the code uses them: 32-bit words as [Z]
    with the wrap-around of the bitwise operators written out, CryptoJS
    [WordArray] objects as mutable cells of a heap, promise chains as a
    completion monad over the state the callbacks close over. *)

From Stdlib Require Import ZArith String Ascii List Lia Bool.
From stdpp Require Import base option list gmap strings.
Import ListNotations.

Local Open Scope string_scope.
Local Open Scope list_scope.
Local Open Scope Z_scope.

(** ** JavaScript values and control *)

Module JS.

(** ToInt32 and ToUint32 of ECMAScript, on integral values. *)
Definition ToInt32 (z : Z) : Z := (z + 2 ^ 31) mod 2 ^ 32 - 2 ^ 31.
Definition ToUint32 (z : Z) : Z := z mod 2 ^ 32.

(** [undefined] converts to NaN and then to 0 under ToInt32. *)
Definition int32_of (v : option Z) : Z :=
  match v with Some z => ToInt32 z | None => 0 end.

(** [a ^ b] *)
Definition bxor (a b : option Z) : Z := Z.lxor (int32_of a) (int32_of b).

(** [arr[i] = v]: in range the element is replaced, past the end the array
    grows; the holes left in between read back as [undefined], which every
    bitwise operator takes for 0. *)
Definition array_set (i : nat) (v : Z) (arr : list Z) : list Z :=
  if decide (i < length arr)%nat then <[i := v]> arr
  else arr ++ replicate (i - length arr) 0 ++ [v].

(** Error objects: [name] is "Error", "TypeError", "RangeError", ... *)
Record Error := mkError { name : string; message : string }.

Definition Error_ (msg : string) : Error := mkError "Error" msg.
Definition TypeError (msg : string) : Error := mkError "TypeError" msg.
Definition RangeError (msg : string) : Error := mkError "RangeError" msg.
Definition ReferenceError (msg : string) : Error := mkError "ReferenceError" msg.

(** Error.prototype.toString, as string concatenation [+ e] calls it. *)
Definition Error_toString (e : Error) : string :=
  if decide (message e = EmptyString) then name e
  else if decide (name e = EmptyString) then message e
  else name e +:+ ": " +:+ message e.

(** Result of evaluating a piece of code: a value or a thrown error. *)
Inductive Completion (A : Type) : Type :=
| Normal (a : A)
| Throw (e : Error).
Arguments Normal {A} a.
Arguments Throw {A} e.

(** Numbers as this program meets them: integers and NaN. *)
Inductive number := NaN | Num (z : Z).

(** ToString of a string-typed variable that may still be [undefined]. *)
Definition str (v : option string) : string :=
  match v with Some s => s | None => "undefined" end.

End JS.

(** ** Effects: state and exceptions *)

Definition Eff (S A : Type) : Type := S -> JS.Completion A * S.

Definition ret {S A} (a : A) : Eff S A := fun s => (JS.Normal a, s).
Definition throw {S A} (e : JS.Error) : Eff S A := fun s => (JS.Throw e, s).
Definition bind {S A B} (m : Eff S A) (k : A -> Eff S B) : Eff S B :=
  fun s => match m s with
           | (JS.Normal a, s') => k a s'
           | (JS.Throw e, s') => (JS.Throw e, s')
           end.
Definition gets {S A} (f : S -> A) : Eff S A := fun s => (JS.Normal (f s), s).
Definition modify {S} (f : S -> S) : Eff S unit := fun s => (JS.Normal tt, f s).

(** [try { m } catch (e) { h e }] *)
Definition try_catch {S A} (m : Eff S A) (h : JS.Error -> Eff S A) : Eff S A :=
  fun s => match m s with
           | (JS.Normal a, s') => (JS.Normal a, s')
           | (JS.Throw e, s') => h e s'
           end.

Declare Scope eff_scope.
Delimit Scope eff_scope with eff.
Notation "'let*' x ':=' m 'in' k" := (bind m (fun x => k))
  (at level 10, x name, m at level 99, k at level 200) : eff_scope.
Notation "'do' m ';;' k" := (bind m (fun _ => k))
  (at level 10, m at level 99, k at level 200) : eff_scope.

(** [for (let x of xs) body] *)
Fixpoint for_of {S A} (xs : list A) (body : A -> Eff S unit) : Eff S unit :=
  match xs with
  | [] => ret tt
  | x :: xs' => bind (body x) (fun _ => for_of xs' body)
  end.

(** ** The crypto-js library, as far as the program uses it *)

(** [CryptoJS.lib.WordArray]: an array of 32-bit words, of which the first
    [sigBytes] bytes (big-endian within each word) are significant. *)
Record WordArray := mkWordArray { words : list Z; sigBytes : Z }.

Global Instance WordArray_inhabited : Inhabited WordArray :=
  populate (mkWordArray [] 0).

(** A key handed to an HMAC is a string or a WordArray. *)
Inductive HmacKey :=
| KeyString (s : string)
| KeyWords (w : WordArray).

(** The library is imported, not part of the repository: its functions are
    taken as an interface.  Each takes its arguments in the order of the
    JavaScript call. *)
Class CryptoJS := {
  Hasher : Type;
  (** [CryptoJS.algo.SHA256] *)
  algo_SHA256 : Hasher;
  (** [hasher.create().update(message).finalize()] *)
  digest : Hasher -> WordArray -> WordArray;
  (** [CryptoJS.HmacSHA256(message, key)] *)
  HmacSHA256 : WordArray -> HmacKey -> WordArray;
  (** [CryptoJS.PBKDF2(password, salt, { hasher, iterations, keySize })] *)
  PBKDF2 : string -> WordArray -> Hasher -> option JS.number -> Z -> WordArray;
  (** [CryptoJS.enc.Hex.parse(hexStr)] *)
  Hex_parse : string -> WordArray;
  (** [wordArray.toString()], which is [CryptoJS.enc.Hex.stringify] *)
  Hex_stringify : WordArray -> string;
}.

(** ** The world outside the program *)

(** A request as it leaves through axios. *)
Record Request := mkRequest {
  method : string;
  uri : string;
  reqHeaders : list (string * option string);
  reqBody : option string;
}.

(** The page, when the program runs in a browser: the text of its [h2] and
    [code] elements, which the page is taken to contain, and
    [window.localStorage]. *)
Record Browser := mkBrowser {
  h2_innerText : string;
  code_innerText : string;
  localStorage : gmap string string;
}.

Record World := mkWorld {
  (** WordArray objects, by address *)
  heap : list WordArray;
  (** lines written with [console.log] and [console.error] *)
  console : list string;
  (** [None] under node, where [document] and [window] are undefined *)
  browser : option Browser;
  (** requests handed to axios so far, oldest first *)
  requests : list Request;
  (** what the n-th call of [WordArray.random] returns in this run *)
  rng : nat -> Z -> WordArray;
  draws : nat;
}.

(** The address of an object in the heap. *)
Abbreviation loc := nat.

Definition set_heap (f : list WordArray -> list WordArray) (w : World) : World :=
  mkWorld (f (heap w)) (console w) (browser w) (requests w) (rng w) (draws w).
Definition set_console (f : list string -> list string) (w : World) : World :=
  mkWorld (heap w) (f (console w)) (browser w) (requests w) (rng w) (draws w).
Definition set_browser (f : option Browser -> option Browser) (w : World) : World :=
  mkWorld (heap w) (console w) (f (browser w)) (requests w) (rng w) (draws w).
Definition set_requests (f : list Request -> list Request) (w : World) : World :=
  mkWorld (heap w) (console w) (browser w) (f (requests w)) (rng w) (draws w).
Definition set_draws (f : nat -> nat) (w : World) : World :=
  mkWorld (heap w) (console w) (browser w) (requests w) (rng w) (f (draws w)).

(** ** HwScramAuth *)

Module HwScramAuth.

(** The fields of the object; all but [pwd] are [undefined] until
    [setParams] assigns them. *)
Record t := mk {
  clientNonce : option string;
  iters : option JS.number;
  pwd : string;
  salt : option string;
  serverNonce : option string;
  sigSecret : option string;
}.

Definition KEYSIZE : Z := 8.

(** [new HwScramAuth(pwd)] *)
Definition new (pwd : string) : t := mk None None pwd None None None.

(** The state a method runs in: its receiver and the world. *)
Record St := mkSt { self : t; world : World }.

Definition on_self (f : t -> t) (s : St) : St := mkSt (f (self s)) (world s).
Definition on_world (f : World -> World) (s : St) : St := mkSt (self s) (f (world s)).

(** A library call hands back a fresh object. *)
Definition alloc (w : WordArray) : Eff St loc :=
  fun s => (JS.Normal (length (heap (world s))),
            on_world (set_heap (fun h => h ++ [w])) s).
Definition deref (l : loc) : Eff St WordArray :=
  gets (fun s => heap (world s) !!! l).
Definition store (l : loc) (w : WordArray) : Eff St unit :=
  modify (on_world (set_heap (fun h => <[l := w]> h))).
Definition console_log (line : string) : Eff St unit :=
  modify (on_world (set_console (fun c => c ++ [line]))).

Section Methods.
Context {lib : CryptoJS}.

(** [wordArray.toString()] *)
Definition toString (l : loc) : Eff St string :=
  (let* w := deref l in ret (Hex_stringify w))%eff.

Definition generateNonce : Eff St string :=
  (let* r := gets (fun s => rng (world s) (draws (world s)) 32) in
   do modify (on_world (set_draws S)) ;;
   let* l := alloc r in
   toString l)%eff.

Definition setParams (cNonce sNonce salt_ : string) (iters_ : JS.number)
  : Eff St unit :=
  (do modify (on_self (fun o =>
        mk (Some cNonce) (iters o) (pwd o) (salt o) (serverNonce o) (sigSecret o))) ;;
   do modify (on_self (fun o =>
        mk (clientNonce o) (Some iters_) (pwd o) (salt o) (serverNonce o) (sigSecret o))) ;;
   do modify (on_self (fun o =>
        mk (clientNonce o) (iters o) (pwd o) (Some salt_) (serverNonce o) (sigSecret o))) ;;
   do modify (on_self (fun o =>
        mk (clientNonce o) (iters o) (pwd o) (salt o) (Some sNonce) (sigSecret o))) ;;
   modify (on_self (fun o =>
        mk (clientNonce o) (iters o) (pwd o) (salt o) (serverNonce o)
           (Some (cNonce +:+ "," +:+ sNonce +:+ "," +:+ sNonce)))))%eff.

(** [CryptoJS.enc.Hex.parse(this.salt)] reads [hexStr.length] and so
    throws on [undefined]. *)
Definition parse_hex (v : option string) : Eff St loc :=
  match v with
  | Some hexStr => alloc (Hex_parse hexStr)
  | None => throw (JS.TypeError "Cannot read properties of undefined (reading 'length')")
  end.

(** [CryptoJS.HmacSHA256(message, key)] with a string key that may be
    [undefined], on which the library throws when it reads
    [key.sigBytes]. *)
Definition hmac_string_key (message : loc) (key : option string) : Eff St loc :=
  match key with
  | Some k => (let* m := deref message in alloc (HmacSHA256 m (KeyString k)))%eff
  | None => throw (JS.TypeError "Cannot read properties of undefined (reading 'sigBytes')")
  end.

Definition deriveKey (hmacKey : string) : Eff St loc :=
  (let* password := gets (fun s => pwd (self s)) in
   let* saltHex := gets (fun s => salt (self s)) in
   let* saltWords := parse_hex saltHex in
   let* iterations := gets (fun s => iters (self s)) in
   let* saltBytes := deref saltWords in
   let* saltedPwd := alloc (PBKDF2 password saltBytes algo_SHA256 iterations KEYSIZE) in
   hmac_string_key saltedPwd (Some hmacKey))%eff.

(** [[...Array(n).keys()]] for [n = sigBytes / 4]: the array constructor
    throws unless [n] is an integer in the range of array lengths. *)
Definition array_keys (sigBytes_ : Z) : Eff St (list nat) :=
  if decide (sigBytes_ mod 4 = 0 /\ 0 <= sigBytes_ / 4 < 2 ^ 32)
  then ret (seq 0 (Z.to_nat (sigBytes_ / 4)))
  else throw (JS.RangeError "Invalid array length").

(** The loop of [calcProof]:
    [clientKey.words[i] = clientKey.words[i] ^ signature.words[i]]
    for every [i] below [clientKey.sigBytes / 4]. *)
Definition xor_word (clientKey signature : loc) (i : nat) : Eff St unit :=
  (let* ck := deref clientKey in
   let* sg := deref signature in
   store clientKey
     (mkWordArray
        (JS.array_set i (JS.bxor (words ck !! i) (words sg !! i)) (words ck))
        (sigBytes ck)))%eff.

Definition xor_words (clientKey signature : loc) : Eff St unit :=
  (let* n := (let* ck := deref clientKey in ret (sigBytes ck)) in
   let* keys := array_keys n in
   for_of keys (xor_word clientKey signature))%eff.

Definition calcProof : Eff St string :=
  (let* clientKey := deriveKey "Client Key" in
   let* clientDgst := toString clientKey in
   let* clientKeyWords := deref clientKey in
   let* storedKey := alloc (digest algo_SHA256 clientKeyWords) in
   let* sigSecret_ := gets (fun s => sigSecret (self s)) in
   let* signature := hmac_string_key storedKey sigSecret_ in
   do xor_words clientKey signature ;;
   let* node := gets (fun s => bool_decide (browser (world s) = None)) in
   do (if node then
         do console_log EmptyString ;;
         let* cn := gets (fun s => clientNonce (self s)) in
         do console_log ("Client nonce:     " +:+ JS.str cn) ;;
         let* sn := gets (fun s => serverNonce (self s)) in
         do console_log ("Server nonce:     " +:+ JS.str sn) ;;
         let* sl := gets (fun s => salt (self s)) in
         do console_log ("Salt:             " +:+ JS.str sl) ;;
         do console_log "----------------------------" ;;
         do console_log ("Client digest:    " +:+ clientDgst) ;;
         let* sk := toString storedKey in
         do console_log ("Stored digest:    " +:+ sk) ;;
         let* sg := toString signature in
         do console_log ("Signature digest: " +:+ sg) ;;
         do console_log "----------------------------" ;;
         let* pr := toString clientKey in
         do console_log ("Login proof:      " +:+ pr) ;;
         console_log EmptyString
       else ret tt) ;;
   toString clientKey)%eff.

Definition calcServerProof : Eff St string :=
  (let* serverKey := deriveKey "Server Key" in
   let* sigSecret_ := gets (fun s => sigSecret (self s)) in
   let* signature := hmac_string_key serverKey sigSecret_ in
   toString signature)%eff.

Definition calcPubSig (key : string) : Eff St string :=
  (let* serverKeyD := deriveKey "Server Key" in
   let* hex := toString serverKeyD in
   let* serverKey := alloc (Hex_parse hex) in
   let* publicKey := alloc (Hex_parse key) in
   let* pk := deref publicKey in
   let* sk := deref serverKey in
   let* signature := alloc (HmacSHA256 pk (KeyWords sk)) in
   toString signature)%eff.

End Methods.

End HwScramAuth.

(** ** HwEndpoints *)

Module HwEndpoints.
Definition TOKEN : string := "/api/webserver/token".
Definition SCRAM_PHASE_ONE : string := "/api/user/challenge_login".
Definition SCRAM_PHASE_TWO : string := "/api/user/authentication_login".
Definition REBOOT : string := "/api/device/control".
End HwEndpoints.

(** ** The transport (axios) and the XML parser (xml2js) *)

(** What axios hands to a [then] callback.  The names in [headers] are
    lower-cased by axios. *)
Record AxiosResponse := mkAxiosResponse {
  statusText : string;
  headers : gmap string string;
  data : string;
}.

(** A request either resolves with a response or rejects. *)
Inductive AxiosOutcome :=
| Resolves (r : AxiosResponse)
| Rejects (e : JS.Error).

Definition lower_ascii (c : ascii) : ascii :=
  let n := nat_of_ascii c in
  if decide (65 <= n <= 90)%nat then ascii_of_nat (n + 32) else c.

Fixpoint lower (s : string) : string :=
  match s with
  | EmptyString => EmptyString
  | String c s' => String (lower_ascii c) (lower s')
  end.

(** How axios builds [response.headers] from the header lines received:
    names are lower-cased, values of a repeated name are joined. *)
Fixpoint axios_headers (lines : list (string * string)) : gmap string string :=
  match lines with
  | [] => ∅
  | (k, v) :: rest =>
      let m := axios_headers rest in
      match m !! lower k with
      | None => <[lower k := v]> m
      | Some later => <[lower k := v +:+ ", " +:+ later]> m
      end
  end.

(** The document xml2js builds from a flat XML body: the name of the root
    element and its child elements with their text, in document order.
    [result.<root>] is an object whose property [<child>] is the array of
    the texts of the children of that name. *)
Record XmlDoc := mkXmlDoc { root : string; children : list (string * string) }.

(** The two arguments xml2js passes to the callback of [parseString]. *)
Record ParseResult := mkParseResult {
  err : option JS.Error;
  result : option XmlDoc;
}.

(** The server and the parser, which the program only calls. *)
Class Host := {
  (** the answer of the device to a request *)
  axios : Request -> AxiosOutcome;
  (** [parseString] of xml2js *)
  parseXmlStr : string -> ParseResult;
}.

(** A string holds the UTF-8 encoding of the JavaScript text.  Where
    JavaScript counts UTF-16 code units or tells characters apart, the
    bytes are read as the characters they encode. *)

(** The low surrogate of a character of four bytes, of which [c3] and [c4]
    are the last two, in the three bytes generalized UTF-8 gives it. *)
Definition low_surrogate (c3 c4 : ascii) : string :=
  String (ascii_of_nat 237)
    (String (ascii_of_nat (176 + nat_of_ascii c3 mod 16)) (String c4 EmptyString)).

(** [s.substring(n)]: [n] counts UTF-16 code units.  A character of one,
    two or three bytes is one unit, a character of four bytes is a pair of
    surrogates; a cut between the two leaves the low surrogate. *)
Fixpoint substring_from (n : nat) (s : string) {struct s} : string :=
  match n, s with
  | O, _ => s
  | S n', String c1 s1 =>
      let b := nat_of_ascii c1 in
      if decide (b < 192)%nat then substring_from n' s1
      else
        match s1 with
        | String _ s2 =>
            if decide (b < 224)%nat then substring_from n' s2
            else
              match s2 with
              | String c3 s3 =>
                  if decide (b < 240)%nat then substring_from n' s3
                  else
                    match s3 with
                    | String c4 s4 =>
                        match n' with
                        | O => low_surrogate c3 c4 +:+ s4
                        | S n'' => substring_from n'' s4
                        end
                    | EmptyString => EmptyString
                    end
              | EmptyString => EmptyString
              end
        | EmptyString => EmptyString
        end
  | S _, EmptyString => EmptyString
  end.

(** [parseInt(s, 10)]: leading white space, an optional sign, then the
    longest run of decimal digits; NaN when there is none, else the Number
    nearest to the integer read.

    White space, which is WhiteSpace and LineTerminator of ECMAScript, is
    told by its bytes: U+0009 to U+000D and U+0020 take one, *)
Definition is_space (c : ascii) : bool :=
  let n := nat_of_ascii c in
  bool_decide (n = 32 \/ 9 <= n <= 13)%nat.

(** U+00A0 takes two, *)
Definition is_space2 (c1 c2 : ascii) : bool :=
  bool_decide (nat_of_ascii c1 = 194 /\ nat_of_ascii c2 = 160)%nat.

(** and U+1680, U+2000 to U+200A, U+2028, U+2029, U+202F, U+205F, U+3000
    and U+FEFF take three. *)
Definition is_space3 (c1 c2 c3 : ascii) : bool :=
  let n1 := nat_of_ascii c1 in
  let n2 := nat_of_ascii c2 in
  let n3 := nat_of_ascii c3 in
  bool_decide
    ((n1 = 225 /\ n2 = 154 /\ n3 = 128)
     \/ (n1 = 226 /\ n2 = 128 /\ (128 <= n3 <= 138 \/ n3 = 168 \/ n3 = 169 \/ n3 = 175))
     \/ (n1 = 226 /\ n2 = 129 /\ n3 = 159)
     \/ (n1 = 227 /\ n2 = 128 /\ n3 = 128)
     \/ (n1 = 239 /\ n2 = 187 /\ n3 = 191))%nat.

Definition digit_of (c : ascii) : option Z :=
  let n := nat_of_ascii c in
  if decide (48 <= n <= 57)%nat then Some (Z.of_nat n - 48) else None.

Fixpoint skip_spaces (s : string) : string :=
  match s with
  | String c1 s1 =>
      if is_space c1 then skip_spaces s1
      else
        match s1 with
        | String c2 s2 =>
            if is_space2 c1 c2 then skip_spaces s2
            else
              match s2 with
              | String c3 s3 => if is_space3 c1 c2 c3 then skip_spaces s3 else s
              | EmptyString => s
              end
        | EmptyString => s
        end
  | EmptyString => s
  end.

Fixpoint digits_value (acc : option Z) (s : string) : option Z :=
  match s with
  | String c s' =>
      match digit_of c with
      | Some d => digits_value (Some (10 * default 0 acc + d)) s'
      | None => acc
      end
  | EmptyString => acc
  end.

(** The Number nearest to an integer: the integer itself below 2^53 in
    size, and above that the nearest integer of 53 significant bits, the
    even one of two that are equally near.  The largest double is not
    modelled: an integer of 2^1024 or more, which is Infinity in
    JavaScript, is rounded in the same way. *)
Definition nearest_double (z : Z) : Z :=
  let a := Z.abs z in
  if decide (a < 2 ^ 53) then z
  else
    let e := Z.log2 a - 52 in
    let q := a / 2 ^ e in
    let r := a mod 2 ^ e in
    let half := 2 ^ (e - 1) in
    let q' := if decide (half < r \/ (r = half /\ Z.odd q = true)) then q + 1 else q in
    Z.sgn z * (q' * 2 ^ e).

(** Negative zero is taken for zero. *)
Definition parseInt10 (s : string) : JS.number :=
  let s1 := skip_spaces s in
  let '(sign, s2) :=
    match s1 with
    | String "-" r => (-1, r)
    | String "+" r => (1, r)
    | _ => (1, s1)
    end in
  match digits_value None s2 with
  | Some v => JS.Num (nearest_double (sign * v))
  | None => JS.NaN
  end.

(** ** HwRequest *)

(** The double-quote character. *)
Definition dquote : string :=
  String (Ascii false true false false false true false false) EmptyString.

Module HwRequest.

Record t := mk {
  xmlStr : string;
  uri : string;
  headers : list (string * option string);
}.

Definition new (uri_ : string) (headers_ : list (string * option string)) : t :=
  mk ("<?xml version=" +:+ dquote +:+ "1.0" +:+ dquote +:+ " encoding="
        +:+ dquote +:+ "utf-8" +:+ dquote +:+ "?><request>") uri_ headers_.

(** [add(node, content)] *)
Definition add (node content : string) (r : t) : t :=
  let openTag := "<" +:+ node +:+ ">" in
  let closeTag := "</" +:+ node +:+ ">" in
  mk (xmlStr r +:+ openTag +:+ content +:+ closeTag) (uri r) (headers r).

(** The request [send()] passes to [axios.post]. *)
Definition request (r : t) : Request :=
  let body := xmlStr r +:+ "</request>" in
  mkRequest "post" (uri r) (headers r) (Some body).

End HwRequest.

(** ** Promises *)

(** How a promise ends: fulfilled, rejected, or never settled. *)
Inductive Settled (A : Type) : Type :=
| Fulfilled (a : A)
| Rejected (e : JS.Error)
| Pending.
Arguments Fulfilled {A} a.
Arguments Rejected {A} e.
Arguments Pending {A}.

Definition Promise (S A : Type) : Type := S -> Settled A * S.

(** A callback that runs to completion: its value fulfils the promise, an
    error it throws rejects it. *)
Definition run {S A} (m : Eff S A) : Promise S A :=
  fun s => match m s with
           | (JS.Normal a, s') => (Fulfilled a, s')
           | (JS.Throw e, s') => (Rejected e, s')
           end.

(** [p.then(f)]: [f] runs only if [p] is fulfilled; a rejection of [p]
    passes through. *)
Definition then_ {S A B} (p : Promise S A) (f : A -> Promise S B) : Promise S B :=
  fun s => match p s with
           | (Fulfilled a, s') => f a s'
           | (Rejected e, s') => (Rejected e, s')
           | (Pending, s') => (Pending, s')
           end.

(** [p.catch(h)] for a handler that returns nothing: the new promise is
    fulfilled with the value of [p], or with [undefined] once the handler
    has run. *)
Definition catch_ {S A} (p : Promise S A) (h : JS.Error -> Eff S unit)
  : Promise S (option A) :=
  fun s => match p s with
           | (Fulfilled a, s') => (Fulfilled (Some a), s')
           | (Rejected e, s') => run (bind (h e) (fun _ => ret None)) s'
           | (Pending, s') => (Pending, s')
           end.

(** ** HwApi *)

Module HwApi.

Record t := mk {
  authPwd : string;
  authUser : string;
  server : string;
}.

(** [new HwApi(server, user, pwd)] *)
Definition new (server_ user pwd_ : string) : t :=
  mk pwd_ user ("http://" +:+ server_).

(** The variables of one call of [login], which its callbacks share, the
    resolver of the promise under construction, and the world. *)
Record Frame := mkFrame {
  scram : HwScramAuth.t;
  serverNonce : option string;
  veriToken : option string;
  settled : option (JS.Completion string);
  world : World;
}.

Definition set_serverNonce (v : option string) (f : Frame) : Frame :=
  mkFrame (scram f) v (veriToken f) (settled f) (world f).
Definition set_veriToken (v : option string) (f : Frame) : Frame :=
  mkFrame (scram f) (serverNonce f) v (settled f) (world f).
Definition set_settled (v : option (JS.Completion string)) (f : Frame) : Frame :=
  mkFrame (scram f) (serverNonce f) (veriToken f) v (world f).
Definition on_world (g : World -> World) (f : Frame) : Frame :=
  mkFrame (scram f) (serverNonce f) (veriToken f) (settled f) (g (world f)).

(** A method call on [scram]. *)
Definition call_scram {A} (m : Eff HwScramAuth.St A) : Eff Frame A :=
  fun f =>
    let '(c, s) := m (HwScramAuth.mkSt (scram f) (world f)) in
    (c, mkFrame (HwScramAuth.self s) (serverNonce f) (veriToken f) (settled f)
                (HwScramAuth.world s)).

(** [res(v)] and [rej(e)]: only the first call settles the promise. *)
Definition settle (c : JS.Completion string) : Eff Frame unit :=
  modify (fun f => match settled f with
                   | None => set_settled (Some c) f
                   | Some _ => f
                   end).
Definition res (v : string) : Eff Frame unit := settle (JS.Normal v).
Definition rej (e : JS.Error) : Eff Frame unit := settle (JS.Throw e).

(** [new Promise((res, rej) => { executor })]: an error that escapes the
    executor rejects the promise unless it is settled already; if the
    executor ends without settling, the promise stays pending. *)
Definition new_Promise (executor : Eff Frame unit) : Promise Frame string :=
  fun f =>
    let '(c, f') := executor (set_settled None f) in
    match settled f', c with
    | Some (JS.Normal v), _ => (Fulfilled v, f')
    | Some (JS.Throw e), _ => (Rejected e, f')
    | None, JS.Throw e => (Rejected e, f')
    | None, JS.Normal _ => (Pending, f')
    end.

Definition console_log (line : string) : Eff Frame unit :=
  modify (on_world (set_console (fun c => c ++ [line]))).

(** Property access on what xml2js returned. *)
Definition cannot_read (prop : string) : JS.Error :=
  JS.TypeError ("Cannot read properties of undefined (reading '" +:+ prop +:+ "')").

(** [result.<name>], where [result] may be undefined *)
Definition result_prop (result_ : option XmlDoc) (name : string)
  : Eff Frame (option (list (string * string))) :=
  match result_ with
  | None => throw (cannot_read name)
  | Some d => ret (if decide (root d = name) then Some (children d) else None)
  end.

(** The texts of the children called [name]: a non-empty array, or
    undefined. *)
Definition elements (cs : list (string * string)) (name : string)
  : option (string * list string) :=
  match (filter (fun c => c.1 = name) cs).*2 with
  | [] => None
  | x :: xs => Some (x, xs)
  end.

(** [obj.<name>], where [obj] may be undefined *)
Definition member (obj : option (list (string * string))) (name : string)
  : Eff Frame (option (string * list string)) :=
  match obj with
  | None => throw (cannot_read name)
  | Some cs => ret (elements cs name)
  end.

(** [arr[0]], where [arr] may be undefined *)
Definition first (arr : option (string * list string)) : Eff Frame string :=
  match arr with
  | None => throw (cannot_read "0")
  | Some (x, _) => ret x
  end.

(** ToString of an array of strings, or of undefined *)
Fixpoint join (sep : string) (xs : list string) : string :=
  match xs with
  | [] => EmptyString
  | [x] => x
  | x :: rest => x +:+ sep +:+ join sep rest
  end.
Definition array_str (arr : option (string * list string)) : string :=
  match arr with
  | None => "undefined"
  | Some (x, xs) => join "," (x :: xs)
  end.

Definition get_request (uri_ : string) : Request := mkRequest "get" uri_ [] None.

Section Login.
Context {lib : CryptoJS} {host : Host}.

(** The request is handed to axios. *)
Definition axios_send (req : Request) : Eff Frame unit :=
  modify (on_world (set_requests (fun l => l ++ [req]))).

(** Its answer arrives. *)
Definition axios_answer (req : Request) : Promise Frame AxiosResponse :=
  fun f => match axios req with
           | Resolves r => (Fulfilled r, f)
           | Rejects e => (Rejected e, f)
           end.

(** [initSession()], from the point where the answer to its GET arrives *)
Definition initSession_resume (api : t) : Promise Frame bool :=
  then_ (axios_answer (get_request (server api)))
    (fun response => run (ret (bool_decide (statusText response = "OK")))).

Definition getServerToken (api : t) : Promise Frame (option (string * list string)) :=
  let uri_ := server api +:+ HwEndpoints.TOKEN in
  then_ (run (axios_send (get_request uri_)))
    (fun _ =>
       then_ (axios_answer (get_request uri_))
         (fun response =>
            run (let* resp := result_prop (result (parseXmlStr (data response))) "response" in
                 member resp "token")%eff)).

(** [scramOne.send()] and [scramTwo.send()] *)
Definition HwRequest_send (r : HwRequest.t) : Promise Frame AxiosResponse :=
  then_ (run (axios_send (HwRequest.request r)))
    (fun _ => axios_answer (HwRequest.request r)).

(** The callback given to [parseXmlStr] in phase one. *)
Definition phaseOne_parsed (clientNonce : string) (p : ParseResult) : Eff Frame unit :=
  (let* error := result_prop (result p) "error" in
   do match error with
      | Some cs =>
          let waitTime := elements cs "waittime" in
          rej (JS.Error_ ("Too many incorrect login attempts, try again in "
                          +:+ array_str waitTime +:+ " minutes."))
      | None =>
          match err p with
          | Some e => rej e
          | None => ret tt
          end
      end ;;
   let* response := result_prop (result p) "response" in
   let* sn := (let* a := member response "servernonce" in first a) in
   do modify (set_serverNonce (Some sn)) ;;
   let* salt := (let* a := member response "salt" in first a) in
   let* its := (let* a := member response "iterations" in first a) in
   let iterations := parseInt10 its in
   try_catch
     (do call_scram (HwScramAuth.setParams clientNonce sn salt iterations) ;;
      let* proof := call_scram HwScramAuth.calcProof in
      res proof)
     (fun e => throw (JS.Error_ ("Failed to generate client proof. "
                                 +:+ JS.Error_toString e))))%eff.

(** [window.localStorage.setItem(k, v)] on the storage fetched before *)
Definition setItem (k v : string) : Eff Frame unit :=
  modify (on_world (set_browser (fmap (fun b =>
    mkBrowser (h2_innerText b) (code_innerText b) (<[k := v]> (localStorage b)))))).

Definition set_h2 (v : string) : Eff Frame unit :=
  modify (on_world (set_browser (fmap (fun b =>
    mkBrowser v (code_innerText b) (localStorage b))))).
Definition set_code (v : string) : Eff Frame unit :=
  modify (on_world (set_browser (fmap (fun b =>
    mkBrowser (h2_innerText b) v (localStorage b))))).

(** The body of the [try] in phase two: the server proof is compared
    first, the signature of the public key second, and only then is
    the key stored. *)
Definition verify_server (result_ : option XmlDoc) : Eff Frame unit :=
  (let* calcProof := call_scram HwScramAuth.calcServerProof in
   let* response := result_prop result_ "response" in
   let* resProof := (let* a := member response "serversignature" in first a) in
   if decide (calcProof = resProof) then
     let* serverSig := (let* a := member response "rsapubkeysignature" in first a) in
     let* pubKey := (let* a := member response "rsan" in first a) in
     let* pubKeySig := call_scram (HwScramAuth.calcPubSig pubKey) in
     if decide (serverSig = pubKeySig) then
       let* page := gets (fun f => browser (world f)) in
       do match page with
          | Some _ => ret tt
          | None => throw (JS.ReferenceError "window is not defined")
          end ;;
       let* rsaN := (let* a := member response "rsan" in first a) in
       let* rsaE := (let* a := member response "rsae" in first a) in
       do setItem "rsan" rsaN ;;
       do setItem "rsae" rsaE ;;
       match page with
       | Some _ =>
           let rsaData := "rsan=" +:+ rsaN +:+ ", rsae=" +:+ rsaE in
           do set_h2 "Logged in!" ;;
           set_code rsaData
       | None => console_log "Server identity successfully verified."
       end
     else rej (JS.Error_ "Server provided an invalid RSA public key.")
   else rej (JS.Error_ "Could not verify server identity."))%eff.

(** The callback given to [parseXmlStr] in phase two. *)
Definition phaseTwo_parsed (p : ParseResult) : Eff Frame unit :=
  (do match err p with
      | Some e => rej (JS.Error_ ("SCRAM auth failed. " +:+ JS.Error_toString e))
      | None => ret tt
      end ;;
   try_catch (verify_server (result p))
     (fun e => rej (JS.Error_ ("Failed to generate server proof. "
                               +:+ JS.Error_toString e))))%eff.

(** The handler of the final [catch]. *)
Definition report (error : JS.Error) : Eff Frame unit :=
  (let errHead := "Error while logging in" in
   let errMsg := JS.message error in
   let* page := gets (fun f => browser (world f)) in
   match page with
   | Some _ =>
       do set_h2 errHead ;;
       set_code errMsg
   | None => console_log (errHead +:+ ": " +:+ errMsg)
   end)%eff.

(** The callbacks of the chain, in the order they are attached. *)

Definition on_session (api : t) (ok : bool)
  : Promise Frame (option (string * list string)) :=
  if ok then getServerToken api
  else run (throw (JS.Error_ "Session failed to initialize")).

Definition scramOne (api : t) (clientNonce token0 : string) : HwRequest.t :=
  let uri_ := server api +:+ HwEndpoints.SCRAM_PHASE_ONE in
  let scramOne := HwRequest.new uri_
    [("Content-Type", Some "text/html");
     ("__RequestVerificationToken", Some (substring_from 32 token0))] in
  let scramOne := HwRequest.add "username" (authUser api) scramOne in
  let scramOne := HwRequest.add "firstnonce" clientNonce scramOne in
  let scramOne := HwRequest.add "mode" "1" scramOne in
  scramOne.

Definition on_token (api : t) (clientNonce : string)
    (token : option (string * list string)) : Promise Frame AxiosResponse :=
  then_ (run (first token))
    (fun token0 => HwRequest_send (scramOne api clientNonce token0)).

Definition on_challenge_reply (scramReply : AxiosResponse) : Promise Frame string :=
  run (do modify (set_veriToken (headers scramReply !! "__requestverificationtoken")) ;;
       let* v := gets veriToken in
       match v with
       | None => throw (JS.Error_ "Server did not supply verification token")
       | Some _ => ret (data scramReply)
       end)%eff.

Definition on_challenge_body (clientNonce responseStr : string)
  : Promise Frame string :=
  new_Promise (phaseOne_parsed clientNonce (parseXmlStr responseStr)).

Definition scramTwo (api : t) (veriToken_ : option string)
    (loginProof : string) (serverNonce_ : option string) : HwRequest.t :=
  let uri_ := server api +:+ HwEndpoints.SCRAM_PHASE_TWO in
  let scramTwo := HwRequest.new uri_
    [("Content-Type", Some "application/x-www-form-urlencoded; charset=UTF-8");
     ("__RequestVerificationToken", veriToken_)] in
  let scramTwo := HwRequest.add "clientproof" loginProof scramTwo in
  let scramTwo := HwRequest.add "finalnonce" (JS.str serverNonce_) scramTwo in
  scramTwo.

Definition on_proof (api : t) (loginProof : string) : Promise Frame AxiosResponse :=
  then_ (run (let* v := gets veriToken in
              let* sn := gets serverNonce in
              ret (scramTwo api v loginProof sn))%eff)
    HwRequest_send.

Definition on_authentication_reply (scramReply : AxiosResponse)
  : Promise Frame string :=
  run (do match headers scramReply !! "__requestverificationtokenone" with
          | Some tok =>
              do modify (set_veriToken (Some tok)) ;;
              console_log ("Logged in successfully: " +:+ tok)
          | None =>
              let* v := gets veriToken in
              match v with
              | None => throw (JS.Error_ "Server did not supply new verification token")
              | Some _ => ret tt
              end
          end ;;
       ret (data scramReply))%eff.

Definition on_authentication_body (text : string) : Promise Frame string :=
  new_Promise (phaseTwo_parsed (parseXmlStr text)).

(** The chain of [then] callbacks up to the reply to phase one, *)
Definition chain_to_challenge (api : t) (clientNonce : string)
  : Promise Frame AxiosResponse :=
  then_ (then_ (initSession_resume api) (on_session api)) (on_token api clientNonce).

(** up to the reply to phase two, *)
Definition chain_to_authentication (api : t) (clientNonce : string)
  : Promise Frame AxiosResponse :=
  then_ (then_ (then_ (chain_to_challenge api clientNonce)
    on_challenge_reply)
    (on_challenge_body clientNonce))
    (on_proof api).

(** and to its end, without the final [catch]; it starts when the answer
    to the first GET arrives. *)
Definition chain (api : t) (clientNonce : string) : Promise Frame string :=
  then_ (then_ (chain_to_authentication api clientNonce)
    on_authentication_reply)
    on_authentication_body.

(** The whole chain, as the event loop runs it after [login] returned. *)
Definition chain_caught (api : t) (clientNonce : string)
  : Promise Frame (option string) :=
  catch_ (chain api clientNonce) report.

(** What [login()] does before it returns: it creates [scram], draws the
    client nonce, starts [initSession()], which calls [axios.get] at
    once, and builds the chain; no callback of the chain has run when
    [return veriToken] is reached. *)
Definition login_call (api : t) : Eff Frame (option string * string) :=
  (let* clientNonce := call_scram HwScramAuth.generateNonce in
   do axios_send (get_request (server api)) ;;
   let* returned := gets veriToken in
   ret (returned, clientNonce))%eff.

(** A run of [login()] in world [w]: the value the call returns, then how
    the chain ends and the state it leaves. *)
Definition login (api : t) (w : World)
  : JS.Completion (option string) * (Settled (option string) * Frame) :=
  let f0 := mkFrame (HwScramAuth.new (authPwd api)) None None None w in
  match login_call api f0 with
  | (JS.Normal (returned, clientNonce), f1) =>
      (JS.Normal returned, chain_caught api clientNonce f1)
  | (JS.Throw e, f1) => (JS.Throw e, (Pending, f1))
  end.

End Login.

End HwApi.

(** ** A reference instance of the library

    SHA-256 (FIPS 180-4), HMAC (RFC 2104) and PBKDF2 (RFC 8018) over byte
    lists, wrapped into WordArrays the way crypto-js lays them out.  It
    serves to run the program on concrete inputs. *)

Module Ref.

(** The four bytes of a word, most significant first. *)
Definition word_bytes (x : Z) : list Z :=
  let u := JS.ToUint32 x in
  [u / 2 ^ 24 mod 256; u / 2 ^ 16 mod 256; u / 2 ^ 8 mod 256; u mod 256].

(** The significant bytes of a WordArray; words that are missing count
    as 0. *)
Definition bytes_of (w : WordArray) : list Z :=
  let n := Z.to_nat (sigBytes w) in
  take n (flat_map word_bytes (words w) ++ replicate n 0).

Definition word_u (b0 b1 b2 b3 : Z) : Z :=
  ((b0 * 256 + b1) * 256 + b2) * 256 + b3.

Definition word_of (b0 b1 b2 b3 : Z) : Z := JS.ToInt32 (word_u b0 b1 b2 b3).

(** Bytes to words, big-endian, by the packing [f]. *)
Fixpoint pack (f : Z -> Z -> Z -> Z -> Z) (bs : list Z) : list Z :=
  match bs with
  | b0 :: b1 :: b2 :: b3 :: rest => f b0 b1 b2 b3 :: pack f rest
  | [b0; b1; b2] => [f b0 b1 b2 0]
  | [b0; b1] => [f b0 b1 0 0]
  | [b0] => [f b0 0 0 0]
  | [] => []
  end.

Definition of_bytes (bs : list Z) : WordArray :=
  mkWordArray (pack word_of bs) (Z.of_nat (length bs)).

(** *** SHA-256 *)

Definition add32 (a b : Z) : Z := (a + b) mod 2 ^ 32.
Definition rotr (n x : Z) : Z :=
  Z.lor (Z.shiftr x n) (Z.shiftl x (32 - n) mod 2 ^ 32).
Definition not32 (x : Z) : Z := Z.lxor x 0xffffffff.

Definition Ch (x y z : Z) : Z := Z.lxor (Z.land x y) (Z.land (not32 x) z).
Definition Maj (x y z : Z) : Z :=
  Z.lxor (Z.lxor (Z.land x y) (Z.land x z)) (Z.land y z).
Definition bsig0 (x : Z) : Z := Z.lxor (Z.lxor (rotr 2 x) (rotr 13 x)) (rotr 22 x).
Definition bsig1 (x : Z) : Z := Z.lxor (Z.lxor (rotr 6 x) (rotr 11 x)) (rotr 25 x).
Definition ssig0 (x : Z) : Z := Z.lxor (Z.lxor (rotr 7 x) (rotr 18 x)) (Z.shiftr x 3).
Definition ssig1 (x : Z) : Z := Z.lxor (Z.lxor (rotr 17 x) (rotr 19 x)) (Z.shiftr x 10).

(** The primes below [n], smallest first. *)
Definition primes_below (n : nat) : list Z :=
  map Z.of_nat
    (filter (fun p => forallb (fun d => negb (p mod d =? 0)%nat) (seq 2 (p - 2)))
            (seq 2 (n - 2))).

(** The integer cube root, by bisection between [lo] and [hi]. *)
Fixpoint root3 (fuel : nat) (lo hi n : Z) : Z :=
  match fuel with
  | O => lo
  | S fuel' =>
      let mid := (lo + hi) / 2 in
      if mid * mid * mid <=? n then root3 fuel' mid hi n else root3 fuel' lo mid n
  end.

(** The round constants: the first 32 bits of the fractional parts of the
    cube roots of the first 64 primes. *)
Definition K : list Z :=
  Eval vm_compute in
    map (fun p => root3 40 0 (2 ^ 36) (p * 2 ^ 96) mod 2 ^ 32) (primes_below 312).

Definition Regs : Type := Z * Z * Z * Z * Z * Z * Z * Z.

(** The initial hash value: the first 32 bits of the fractional parts of
    the square roots of the first 8 primes. *)
Definition H0 : Regs :=
  Eval vm_compute in
    match map (fun p => Z.sqrt (p * 2 ^ 64) mod 2 ^ 32) (primes_below 20) with
    | [a; b; c; d; e; f; g; h] => (a, b, c, d, e, f, g, h)
    | _ => (0, 0, 0, 0, 0, 0, 0, 0)
    end.

(** The message schedule: [n] more words after those in [ws]. *)
Fixpoint extend (n : nat) (ws : list Z) : list Z :=
  match n with
  | O => ws
  | S n' =>
      let back i := nth (length ws - i) ws 0 in
      extend n' (ws ++ [add32 (add32 (ssig1 (back 2%nat)) (back 7%nat))
                              (add32 (ssig0 (back 15%nat)) (back 16%nat))])
  end.

Definition round (s : Regs) (kw : Z * Z) : Regs :=
  let '(a, b, c, d, e, f, g, h) := s in
  let t1 := add32 (add32 (add32 (add32 h (bsig1 e)) (Ch e f g)) kw.1) kw.2 in
  let t2 := add32 (bsig0 a) (Maj a b c) in
  (add32 t1 t2, a, b, c, add32 d t1, e, f, g).

Definition compress (s : Regs) (block : list Z) : Regs :=
  let '(a, b, c, d, e, f, g, h) := s in
  let '(a', b', c', d', e', f', g', h') :=
    fold_left round (combine K (extend 48 block)) s in
  (add32 a a', add32 b b', add32 c c', add32 d d',
   add32 e e', add32 f f', add32 g g', add32 h h').

(** [n] as [k] bytes, big-endian *)
Fixpoint be (k : nat) (n : Z) : list Z :=
  match k with
  | O => []
  | S k' => be k' (n / 256) ++ [n mod 256]
  end.

Definition pad (msg : list Z) : list Z :=
  let l := length msg in
  msg ++ [128] ++ replicate ((64 - (l + 9) mod 64) mod 64)%nat 0
      ++ be 8 (8 * Z.of_nat l).

Fixpoint blocks (n : nat) (ws : list Z) : list (list Z) :=
  match n with
  | O => []
  | S n' => take 16 ws :: blocks n' (drop 16 ws)
  end.

(** The digest, as eight unsigned words *)
Definition sha256_words (msg : list Z) : list Z :=
  let ws := pack word_u (pad msg) in
  let '(a, b, c, d, e, f, g, h) :=
    fold_left compress (blocks (length ws / 16) ws) H0 in
  [a; b; c; d; e; f; g; h].

Definition sha256 (msg : list Z) : list Z := flat_map word_bytes (sha256_words msg).

(** *** HMAC-SHA256 and PBKDF2 *)

Definition hmac_words (key msg : list Z) : list Z :=
  let k0 := if decide (64 < length key)%nat then sha256 key else key in
  let k := k0 ++ replicate (64 - length k0) 0 in
  sha256_words (map (Z.lxor 0x5c) k ++ sha256 (map (Z.lxor 0x36) k ++ msg)).

Definition hmac (key msg : list Z) : list Z :=
  flat_map word_bytes (hmac_words key msg).

Fixpoint iterate (n : nat) (pw u acc : list Z) : list Z :=
  match n with
  | O => acc
  | S n' => let u' := hmac pw u in iterate n' pw u' (zip_with Z.lxor acc u')
  end.

Definition pbkdf2_block (pw salt_ : list Z) (c : nat) (i : Z) : list Z :=
  let u1 := hmac pw (salt_ ++ be 4 i) in
  iterate (c - 1) pw u1 u1.

(** *** The library functions *)

Definition utf8 (s : string) : list Z :=
  map (fun c => Z.of_nat (nat_of_ascii c)) (list_ascii_of_string s).

Definition key_bytes (k : HmacKey) : list Z :=
  match k with
  | KeyString s => utf8 s
  | KeyWords w => bytes_of w
  end.

(** A digest as the library returns it: eight signed words, 32 bytes. *)
Definition digest_of (ws : list Z) : WordArray :=
  mkWordArray (map JS.ToInt32 ws) 32.

Definition SHA256 (m : WordArray) : WordArray :=
  digest_of (sha256_words (bytes_of m)).

Definition HmacSHA256 (m : WordArray) (k : HmacKey) : WordArray :=
  digest_of (hmac_words (key_bytes k) (bytes_of m)).

(** The loop of the library runs [iterations - 1] times, not at all when
    [iterations] is undefined or NaN; blocks are appended while fewer than
    [keySize] words are there. *)
Definition PBKDF2 (password : string) (salt_ : WordArray)
    (iterations : option JS.number) (keySize : Z) : WordArray :=
  let c := match iterations with
           | Some (JS.Num z) => Z.to_nat z
           | _ => 1%nat
           end in
  let n := Z.to_nat ((keySize + 7) / 8) in
  let bs := flat_map (fun i => pbkdf2_block (utf8 password) (bytes_of salt_) c
                                 (Z.of_nat (S i)))
                     (seq 0 n) in
  mkWordArray (pack word_of bs) (keySize * 4).

(** *** Hex *)

Definition hex_digit (d : Z) : ascii :=
  nth (Z.to_nat d) (list_ascii_of_string "0123456789abcdef") "0"%char.

Definition hex_val (c : ascii) : option Z :=
  let n := Z.of_nat (nat_of_ascii c) in
  if decide (48 <= n <= 57) then Some (n - 48)
  else if decide (97 <= n <= 102) then Some (n - 87)
  else if decide (65 <= n <= 70) then Some (n - 55)
  else None.

Definition to_hex (bs : list Z) : string :=
  fold_right (fun b s => String (hex_digit (b / 16)) (String (hex_digit (b mod 16)) s))
             EmptyString bs.

Definition stringify (w : WordArray) : string := to_hex (bytes_of w).

(** [parseInt(pair, 16)], with NaN taken for 0 as the shift does *)
Definition pair_val (c1 : ascii) (c2 : option ascii) : Z :=
  match hex_val c1, c2 ≫= hex_val with
  | Some a, Some b => 16 * a + b
  | Some a, None => a
  | None, _ => 0
  end.

Fixpoint hex_bytes (s : string) : list Z :=
  match s with
  | String c1 (String c2 rest) => pair_val c1 (Some c2) :: hex_bytes rest
  | String c1 EmptyString => [pair_val c1 None]
  | EmptyString => []
  end.

(** For a string of odd length the library leaves a fractional
    [sigBytes]; it is rounded down here. *)
Definition parse (s : string) : WordArray :=
  mkWordArray (pack word_of (hex_bytes s)) (Z.of_nat (String.length s) / 2).

(** The only hasher the program asks for. *)
Inductive algo := sha256_algo.

End Ref.

Definition RefCryptoJS : CryptoJS := {|
  Hasher := Ref.algo;
  algo_SHA256 := Ref.sha256_algo;
  digest := fun _ => Ref.SHA256;
  HmacSHA256 := Ref.HmacSHA256;
  PBKDF2 := fun password salt_ _ iterations keySize =>
              Ref.PBKDF2 password salt_ iterations keySize;
  Hex_parse := Ref.parse;
  Hex_stringify := Ref.stringify;
|}.

(** ** What the program relies on from the library *)

Definition int32 (z : Z) : Prop := - 2 ^ 31 <= z < 2 ^ 31.

(** A SHA-256 sized WordArray: 32 significant bytes in eight 32-bit words. *)
Definition is_digest (w : WordArray) : Prop :=
  sigBytes w = 32 /\ length (words w) = 8%nat /\ Forall int32 (words w).

Class CryptoJSLaws (lib : CryptoJS) : Prop := {
  digest_SHA256_is_digest : forall m, is_digest (digest algo_SHA256 m);
  HmacSHA256_is_digest : forall m k, is_digest (HmacSHA256 m k);
  PBKDF2_sigBytes : forall p s h i k, sigBytes (PBKDF2 p s h i k) = 4 * k;
  Hex_parse_stringify : forall w, is_digest w -> Hex_parse (Hex_stringify w) = w;
}.

(** ** The proofs of the protocol, as the specification words them *)

Module Spec.
Section Spec.
Context {lib : CryptoJS}.

(** AuthMessage: clientNonce, serverNonce, serverNonce concatenated. *)
Definition authMessage (clientNonce serverNonce : string) : string :=
  clientNonce +:+ serverNonce +:+ serverNonce.

(** derive: PBKDF2 over SHA-256 with an output of 8 words, then
    HMAC-SHA256 of the salted secret (the message) under the label (the
    key). *)
Definition derive (password saltHex : string) (iterations : JS.number)
    (label : string) : WordArray :=
  let saltedSecret :=
    PBKDF2 password (Hex_parse saltHex) algo_SHA256 (Some iterations) 8 in
  HmacSHA256 saltedSecret (KeyString label).

(** clientProof, for the AuthMessage [authMsg] *)
Definition clientProof (authMsg saltHex : string) (iterations : JS.number)
    (password : string) : string :=
  let clientKey := derive password saltHex iterations "Client Key" in
  let storedKey := digest algo_SHA256 clientKey in
  let signature := HmacSHA256 storedKey (KeyString authMsg) in
  Hex_stringify (mkWordArray (zip_with Z.lxor (words clientKey) (words signature)) 32).

(** serverProof: the server key is the message, AuthMessage the key *)
Definition serverProof (authMsg saltHex : string) (iterations : JS.number)
    (password : string) : string :=
  let serverKey := derive password saltHex iterations "Server Key" in
  Hex_stringify (HmacSHA256 serverKey (KeyString authMsg)).

(** publicKeySignature: the public key is the message, the server key
    the key *)
Definition publicKeySignature (saltHex : string) (iterations : JS.number)
    (password devicePublicKeyHex : string) : string :=
  let serverKey := derive password saltHex iterations "Server Key" in
  Hex_stringify (HmacSHA256 (Hex_parse devicePublicKeyHex) (KeyWords serverKey)).

End Spec.
End Spec.

(** ** Sequences of calls on HwScramAuth *)

(** The loop of [calcProof] on the word lists alone. *)
Definition xor_into (keys : list nat) (ck sg : list Z) : list Z :=
  fold_left (fun acc i => JS.array_set i (JS.bxor (acc !! i) (sg !! i)) acc) keys ck.

Definition bxor32 (x y : Z) : Z := Z.lxor (JS.ToInt32 x) (JS.ToInt32 y).

(** The calls a client of HwScramAuth can make once the parameters are set. *)
Inductive ProofCall :=
| CallProof
| CallServerProof
| CallPubSig (key : string).

Definition invoke {lib : CryptoJS} (c : ProofCall) : Eff HwScramAuth.St string :=
  match c with
  | CallProof => HwScramAuth.calcProof
  | CallServerProof => HwScramAuth.calcServerProof
  | CallPubSig key => HwScramAuth.calcPubSig key
  end.

(** The calls of [cs] one after the other, with the result of each. *)
Fixpoint invoke_all {lib : CryptoJS} (cs : list ProofCall) (s : HwScramAuth.St)
  : list (JS.Completion string) * HwScramAuth.St :=
  match cs with
  | [] => ([], s)
  | c :: cs' =>
      let '(r, s') := invoke c s in
      let '(rs, s'') := invoke_all cs' s' in
      (r :: rs, s'')
  end.

(** The state [setParams] leaves. *)
Definition installed (pwd_ cNonce sNonce salt_ : string) (iters_ : JS.number)
  : HwScramAuth.t :=
  HwScramAuth.mk (Some cNonce) (Some iters_) pwd_ (Some salt_) (Some sNonce)
                 (Some (cNonce +:+ "," +:+ sNonce +:+ "," +:+ sNonce)).

Section Expected.
Context {lib : CryptoJS}.
Import HwScramAuth.

(** The salted secret [deriveKey] computes first. *)
Definition salted (o : t) (sl : string) : WordArray :=
  PBKDF2 (pwd o) (Hex_parse sl) algo_SHA256 (iters o) KEYSIZE.

(** The lines [calcProof] logs under node. *)
Definition debug_lines (o : t) (clientDgst storedDgst sigDgst proof : string) : list string :=
  [EmptyString;
   "Client nonce:     " +:+ JS.str (clientNonce o);
   "Server nonce:     " +:+ JS.str (serverNonce o);
   "Salt:             " +:+ JS.str (salt o);
   "----------------------------";
   "Client digest:    " +:+ clientDgst;
   "Stored digest:    " +:+ storedDgst;
   "Signature digest: " +:+ sigDgst;
   "----------------------------";
   "Login proof:      " +:+ proof;
   EmptyString].

(** The value each call returns, from the stored parameters alone. *)
Definition expected (o : t) (c : ProofCall) : string :=
  let sl := JS.str (salt o) in
  let sec := JS.str (sigSecret o) in
  let key label := HmacSHA256 (salted o sl) (KeyString label) in
  match c with
  | CallProof =>
      let signature := HmacSHA256 (digest algo_SHA256 (key "Client Key")) (KeyString sec) in
      Hex_stringify (mkWordArray (zip_with Z.lxor (words (key "Client Key")) (words signature)) 32)
  | CallServerProof => Hex_stringify (HmacSHA256 (key "Server Key") (KeyString sec))
  | CallPubSig k => Hex_stringify (HmacSHA256 (Hex_parse k) (KeyWords (key "Server Key")))
  end.

(** The two values the answer to phase two is checked against. *)
Definition serverProof_of (o : t) : string := expected o CallServerProof.
Definition pubSig_of (o : t) (key : string) : string := expected o (CallPubSig key).

End Expected.

(** ** Sample runs *)

(** A world under node in which nothing has happened yet. *)
Definition quiet_world : World :=
  mkWorld [] [] None [] (fun _ _ => mkWordArray [] 0) 0.

(** A freshly constructed HwScramAuth for the password "admin". *)
Definition fresh_scram : HwScramAuth.St :=
  HwScramAuth.mkSt (HwScramAuth.new "admin") quiet_world.

(** Two SHA-256 sized values on a heap of their own. *)
Definition two_digests : HwScramAuth.St :=
  HwScramAuth.mkSt (HwScramAuth.new "admin")
    (set_heap (fun _ => [Ref.SHA256 (Ref.of_bytes (Ref.utf8 "abc"));
                         Ref.SHA256 (Ref.of_bytes (Ref.utf8 "xyz"))]) quiet_world).

(** A page with an empty [localStorage]; every draw of the random source
    gives the same 32 bytes. *)
Definition page_world : World :=
  mkWorld [] [] (Some (mkBrowser EmptyString EmptyString ∅)) []
          (fun _ _ => Ref.SHA256 (Ref.of_bytes (Ref.utf8 "nonce"))) 0.

Definition sample_api : HwApi.t := HwApi.new "192.168.8.1" "admin" "admin".

(** The XML text of a flat document. *)
Definition xml_of (d : XmlDoc) : string :=
  "<" +:+ root d +:+ ">"
  +:+ fold_right (fun c s => "<" +:+ c.1 +:+ ">" +:+ c.2 +:+ "</" +:+ c.1 +:+ ">" +:+ s)
                 EmptyString (children d)
  +:+ "</" +:+ root d +:+ ">".

(** A parser that knows the documents of [docs] by their text. *)
Definition parse_among (docs : list XmlDoc) (s : string) : ParseResult :=
  match List.find (fun d => bool_decide (xml_of d = s)) docs with
  | Some d => mkParseResult None (Some d)
  | None => mkParseResult (Some (JS.Error_ "Unexpected input")) None
  end.

(** The first text of the token the sample devices hand out. *)
Definition sample_token : string := "0123456789abcdef0123456789abcdefcsrf-one".

Definition token_doc : XmlDoc := mkXmlDoc "response" [("token", sample_token)].

(** The nonce [login] draws in [page_world], in hex. *)
Definition sample_clientNonce : string :=
  "78377b525757b494427f89014f97d79928f3938d14eb51e20fb5dec9834eb304".

Definition sample_serverNonce : string := sample_clientNonce +:+ "5e12fe12".

Definition challenge_doc : XmlDoc :=
  mkXmlDoc "response"
    [("salt", "aabb"); ("modeselected", "1"); ("iterations", "2");
     ("servernonce", sample_serverNonce)].

Definition rate_limit_doc : XmlDoc :=
  mkXmlDoc "error" [("code", "108007"); ("message", EmptyString); ("waittime", "5")].

(** The parameters the client holds after the sample challenge. *)
Definition sample_scram : HwScramAuth.t :=
  installed "admin" sample_clientNonce sample_serverNonce "aabb" (JS.Num 2).

Definition sample_rsan : string := "00c0ffee".

(** The server proof and the signature of [sample_rsan] for these
    parameters. *)
Definition sample_serversignature : string :=
  "e25815afc49991eb113033a2253077468634f85e6d6e3d0b5bed089a7f4c8a03".
Definition sample_pubkeysignature : string :=
  "c53ba8fe570489dd7c2a0f7b9ffc0be471459ad140d5b6166d8b53ae61c2d999".

(** The answer of an honest device to phase two, *)
Definition authentication_doc : XmlDoc :=
  mkXmlDoc "response"
    [("serversignature", sample_serversignature);
     ("rsapubkeysignature", sample_pubkeysignature);
     ("rsan", sample_rsan); ("rsae", "010001")].

(** and the same with the first byte of [rsapubkeysignature] changed. *)
Definition corrupted_pubkeysignature : string :=
  "ff3ba8fe570489dd7c2a0f7b9ffc0be471459ad140d5b6166d8b53ae61c2d999".

Definition corrupted_doc : XmlDoc :=
  mkXmlDoc "response"
    [("serversignature", sample_serversignature);
     ("rsapubkeysignature", corrupted_pubkeysignature);
     ("rsan", sample_rsan); ("rsae", "010001")].

(** A device that answers the two phases with the given responses. *)
Definition device (challenge authentication : AxiosResponse) : Host := {|
  axios := fun req =>
    if decide (uri req = HwApi.server sample_api) then
      Resolves (mkAxiosResponse "OK" ∅ "<html></html>")
    else if decide (uri req = HwApi.server sample_api +:+ HwEndpoints.TOKEN) then
      Resolves (mkAxiosResponse "OK" ∅ (xml_of token_doc))
    else if decide (uri req = HwApi.server sample_api +:+ HwEndpoints.SCRAM_PHASE_ONE) then
      Resolves challenge
    else if decide (uri req = HwApi.server sample_api +:+ HwEndpoints.SCRAM_PHASE_TWO) then
      Resolves authentication
    else Rejects (JS.Error_ "Network Error");
  parseXmlStr :=
    parse_among [token_doc; challenge_doc; rate_limit_doc; authentication_doc; corrupted_doc];
|}.

Definition challenge_response : AxiosResponse :=
  mkAxiosResponse "OK" (axios_headers [("__RequestVerificationToken", "csrf-two")])
                  (xml_of challenge_doc).

Definition authentication_response (d : XmlDoc) : AxiosResponse :=
  mkAxiosResponse "OK"
    (axios_headers [("__RequestVerificationTokenone", "csrf-three");
                    ("__RequestVerificationTokentwo", "csrf-four")])
    (xml_of d).

(** An honest device, *)
Definition honest_device : Host :=
  device challenge_response (authentication_response authentication_doc).

(** one whose signature of the public key is off by a byte, *)
Definition forged_key_device : Host :=
  device challenge_response (authentication_response corrupted_doc).

(** one that locks the client out for five minutes, with and without the
    verification token in its answer, *)
Definition locked_device : Host :=
  device (mkAxiosResponse "OK" (axios_headers [("__RequestVerificationToken", "csrf-two")])
                          (xml_of rate_limit_doc))
         (authentication_response authentication_doc).

Definition locked_silent_device : Host :=
  device (mkAxiosResponse "OK" ∅ (xml_of rate_limit_doc))
         (authentication_response authentication_doc).

(** and one that leaves the verification token out of its challenge. *)
Definition tokenless_device : Host :=
  device (mkAxiosResponse "OK" (axios_headers [("Content-Type", "text/html")])
                          (xml_of challenge_doc))
         (authentication_response authentication_doc).

(** ** Runs of login, by what the device answers *)

Section Answers.
Context {lib : CryptoJS} {host : Host}.
Import HwApi.

(** The client nonce [login] draws in world [w]. *)
Definition clientNonce_of (w : World) : string :=
  Hex_stringify (rng w (draws w) 32).

(** The variables and the world when [login] returns. *)
Definition entered (api : t) (w : World) : Frame :=
  mkFrame (HwScramAuth.new (authPwd api)) None None None
    (mkWorld (heap w ++ [rng w (draws w) 32]) (console w) (browser w)
             (requests w ++ [get_request (server api)]) (rng w) (S (draws w))).

(** The device opens the session and hands out a token whose first text
    is [token0]. *)
Definition session_opens (api : t) (token0 : string) : Prop :=
  (exists r0, axios (get_request (server api)) = Resolves r0 /\ statusText r0 = "OK")
  /\ (exists rt doc ts,
        axios (get_request (server api +:+ HwEndpoints.TOKEN)) = Resolves rt
        /\ result (parseXmlStr (data rt)) = Some doc
        /\ root doc = "response"
        /\ elements (children doc) "token" = Some (token0, ts)).

(** [r1] is the response to phase one. *)
Definition challenge_answered (api : t) (clientNonce token0 : string)
    (r1 : AxiosResponse) : Prop :=
  session_opens api token0
  /\ axios (HwRequest.request (scramOne api clientNonce token0)) = Resolves r1.

(** [r1] carries the verification token [tok] and a challenge with the
    given server nonce, salt and iteration count. *)
Definition challenge_of (r1 : AxiosResponse) (tok sNonce saltHex its : string) : Prop :=
  headers r1 !! "__requestverificationtoken" = Some tok
  /\ exists doc sns sls itss,
       parseXmlStr (data r1) = mkParseResult None (Some doc)
       /\ root doc = "response"
       /\ elements (children doc) "servernonce" = Some (sNonce, sns)
       /\ elements (children doc) "salt" = Some (saltHex, sls)
       /\ elements (children doc) "iterations" = Some (its, itss).

(** [r2] is the response to phase two, sent after the challenge in [r1]. *)
Definition authentication_answered (api : t) (clientNonce token0 : string)
    (r1 : AxiosResponse) (tok sNonce saltHex its : string) (r2 : AxiosResponse) : Prop :=
  challenge_answered api clientNonce token0 r1
  /\ challenge_of r1 tok sNonce saltHex its
  /\ axios (HwRequest.request
              (scramTwo api (Some tok)
                 (Spec.clientProof (clientNonce +:+ "," +:+ sNonce +:+ "," +:+ sNonce)
                    saltHex (parseInt10 its) (authPwd api))
                 (Some sNonce))) = Resolves r2.

(** The requests of an attempt that ends in phase one. *)
Definition sent_to_challenge (api : t) (clientNonce token0 : string) : list Request :=
  [get_request (server api);
   get_request (server api +:+ HwEndpoints.TOKEN);
   HwRequest.request (scramOne api clientNonce token0)].

(** The requests of an attempt that reaches phase two. *)
Definition sent_to_authentication (api : t) (clientNonce token0 tok sNonce saltHex its : string)
  : list Request :=
  sent_to_challenge api clientNonce token0
  ++ [HwRequest.request
        (scramTwo api (Some tok)
           (Spec.clientProof (clientNonce +:+ "," +:+ sNonce +:+ "," +:+ sNonce)
              saltHex (parseInt10 its) (authPwd api))
           (Some sNonce))].

(** What [window.localStorage] holds, if there is a window. *)
Definition stored (w : World) : option (gmap string string) :=
  localStorage <$> browser w.

(** Where the handler of the final [catch] shows the message. *)
Definition shown (w : World) (msg : string) : Prop :=
  match browser w with
  | Some page => h2_innerText page = "Error while logging in" /\ code_innerText page = msg
  | None => last (console w) = Some ("Error while logging in: " +:+ msg)
  end.

(** The attempt started by [login] in world [w] fails with [e]: the chain
    rejects with [e], the final [catch] handles it and shows its message,
    the requests sent during the attempt are [sent], and the stored device
    key is what it was. *)
Definition attempt_fails (api : t) (w : World) (e : JS.Error) (sent : list Request)
  : Prop :=
  (exists f, chain api (clientNonce_of w) (entered api w) = (Rejected e, f))
  /\ (login api w).1 = JS.Normal None
  /\ (login api w).2.1 = Fulfilled None
  /\ requests (world (login api w).2.2) = requests w ++ sent
  /\ stored (world (login api w).2.2) = stored w
  /\ shown (world (login api w).2.2) (JS.message e).

End Answers.
(** ** Further notions *)

(** The characters [wordArray.toString()] is made of. *)
Definition lower_hex (c : ascii) : Prop :=
  In c (list_ascii_of_string "0123456789abcdef").

(** The text [add(node, content)] appends. *)
Definition element (node content : string) : string :=
  "<" +:+ node +:+ ">" +:+ content +:+ "</" +:+ node +:+ ">".

(** [add] called once for each pair of [ps], in order. *)
Definition add_all (ps : list (string * string)) (r : HwRequest.t) : HwRequest.t :=
  fold_left (fun r p => HwRequest.add p.1 p.2 r) ps r.

Definition elements_xml (ps : list (string * string)) : string :=
  fold_right (fun p s => element p.1 p.2 +:+ s) EmptyString ps.

(** The XML declaration every request body starts with. *)
Definition xml_declaration : string :=
  "<?xml version=" +:+ dquote +:+ "1.0" +:+ dquote +:+ " encoding="
    +:+ dquote +:+ "utf-8" +:+ dquote +:+ "?>".

(** The method and address of the four requests of a login, in the order
    of the protocol. *)
Definition protocol_order (api : HwApi.t) : list (string * string) :=
  [("get", HwApi.server api);
   ("get", HwApi.server api +:+ HwEndpoints.TOKEN);
   ("post", HwApi.server api +:+ HwEndpoints.SCRAM_PHASE_ONE);
   ("post", HwApi.server api +:+ HwEndpoints.SCRAM_PHASE_TWO)].

(** ** Further sample runs *)

(** Node, with the random source of [page_world]. *)
Definition node_world : World := mkWorld [] [] None [] (rng page_world) 0.

(** A device as [device], whose parser knows the token document and the
    documents of [docs]. *)
Definition device_among (docs : list XmlDoc) (challenge authentication : AxiosResponse)
  : Host := {|
  axios := axios (Host := device challenge authentication);
  parseXmlStr := parse_among (token_doc :: docs);
|}.

(** An answer to phase two whose server proof is off by a byte, *)
Definition unproved_doc : XmlDoc :=
  mkXmlDoc "response"
    [("serversignature", "ff5815afc49991eb113033a2253077468634f85e6d6e3d0b5bed089a7f4c8a03");
     ("rsapubkeysignature", sample_pubkeysignature);
     ("rsan", sample_rsan); ("rsae", "010001")].

(** one that leaves the public exponent out, *)
Definition no_exponent_doc : XmlDoc :=
  mkXmlDoc "response"
    [("serversignature", sample_serversignature);
     ("rsapubkeysignature", sample_pubkeysignature);
     ("rsan", sample_rsan)].

(** one that leaves the server proof out and whose signature of the
    public key is off by a byte, *)
Definition unsigned_doc : XmlDoc :=
  mkXmlDoc "response"
    [("rsapubkeysignature", corrupted_pubkeysignature);
     ("rsan", sample_rsan); ("rsae", "010001")].

(** and an error without a waiting time. *)
Definition bare_error_doc : XmlDoc := mkXmlDoc "error" [("code", "108006")].

(** A device whose proof of identity fails, *)
Definition unproved_device : Host :=
  device_among [challenge_doc; unproved_doc] challenge_response
               (authentication_response unproved_doc).

(** one that sends no server proof, *)
Definition unsigned_device : Host :=
  device_among [challenge_doc; unsigned_doc] challenge_response
               (authentication_response unsigned_doc).

(** one that sends no public exponent, *)
Definition no_exponent_device : Host :=
  device_among [challenge_doc; no_exponent_doc] challenge_response
               (authentication_response no_exponent_doc).

(** one whose answer to phase two the parser cannot read, *)
Definition garbled_device : Host :=
  device_among [challenge_doc] challenge_response
               (authentication_response authentication_doc).

(** one that refuses the login without saying for how long, *)
Definition refusing_device : Host :=
  device_among [bare_error_doc]
    (mkAxiosResponse "OK" (axios_headers [("__RequestVerificationToken", "csrf-two")])
                     (xml_of bare_error_doc))
    (authentication_response authentication_doc).

(** one whose responses carry no status text, as over HTTP/2, *)
Definition terse_device : Host := {|
  axios := fun _ => Resolves (mkAxiosResponse EmptyString ∅ "<html></html>");
  parseXmlStr := parse_among [];
|}.


(** An address at which none of the sample devices answers. *)
Definition stray_api : HwApi.t := HwApi.new "10.0.0.1" "admin" "admin".

(** A key of three words of which two are significant, and a signature of
    one word, on a heap of their own. *)
Definition uneven_words : HwScramAuth.St :=
  HwScramAuth.mkSt (HwScramAuth.new "admin")
    (set_heap (fun _ => [mkWordArray [1; 2; 3] 8; mkWordArray [5] 4]) quiet_world).


(** ** Invariants of effectful code *)

(** What a computation started in a state of [P] guarantees about its
    outcome and the state it leaves. *)
Definition triple {S R} (P : S -> Prop) (m : S -> R * S) (Q : R -> S -> Prop) : Prop :=
  forall s, P s -> Q (m s).1 (m s).2.

(** The same about the state alone, however the computation ends. *)
Definition leaves {S R} (P : S -> Prop) (m : S -> R * S) (Q : S -> Prop) : Prop :=
  triple P m (fun _ => Q).

(** [m] keeps the invariant [I]. *)
Definition keeps {S R} (I : S -> Prop) (m : S -> R * S) : Prop := leaves I m I.

(** What an attempt leaves behind outside the program: the stored key
    and the requests sent. *)
Definition outside (w : World) : option (gmap string string) * list Request :=
  (stored w, requests w).

(** The requests sent since the world held [before] are the first [k] of
    the protocol. *)
Definition sent_in_order (api : HwApi.t) (before : list Request) (k : nat)
    (f : HwApi.Frame) : Prop :=
  exists sent,
    requests (HwApi.world f) = before ++ sent
    /\ map (fun r => (method r, uri r)) sent = take k (protocol_order api).

(** The stored key is [before], or [before] with both parts of a key set. *)
Definition key_stored_whole (before after : option (gmap string string)) : Prop :=
  after = before
  \/ exists rsaN rsaE,
       after = (fun m => <["rsae" := rsaE]> (<["rsan" := rsaN]> m)) <$> before.
(** * Proofs *)

(** ** Words *)

Lemma ToInt32_int32 (z : Z) : int32 (JS.ToInt32 z).
Proof.
  unfold int32, JS.ToInt32.
  pose proof (Z.mod_pos_bound (z + 2 ^ 31) (2 ^ 32) ltac:(lia)). lia.
Qed.

Lemma ToInt32_id (z : Z) : int32 z -> JS.ToInt32 z = z.
Proof.
  unfold int32, JS.ToInt32. intros H.
  rewrite Z.mod_small by lia. lia.
Qed.

Lemma xor_into_seq (k : nat) :
  forall (pre ck sgpre sg : list Z),
    length sgpre = length pre -> length ck = k -> length sg = k ->
    xor_into (seq (length pre) k) (pre ++ ck) (sgpre ++ sg) = pre ++ zip_with bxor32 ck sg.
Proof.
  induction k as [|k IH]; intros pre ck sgpre sg Hp Hc Hs.
  - destruct ck; [|discriminate]. destruct sg; [|discriminate]. reflexivity.
  - destruct ck as [|c ck]; [discriminate|]. destruct sg as [|g sg]; [discriminate|].
    simpl in Hc, Hs. cbn [seq xor_into fold_left].
    unfold JS.array_set.
    rewrite decide_True by (rewrite length_app; simpl; lia).
    rewrite (list_lookup_middle pre ck c) by reflexivity.
    rewrite (list_lookup_middle sgpre sg g) by (symmetry; exact Hp).
    replace (length pre) with (length pre + 0)%nat at 2 by lia.
    rewrite insert_app_r. cbn [insert list_insert].
    change (fold_left _ (seq (S (length pre)) k) ?l) with
      (xor_into (seq (S (length pre)) k) l (sgpre ++ g :: sg)).
    replace (S (length pre)) with (length (pre ++ [bxor32 c g]))
      by (rewrite length_app; simpl; lia).
    replace (pre ++ JS.bxor (Some c) (Some g) :: ck) with ((pre ++ [bxor32 c g]) ++ ck)
      by (rewrite <- app_assoc; reflexivity).
    replace (sgpre ++ g :: sg) with ((sgpre ++ [g]) ++ sg)
      by (rewrite <- app_assoc; reflexivity).
    rewrite IH by (rewrite ?length_app; simpl; lia).
    rewrite <- app_assoc. reflexivity.
Qed.

Lemma zip_with_bxor32 (a b : list Z) :
  Forall int32 a -> Forall int32 b -> zip_with bxor32 a b = zip_with Z.lxor a b.
Proof.
  intros Ha. revert b. induction Ha as [|x a Hx Ha IH]; intros b Hb; [reflexivity|].
  destruct Hb as [|y b Hy Hb]; [reflexivity|].
  simpl. unfold bxor32 at 1. rewrite !ToInt32_id by assumption. f_equal. auto.
Qed.

Lemma xor_into_zip (n : nat) (ck sg : list Z) :
  length ck = n -> length sg = n -> Forall int32 ck -> Forall int32 sg ->
  xor_into (seq 0 n) ck sg = zip_with Z.lxor ck sg.
Proof.
  intros Hc Hs Ic Is.
  pose proof (xor_into_seq n [] ck [] sg eq_refl Hc Hs) as H. simpl in H.
  rewrite H. apply zip_with_bxor32; assumption.
Qed.

Lemma int32_shiftr (z : Z) : int32 z <-> Z.shiftr z 31 = 0 \/ Z.shiftr z 31 = -1.
Proof.
  unfold int32. rewrite Z.shiftr_div_pow2 by lia.
  change (2 ^ 31) with 2147483648.
  Z.to_euclidean_division_equations. lia.
Qed.

Lemma lxor_int32 (x y : Z) : int32 x -> int32 y -> int32 (Z.lxor x y).
Proof.
  rewrite !int32_shiftr, Z.shiftr_lxor.
  intros [-> | ->] [-> | ->]; vm_compute; auto.
Qed.

Lemma lxor_lxor_cancel (x y : Z) : Z.lxor (Z.lxor x y) y = x.
Proof. rewrite Z.lxor_assoc, Z.lxor_nilpotent. apply Z.lxor_0_r. Qed.

Lemma zip_lxor_int32 (a b : list Z) :
  Forall int32 a -> Forall int32 b -> Forall int32 (zip_with Z.lxor a b).
Proof.
  intros Ha. revert b. induction Ha as [|x a Hx Ha IH]; intros b Hb; [constructor|].
  destruct Hb as [|y b Hy Hb]; [constructor|].
  simpl. constructor; [apply lxor_int32; assumption | auto].
Qed.

Lemma zip_lxor_cancel (a b : list Z) :
  length a = length b -> zip_with Z.lxor (zip_with Z.lxor a b) b = a.
Proof.
  revert b. induction a as [|x a IH]; intros [|y b] H; try discriminate; [reflexivity|].
  simpl. rewrite lxor_lxor_cancel. f_equal. apply IH. simpl in H. lia.
Qed.

Lemma array_keys_32 : HwScramAuth.array_keys 32 = ret (seq 0 8).
Proof. reflexivity. Qed.

(** ** Running the methods of HwScramAuth *)

Lemma heap_new_lookup (h cells : list WordArray) (i : nat) :
  (h ++ cells) !!! (length h + i)%nat = cells !!! i.
Proof.
  rewrite lookup_total_app_r by lia. f_equal. lia.
Qed.

Lemma heap_new_lookup0 (h cells : list WordArray) :
  (h ++ cells) !!! length h = cells !!! 0%nat.
Proof.
  rewrite <- (heap_new_lookup h cells 0). f_equal. lia.
Qed.

Lemma heap_new_insert (h cells : list WordArray) (i : nat) (w : WordArray) :
  <[(length h + i)%nat := w]> (h ++ cells) = h ++ <[i := w]> cells.
Proof. apply insert_app_r. Qed.

(** Unfolds the effect combinators on a state given by its fields. *)
Ltac eff_unfold :=
  cbv beta iota delta
    [bind ret gets modify throw try_catch
     HwScramAuth.alloc HwScramAuth.deref HwScramAuth.store HwScramAuth.console_log
     HwScramAuth.toString HwScramAuth.on_world HwScramAuth.on_self
     HwScramAuth.self HwScramAuth.world HwScramAuth.parse_hex
     HwScramAuth.hmac_string_key
     set_heap set_console heap console browser requests rng draws].

(** Brings the heap to the form [h ++ cells] and reads the new cells. *)
Ltac heap_norm :=
  repeat first
    [ rewrite <- app_assoc
    | rewrite length_app
    | rewrite heap_new_lookup0
    | rewrite heap_new_lookup
    | rewrite heap_new_insert
    | progress cbn [app length list_lookup_total lookup_total list_insert insert Nat.add] ].

Section ScramFacts.
Context {lib : CryptoJS}.
Import HwScramAuth.

Lemma xor_loop_run (lck lsg : loc) (keys : list nat) :
  forall s : St,
    (lck < length (heap (world s)))%nat -> lck <> lsg ->
    for_of keys (xor_word lck lsg) s =
      (JS.Normal tt,
       on_world (set_heap (fun h =>
         <[lck := mkWordArray (xor_into keys (words (h !!! lck)) (words (h !!! lsg)))
                              (sigBytes (h !!! lck))]> h)) s).
Proof.
  induction keys as [|i keys IH]; intros [o [h c b r g d]] Hl Hne; simpl in Hl.
  - cbn. unfold ret, on_world, set_heap; simpl.
    destruct (h !!! lck) as [ws sb] eqn:E. simpl.
    rewrite <- E. rewrite list_insert_id; [reflexivity|].
    apply list_lookup_lookup_total_lt. exact Hl.
  - cbn [for_of]. unfold bind at 1.
    unfold xor_word at 1.
    cbv beta iota delta [bind deref gets store modify on_world set_heap self world heap
                         console browser requests rng draws].
    rewrite IH by (simpl; rewrite ?length_insert; auto).
    unfold on_world, set_heap; simpl.
    rewrite list_lookup_total_insert_eq by exact Hl.
    rewrite list_lookup_total_insert_ne by exact Hne.
    rewrite list_insert_insert_eq. simpl. reflexivity.
Qed.

Lemma xor_words_run (s : St) (lck lsg : loc) (ck sg : WordArray) :
  heap (world s) !! lck = Some ck -> heap (world s) !! lsg = Some sg ->
  lck <> lsg -> is_digest ck -> is_digest sg ->
  xor_words lck lsg s =
    (JS.Normal tt,
     on_world (set_heap (fun h =>
       <[lck := mkWordArray (zip_with Z.lxor (words ck) (words sg)) 32]> h)) s).
Proof.
  intros Hck Hsg Hne (Hb & Hl & Hi) (Hb' & Hl' & Hi').
  pose proof (lookup_lt_Some _ _ _ Hck) as Hlt.
  apply list_lookup_total_correct in Hck, Hsg.
  destruct s as [o [h c b r g d]]. simpl in *.
  unfold xor_words. eff_unfold. rewrite Hck, Hb, array_keys_32. eff_unfold.
  rewrite xor_loop_run by assumption.
  eff_unfold.
  rewrite Hck, Hsg, Hb.
  rewrite xor_into_zip by assumption. reflexivity.
Qed.

Lemma deriveKey_run (label : string) (s : St) (sl : string) :
  salt (self s) = Some sl ->
  deriveKey label s =
    (JS.Normal (length (heap (world s)) + 2)%nat,
     on_world (set_heap (fun h => h ++ [Hex_parse sl; salted (self s) sl;
                                         HmacSHA256 (salted (self s) sl) (KeyString label)])) s).
Proof.
  intros Hs. destruct s as [o w]. destruct w as [h c b r g d]. simpl in *.
  unfold deriveKey. eff_unfold. rewrite Hs. eff_unfold. heap_norm.
  reflexivity.
Qed.

Context {laws : CryptoJSLaws lib}.

Lemma calcProof_run (s : St) (sl sec : string) :
  salt (self s) = Some sl -> sigSecret (self s) = Some sec ->
  let clientKey := HmacSHA256 (salted (self s) sl) (KeyString "Client Key") in
  let storedKey := digest algo_SHA256 clientKey in
  let signature := HmacSHA256 storedKey (KeyString sec) in
  let proof := mkWordArray (zip_with Z.lxor (words clientKey) (words signature)) 32 in
  calcProof s =
    (JS.Normal (Hex_stringify proof),
     on_world (fun w =>
       set_console (fun c => c ++
         if bool_decide (browser w = None)
         then debug_lines (self s) (Hex_stringify clientKey) (Hex_stringify storedKey)
                          (Hex_stringify signature) (Hex_stringify proof)
         else [])
       (set_heap (fun h => h ++ [Hex_parse sl; salted (self s) sl; proof;
                                  storedKey; signature]) w)) s).
Proof.
  intros Hs Hk. cbv zeta.
  unfold calcProof. unfold bind at 1. rewrite (deriveKey_run _ _ _ Hs).
  destruct s as [o [h c b r g d]]. simpl in Hs, Hk.
  eff_unfold. rewrite Hk. eff_unfold. heap_norm.
  erewrite xor_words_run;
    [ | simpl; rewrite lookup_app_r by lia;
        replace (length h + 2 - length h)%nat with 2%nat by lia; reflexivity
      | simpl; rewrite lookup_app_r by lia;
        replace (length h + 4 - length h)%nat with 4%nat by lia; reflexivity
      | lia
      | apply HmacSHA256_is_digest
      | apply HmacSHA256_is_digest ].
  eff_unfold. heap_norm.
  destruct b.
  - rewrite !bool_decide_eq_false_2 by discriminate.
    eff_unfold. heap_norm. rewrite app_nil_r. reflexivity.
  - rewrite !bool_decide_eq_true_2 by reflexivity.
    eff_unfold. heap_norm. reflexivity.
Qed.

Lemma calcServerProof_run (s : St) (sl sec : string) :
  salt (self s) = Some sl -> sigSecret (self s) = Some sec ->
  let serverKey := HmacSHA256 (salted (self s) sl) (KeyString "Server Key") in
  let signature := HmacSHA256 serverKey (KeyString sec) in
  calcServerProof s =
    (JS.Normal (Hex_stringify signature),
     on_world (set_heap (fun h => h ++ [Hex_parse sl; salted (self s) sl; serverKey;
                                         signature])) s).
Proof.
  intros Hs Hk. cbv zeta.
  unfold calcServerProof. unfold bind at 1. rewrite (deriveKey_run _ _ _ Hs).
  destruct s as [o [h c b r g d]]. simpl in Hs, Hk.
  eff_unfold. rewrite Hk. eff_unfold. heap_norm. reflexivity.
Qed.

Lemma calcPubSig_run (s : St) (sl key : string) :
  salt (self s) = Some sl ->
  let serverKey := HmacSHA256 (salted (self s) sl) (KeyString "Server Key") in
  let signature := HmacSHA256 (Hex_parse key) (KeyWords serverKey) in
  calcPubSig key s =
    (JS.Normal (Hex_stringify signature),
     on_world (set_heap (fun h => h ++ [Hex_parse sl; salted (self s) sl; serverKey;
                                         serverKey; Hex_parse key; signature])) s).
Proof.
  intros Hs. cbv zeta.
  unfold calcPubSig. unfold bind at 1. rewrite (deriveKey_run _ _ _ Hs).
  destruct s as [o [h c b r g d]]. simpl in Hs.
  eff_unfold. heap_norm.
  rewrite Hex_parse_stringify by apply HmacSHA256_is_digest.
  reflexivity.
Qed.
End ScramFacts.

(** ** The reference instance keeps the laws *)

Lemma Ref_sha256_words_length (msg : list Z) : length (Ref.sha256_words msg) = 8%nat.
Proof.
  unfold Ref.sha256_words.
  destruct (fold_left _ _ _) as [[[[[[[a b] c] d] e] f] g] h]. reflexivity.
Qed.

Lemma Ref_digest_of_is_digest (ws : list Z) :
  length ws = 8%nat -> is_digest (Ref.digest_of ws).
Proof.
  intros H. unfold is_digest, Ref.digest_of. simpl.
  rewrite length_map. split; [reflexivity|]. split; [exact H|].
  apply Forall_forall. intros x Hx. apply list_elem_of_In in Hx.
  apply in_map_iff in Hx. destruct Hx as [y [<- _]]. apply ToInt32_int32.
Qed.

Lemma Ref_word_of_bytes (x : Z) :
  int32 x ->
  match Ref.word_bytes x with
  | [b0; b1; b2; b3] => Ref.word_of b0 b1 b2 b3 = x
  | _ => False
  end.
Proof.
  unfold int32, Ref.word_bytes, Ref.word_of, Ref.word_u, JS.ToInt32, JS.ToUint32.
  intros H.
  change (2 ^ 31) with 2147483648 in *. change (2 ^ 32) with 4294967296.
  change (2 ^ 24) with 16777216. change (2 ^ 16) with 65536. change (2 ^ 8) with 256.
  Z.to_euclidean_division_equations. lia.
Qed.

Lemma Ref_word_bytes_range (x b : Z) : In b (Ref.word_bytes x) -> 0 <= b < 256.
Proof.
  unfold Ref.word_bytes. simpl.
  intros [<- | [<- | [<- | [<- | []]]]]; apply Z.mod_pos_bound; lia.
Qed.

Lemma Ref_pack_word_bytes (ws : list Z) :
  Forall int32 ws -> Ref.pack Ref.word_of (flat_map Ref.word_bytes ws) = ws.
Proof.
  induction 1 as [|x ws Hx Hws IH]; [reflexivity|].
  pose proof (Ref_word_of_bytes x Hx) as Hw.
  cbn [flat_map].
  destruct (Ref.word_bytes x) as [|b0 [|b1 [|b2 [|b3 [|? ?]]]]]; try contradiction.
  cbn [app Ref.pack]. rewrite Hw, IH. reflexivity.
Qed.

Lemma Ref_hex_val_digit (d : Z) : 0 <= d < 16 -> Ref.hex_val (Ref.hex_digit d) = Some d.
Proof.
  intros H.
  assert (Hd : d = 0 \/ d = 1 \/ d = 2 \/ d = 3 \/ d = 4 \/ d = 5 \/ d = 6 \/ d = 7 \/
               d = 8 \/ d = 9 \/ d = 10 \/ d = 11 \/ d = 12 \/ d = 13 \/ d = 14 \/ d = 15)
    by lia.
  repeat (destruct Hd as [-> | Hd]; [reflexivity|]). subst. reflexivity.
Qed.

Lemma Ref_hex_bytes_to_hex (bs : list Z) :
  (forall b, In b bs -> 0 <= b < 256) -> Ref.hex_bytes (Ref.to_hex bs) = bs.
Proof.
  induction bs as [|b bs IH]; intros H; [reflexivity|].
  cbn [Ref.to_hex fold_right Ref.hex_bytes]. fold (Ref.to_hex bs).
  rewrite IH by (intros; apply H; right; assumption).
  f_equal. unfold Ref.pair_val. cbn [mbind option_bind].
  pose proof (H b (or_introl eq_refl)) as Hb.
  rewrite !Ref_hex_val_digit by (Z.to_euclidean_division_equations; lia).
  Z.to_euclidean_division_equations; lia.
Qed.

Lemma Ref_to_hex_length (bs : list Z) : String.length (Ref.to_hex bs) = (2 * length bs)%nat.
Proof.
  induction bs as [|b bs IH]; [reflexivity|].
  cbn [Ref.to_hex fold_right String.length length]. fold (Ref.to_hex bs). rewrite IH. lia.
Qed.

Lemma Ref_bytes_of_digest (w : WordArray) :
  is_digest w -> Ref.bytes_of w = flat_map Ref.word_bytes (words w).
Proof.
  intros (Hb & Hl & _). unfold Ref.bytes_of. rewrite Hb.
  destruct (words w) as [|w0 [|w1 [|w2 [|w3 [|w4 [|w5 [|w6 [|w7 [|? ?]]]]]]]]];
    try discriminate.
  reflexivity.
Qed.

Lemma Ref_parse_stringify (w : WordArray) :
  is_digest w -> Ref.parse (Ref.stringify w) = w.
Proof.
  intros Hw. pose proof Hw as (Hb & Hl & Hi).
  unfold Ref.parse, Ref.stringify.
  rewrite Ref_to_hex_length, Ref_hex_bytes_to_hex.
  - rewrite (Ref_bytes_of_digest w Hw), Ref_pack_word_bytes by exact Hi.
    assert (Hlen : length (flat_map Ref.word_bytes (words w)) = 32%nat).
    { destruct (words w) as [|w0 [|w1 [|w2 [|w3 [|w4 [|w5 [|w6 [|w7 [|? ?]]]]]]]]];
        try discriminate. reflexivity. }
    rewrite Hlen. destruct w as [ws sb]. simpl in *. subst sb. reflexivity.
  - rewrite (Ref_bytes_of_digest w Hw). intros b Hin.
    apply in_flat_map in Hin. destruct Hin as [x [_ Hx]].
    eapply Ref_word_bytes_range; eassumption.
Qed.

Lemma RefCryptoJS_laws : CryptoJSLaws RefCryptoJS.
Proof.
  split.
  - intros m. apply Ref_digest_of_is_digest, Ref_sha256_words_length.
  - intros m k. apply Ref_digest_of_is_digest.
    unfold Ref.hmac_words. apply Ref_sha256_words_length.
  - intros. simpl. lia.
  - exact Ref_parse_stringify.
Qed.

(** ** The reference instance on published test vectors *)

Example Ref_sha256_abc :
  Ref.stringify (Ref.SHA256 (Ref.of_bytes (Ref.utf8 "abc")))
  = "ba7816bf8f01cfea414140de5dae2223b00361a396177a9cb410ff61f20015ad".
Proof. vm_compute. reflexivity. Qed.

Example Ref_sha256_empty :
  Ref.stringify (Ref.SHA256 (Ref.of_bytes []))
  = "e3b0c44298fc1c149afbf4c8996fb92427ae41e4649b934ca495991b7852b855".
Proof. vm_compute. reflexivity. Qed.

Example Ref_hmac_fox :
  Ref.stringify
    (Ref.HmacSHA256 (Ref.of_bytes (Ref.utf8 "The quick brown fox jumps over the lazy dog"))
                    (KeyString "key"))
  = "f7bc83f430538424b13298e6aa6fb143ef4d59a14946175997479dbc2d1a3cd8".
Proof. vm_compute. reflexivity. Qed.

Example Ref_pbkdf2_one_iteration :
  Ref.stringify (Ref.PBKDF2 "password" (Ref.of_bytes (Ref.utf8 "salt")) (Some (JS.Num 1)) 8)
  = "120fb6cffcf8b32c43e7225256c4f837a86548c92ccc35480805987cb70be17b".
Proof. vm_compute. reflexivity. Qed.

Example Ref_pbkdf2_two_iterations :
  Ref.stringify (Ref.PBKDF2 "password" (Ref.of_bytes (Ref.utf8 "salt")) (Some (JS.Num 2)) 8)
  = "ae4d0c95af6b46d32d0adff928f06dd02a303f8ef3c251dfd6e2d85a95474c43".
Proof. vm_compute. reflexivity. Qed.

(** The values of the sample run are those the reference instance computes. *)
Example sample_clientNonce_drawn :
  Ref.stringify (rng page_world (draws page_world) 32) = sample_clientNonce.
Proof. vm_compute. reflexivity. Qed.

Example sample_serversignature_computed :
  @serverProof_of RefCryptoJS sample_scram = sample_serversignature.
Proof. vm_compute. reflexivity. Qed.

Example sample_pubkeysignature_computed :
  @pubSig_of RefCryptoJS sample_scram sample_rsan = sample_pubkeysignature.
Proof. vm_compute. reflexivity. Qed.

(** ** The XOR of two digests, byte by byte *)

Lemma land_lxor_distr (a b c : Z) :
  Z.land (Z.lxor a b) c = Z.lxor (Z.land a c) (Z.land b c).
Proof.
  apply Z.bits_inj'. intros n Hn.
  rewrite Z.land_spec, !Z.lxor_spec, !Z.land_spec.
  destruct (Z.testbit a n), (Z.testbit b n), (Z.testbit c n); reflexivity.
Qed.

(** In the layout of the reference instance the word-wise XOR is the XOR of
    the bytes, most significant byte of each word first. *)
Lemma Ref_byte_lxor (x y k : Z) :
  0 <= k ->
  Z.lxor x y mod 2 ^ 32 / 2 ^ k mod 256
  = Z.lxor (x mod 2 ^ 32 / 2 ^ k mod 256) (y mod 2 ^ 32 / 2 ^ k mod 256).
Proof.
  intros Hk. change 256 with (2 ^ 8).
  rewrite <- !Z.land_ones, <- !Z.shiftr_div_pow2 by lia.
  rewrite land_lxor_distr, Z.shiftr_lxor, land_lxor_distr. reflexivity.
Qed.

Lemma Ref_word_bytes_lxor (x y : Z) :
  Ref.word_bytes (Z.lxor x y) = zip_with Z.lxor (Ref.word_bytes x) (Ref.word_bytes y).
Proof.
  unfold Ref.word_bytes, JS.ToUint32. cbn [zip_with].
  rewrite !Ref_byte_lxor by lia.
  f_equal. f_equal. f_equal. f_equal.
  pose proof (Ref_byte_lxor x y 0 ltac:(lia)) as H.
  change (2 ^ 0) with 1 in H. rewrite !Z.div_1_r in H. exact H.
Qed.

Lemma Ref_bytes_of_xor (a b : WordArray) :
  is_digest a -> is_digest b ->
  Ref.bytes_of (mkWordArray (zip_with Z.lxor (words a) (words b)) 32)
  = zip_with Z.lxor (Ref.bytes_of a) (Ref.bytes_of b).
Proof.
  intros Ha Hb.
  rewrite (Ref_bytes_of_digest a Ha), (Ref_bytes_of_digest b Hb).
  destruct Ha as (_ & Hla & _), Hb as (_ & Hlb & _).
  destruct (words a) as [|a0 [|a1 [|a2 [|a3 [|a4 [|a5 [|a6 [|a7 [|? ?]]]]]]]]];
    try discriminate.
  destruct (words b) as [|b0 [|b1 [|b2 [|b3 [|b4 [|b5 [|b6 [|b7 [|? ?]]]]]]]]];
    try discriminate.
  unfold Ref.bytes_of. cbn [words sigBytes zip_with flat_map].
  rewrite !Ref_word_bytes_lxor. reflexivity.
Qed.
Lemma setParams_run (s : HwScramAuth.St) (cNonce sNonce salt_ : string) (iters_ : JS.number) :
  HwScramAuth.setParams cNonce sNonce salt_ iters_ s =
    (JS.Normal tt,
     HwScramAuth.mkSt (installed (HwScramAuth.pwd (HwScramAuth.self s)) cNonce sNonce salt_ iters_)
                      (HwScramAuth.world s)).
Proof. reflexivity. Qed.

Section Claims.
Context {lib : CryptoJS} {laws : CryptoJSLaws lib}.
Import HwScramAuth.

Lemma invoke_run (c : ProofCall) (s : St) (sl sec : string) :
  salt (self s) = Some sl -> sigSecret (self s) = Some sec ->
  exists cells lines,
    invoke c s =
      (JS.Normal (expected (self s) c),
       mkSt (self s)
            (set_console (fun l => l ++ lines)
               (set_heap (fun h => h ++ cells) (world s)))).
Proof.
  intros Hs Hk. unfold expected. rewrite Hs, Hk. cbn [JS.str].
  destruct c as [| |k]; cbn [invoke].
  - rewrite (calcProof_run s sl sec Hs Hk). eexists _, _. reflexivity.
  - rewrite (calcServerProof_run s sl sec Hs Hk).
    destruct s as [o [h c b r g d]]. eexists _, [].
    unfold on_world, set_console, set_heap. simpl.
    rewrite (app_nil_r c). reflexivity.
  - rewrite (calcPubSig_run s sl k Hs).
    destruct s as [o [h c b r g d]]. eexists _, [].
    unfold on_world, set_console, set_heap. simpl.
    rewrite (app_nil_r c). reflexivity.
Qed.

Lemma invoke_all_run (cs : list ProofCall) :
  forall (s : St) (sl sec : string),
    salt (self s) = Some sl -> sigSecret (self s) = Some sec ->
    exists cells lines,
      invoke_all cs s =
        (map (fun c => JS.Normal (expected (self s) c)) cs,
         mkSt (self s)
              (set_console (fun l => l ++ lines)
                 (set_heap (fun h => h ++ cells) (world s)))).
Proof.
  induction cs as [|c cs IH]; intros s sl sec Hs Hk.
  - exists [], []. destruct s as [o [h c b r g d]].
    unfold set_console, set_heap. simpl. rewrite !app_nil_r. reflexivity.
  - cbn [invoke_all].
    destruct (invoke_run c s sl sec Hs Hk) as (cells & lines & ->).
    edestruct (IH (mkSt (self s) (set_console (fun l => l ++ lines)
                                     (set_heap (fun h => h ++ cells) (world s)))) sl sec)
      as (cells' & lines' & ->); [exact Hs | exact Hk |].
    exists (cells ++ cells'), (lines ++ lines').
    destruct s as [o [h cn b r g d]]. unfold set_console, set_heap. simpl.
    rewrite !app_assoc. reflexivity.
Qed.

End Claims.

(** ** Running the chain of login *)

Lemma then_fulfilled {S A B} (p : Promise S A) (f : A -> Promise S B) (s s' : S) (a : A) :
  p s = (Fulfilled a, s') -> then_ p f s = f a s'.
Proof. intros H. unfold then_. rewrite H. reflexivity. Qed.

Lemma then_rejected {S A B} (p : Promise S A) (f : A -> Promise S B) (s s' : S) (e : JS.Error) :
  p s = (Rejected e, s') -> then_ p f s = (Rejected e, s').
Proof. intros H. unfold then_. rewrite H. reflexivity. Qed.

Ltac login_unfold :=
  cbv beta iota delta
    [bind ret gets modify throw try_catch run then_ catch_
     HwApi.set_serverNonce HwApi.set_veriToken HwApi.set_settled HwApi.on_world
     HwApi.settle HwApi.res HwApi.rej HwApi.new_Promise HwApi.console_log
     HwApi.result_prop HwApi.member HwApi.first HwApi.axios_send HwApi.axios_answer
     HwApi.HwRequest_send HwApi.setItem HwApi.set_h2 HwApi.set_code HwApi.call_scram
     HwApi.scram HwApi.serverNonce HwApi.veriToken HwApi.settled HwApi.world
     set_heap set_console set_browser set_requests set_draws
     heap console browser requests rng draws fst snd].

Section LoginFacts.
Context {lib : CryptoJS} {host : Host}.
Import HwApi.

Lemma login_run (api : t) (w : World) :
  login api w = (JS.Normal None, chain_caught api (clientNonce_of w) (entered api w)).
Proof.
  destruct w as [h c b r g d].
  unfold login, login_call, HwScramAuth.generateNonce, clientNonce_of, entered.
  login_unfold. eff_unfold. heap_norm. reflexivity.
Qed.

Lemma chain_to_challenge_run (api : t) (clientNonce token0 : string)
    (r1 : AxiosResponse) (f : Frame) :
  challenge_answered api clientNonce token0 r1 ->
  chain_to_challenge api clientNonce f =
    (Fulfilled r1,
     on_world (set_requests (fun l =>
       l ++ [get_request (server api +:+ HwEndpoints.TOKEN);
             HwRequest.request (scramOne api clientNonce token0)])) f).
Proof.
  intros [[(r0 & Hr0 & Hok) (rt & doc & ts & Hrt & Hp & Hroot & Htok)] Hr1].
  destruct f as [sc sn vt st [h c b r g d]].
  unfold chain_to_challenge, initSession_resume, on_session, on_token, getServerToken.
  login_unfold. rewrite Hr0. login_unfold. rewrite Hok.
  rewrite bool_decide_eq_true_2 by reflexivity.
  login_unfold. rewrite Hrt. login_unfold. rewrite Hp. login_unfold.
  rewrite Hroot. rewrite decide_True by reflexivity. login_unfold.
  rewrite Htok. login_unfold. rewrite Hr1. rewrite <- app_assoc. reflexivity.
Qed.

Lemma on_challenge_reply_missing (r1 : AxiosResponse) (f : Frame) :
  headers r1 !! "__requestverificationtoken" = None ->
  on_challenge_reply r1 f =
    (Rejected (JS.Error_ "Server did not supply verification token"),
     set_veriToken None f).
Proof.
  intros H. destruct f as [sc sn vt st w].
  unfold on_challenge_reply. login_unfold. rewrite H. reflexivity.
Qed.

Lemma on_challenge_reply_present (r1 : AxiosResponse) (f : Frame) (tok : string) :
  headers r1 !! "__requestverificationtoken" = Some tok ->
  on_challenge_reply r1 f = (Fulfilled (data r1), set_veriToken (Some tok) f).
Proof.
  intros H. destruct f as [sc sn vt st w].
  unfold on_challenge_reply. login_unfold. rewrite H. reflexivity.
Qed.

Lemma on_challenge_body_rate_limited (clientNonce body : string) (f : Frame)
    (e : option JS.Error) (doc : XmlDoc) :
  parseXmlStr body = mkParseResult e (Some doc) ->
  root doc = "error" ->
  let error :=
    JS.Error_ ("Too many incorrect login attempts, try again in "
               +:+ array_str (elements (children doc) "waittime") +:+ " minutes.") in
  on_challenge_body clientNonce body f =
    (Rejected error, set_settled (Some (JS.Throw error)) f).
Proof.
  intros Hp Hroot. cbv zeta. destruct f as [sc sn vt st w].
  unfold on_challenge_body, phaseOne_parsed. rewrite Hp.
  login_unfold. cbn [result err]. rewrite Hroot.
  rewrite decide_True by reflexivity. login_unfold.
  rewrite decide_False by discriminate. login_unfold. reflexivity.
Qed.

Lemma on_proof_run (api : t) (loginProof : string) (f : Frame) (r2 : AxiosResponse) :
  axios (HwRequest.request (scramTwo api (veriToken f) loginProof (serverNonce f)))
    = Resolves r2 ->
  on_proof api loginProof f =
    (Fulfilled r2,
     on_world (set_requests (fun l =>
       l ++ [HwRequest.request (scramTwo api (veriToken f) loginProof (serverNonce f))])) f).
Proof.
  intros H. destruct f as [sc sn vt st w]. cbn [veriToken serverNonce] in H.
  unfold on_proof. login_unfold. rewrite H. reflexivity.
Qed.

Lemma on_authentication_reply_run (r2 : AxiosResponse) (f : Frame) (tok : string) :
  veriToken f = Some tok ->
  on_authentication_reply r2 f =
    (Fulfilled (data r2),
     match headers r2 !! "__requestverificationtokenone" with
     | Some tok' =>
         on_world (set_console (fun c => c ++ ["Logged in successfully: " +:+ tok']))
                  (set_veriToken (Some tok') f)
     | None => f
     end).
Proof.
  intros H. destruct f as [sc sn vt st w]. cbn [veriToken] in H. subst vt.
  unfold on_authentication_reply. login_unfold.
  destruct (headers r2 !! "__requestverificationtokenone"); reflexivity.
Qed.

Context {laws : CryptoJSLaws lib}.

Lemma on_challenge_body_proof (clientNonce body : string) (f : Frame)
    (doc : XmlDoc) (sNonce saltHex its : string) (sns sls itss : list string) :
  parseXmlStr body = mkParseResult None (Some doc) ->
  root doc = "response" ->
  elements (children doc) "servernonce" = Some (sNonce, sns) ->
  elements (children doc) "salt" = Some (saltHex, sls) ->
  elements (children doc) "iterations" = Some (its, itss) ->
  let proof :=
    Spec.clientProof (clientNonce +:+ "," +:+ sNonce +:+ "," +:+ sNonce) saltHex
      (parseInt10 its) (HwScramAuth.pwd (scram f)) in
  exists w',
    on_challenge_body clientNonce body f =
      (Fulfilled proof,
       mkFrame (installed (HwScramAuth.pwd (scram f)) clientNonce sNonce saltHex
                          (parseInt10 its))
               (Some sNonce) (veriToken f) (Some (JS.Normal proof)) w')
    /\ browser w' = browser (world f) /\ requests w' = requests (world f).
Proof.
  intros Hp Hroot Hsn Hsl Hit. cbv zeta. destruct f as [sc sn vt st w].
  unfold on_challenge_body, phaseOne_parsed. rewrite Hp.
  login_unfold. cbn [result err]. rewrite Hroot.
  rewrite decide_False by discriminate. login_unfold.
  rewrite decide_True by reflexivity. login_unfold.
  rewrite Hsn. login_unfold. rewrite Hsl. login_unfold. rewrite Hit. login_unfold.
  rewrite setParams_run. login_unfold.
  erewrite calcProof_run by reflexivity.
  destruct w as [h c b r g d]. login_unfold. eff_unfold.
  eexists. split; [reflexivity|]. split; reflexivity.
Qed.

Ltac unchanged :=
  eexists _, _; split; [reflexivity|]; split; [reflexivity|]; left; reflexivity.

Lemma verify_server_cases (res : option XmlDoc) (f : Frame) (sl sec : string) :
  HwScramAuth.salt (scram f) = Some sl ->
  HwScramAuth.sigSecret (scram f) = Some sec ->
  exists c f',
    try_catch (verify_server res)
      (fun e => rej (JS.Error_ ("Failed to generate server proof. "
                                +:+ JS.Error_toString e))) f = (c, f')
    /\ requests (world f') = requests (world f)
    /\ (stored (world f') = stored (world f)
        \/ exists doc ssig ssigs psig psigs rsaN rsaNs,
             res = Some doc
             /\ root doc = "response"
             /\ elements (children doc) "serversignature" = Some (ssig, ssigs)
             /\ elements (children doc) "rsapubkeysignature" = Some (psig, psigs)
             /\ elements (children doc) "rsan" = Some (rsaN, rsaNs)
             /\ ssig = serverProof_of (scram f)
             /\ psig = pubSig_of (scram f) rsaN).
Proof.
  intros Hs Hk. destruct f as [sc sn vt st [h c b r g d]].
  cbn [scram] in Hs, Hk.
  unfold serverProof_of, pubSig_of, expected.
  cbn [scram]. rewrite Hs, Hk. cbn [JS.str].
  unfold verify_server, try_catch, bind at 1, call_scram at 1.
  rewrite (calcServerProof_run _ sl sec) by assumption.
  login_unfold. eff_unfold.
  destruct res as [doc|]; login_unfold; [|destruct st as [[]|]; unchanged].
  destruct (decide (root doc = "response")) as [Hroot|?]; login_unfold;
    [|destruct st as [[]|]; unchanged].
  destruct (elements (children doc) "serversignature") as [[ssig ssigs]|] eqn:Hss;
    login_unfold; [|destruct st as [[]|]; unchanged].
  destruct (decide (_ = ssig)) as [Heq|?]; login_unfold;
    [|destruct st as [[]|]; unchanged].
  destruct (elements (children doc) "rsapubkeysignature") as [[psig psigs]|] eqn:Hps;
    login_unfold; [|destruct st as [[]|]; unchanged].
  destruct (elements (children doc) "rsan") as [[rsaN rsaNs]|] eqn:Hn;
    login_unfold; [|destruct st as [[]|]; unchanged].
  rewrite (calcPubSig_run _ sl) by assumption.
  login_unfold. eff_unfold.
  destruct (decide (psig = _)) as [Heq'|?]; login_unfold;
    [|destruct st as [[]|]; unchanged].
  destruct b as [page|]; login_unfold; [|destruct st as [[]|]; unchanged].
  destruct (elements (children doc) "rsae") as [[rsaE rsaEs]|] eqn:He;
    login_unfold; [|destruct st as [[]|]; unchanged].
  eexists _, _; split; [reflexivity|]; split; [reflexivity|]; right.
  exists doc, ssig, ssigs, psig, psigs, rsaN, rsaNs.
  repeat split; try assumption; try reflexivity; auto.
Qed.

Lemma on_authentication_body_mismatch (text : string) (f : Frame) (sl sec : string)
    (doc : XmlDoc) (ssig psig rsaN : string) (ssigs psigs rsaNs : list string) :
  HwScramAuth.salt (scram f) = Some sl ->
  HwScramAuth.sigSecret (scram f) = Some sec ->
  parseXmlStr text = mkParseResult None (Some doc) ->
  root doc = "response" ->
  elements (children doc) "serversignature" = Some (ssig, ssigs) ->
  elements (children doc) "rsapubkeysignature" = Some (psig, psigs) ->
  elements (children doc) "rsan" = Some (rsaN, rsaNs) ->
  psig <> pubSig_of (scram f) rsaN ->
  exists f',
    on_authentication_body text f =
      (Rejected (JS.Error_ (if decide (ssig = serverProof_of (scram f))
                            then "Server provided an invalid RSA public key."
                            else "Could not verify server identity.")), f')
    /\ requests (world f') = requests (world f)
    /\ stored (world f') = stored (world f).
Proof.
  intros Hs Hk Hp Hroot Hss Hps Hn Hne.
  destruct f as [sc sn vt st [h c b r g d]]. cbn [scram] in *.
  revert Hne. unfold serverProof_of, pubSig_of, expected.
  rewrite Hs, Hk. cbn [JS.str]. intros Hne.
  unfold on_authentication_body, phaseTwo_parsed. rewrite Hp. cbn [err result].
  unfold verify_server, new_Promise, try_catch, bind at 1, ret at 1.
  unfold bind at 1, call_scram at 1. cbn [set_settled scram world].
  rewrite (calcServerProof_run _ sl sec) by assumption.
  login_unfold. eff_unfold.
  rewrite Hroot. rewrite decide_True by reflexivity. login_unfold.
  rewrite Hss. login_unfold.
  destruct (decide (_ = ssig)) as [Heq|Hneq]; login_unfold.
  - rewrite Hps. login_unfold. rewrite Hn. login_unfold.
    rewrite (calcPubSig_run _ sl) by assumption.
    login_unfold. eff_unfold.
    rewrite decide_False by exact Hne. login_unfold.
    rewrite decide_True by (symmetry; exact Heq).
    eexists. split; [reflexivity|]. split; reflexivity.
  - rewrite decide_False by (intros E; apply Hneq; symmetry; exact E).
    eexists. split; [reflexivity|]. split; reflexivity.
Qed.

Lemma on_authentication_body_frame (text : string) (f : Frame) (sl sec : string) :
  HwScramAuth.salt (scram f) = Some sl ->
  HwScramAuth.sigSecret (scram f) = Some sec ->
  exists o f',
    on_authentication_body text f = (o, f')
    /\ requests (world f') = requests (world f)
    /\ (stored (world f') = stored (world f)
        \/ exists doc ssig ssigs psig psigs rsaN rsaNs,
             result (parseXmlStr text) = Some doc
             /\ root doc = "response"
             /\ elements (children doc) "serversignature" = Some (ssig, ssigs)
             /\ elements (children doc) "rsapubkeysignature" = Some (psig, psigs)
             /\ elements (children doc) "rsan" = Some (rsaN, rsaNs)
             /\ ssig = serverProof_of (scram f)
             /\ psig = pubSig_of (scram f) rsaN).
Proof.
  intros Hs Hk.
  unfold on_authentication_body, phaseTwo_parsed, new_Promise.
  unfold bind at 1.
  set (pre := match err (parseXmlStr text) with
              | Some e => rej (JS.Error_ ("SCRAM auth failed. " +:+ JS.Error_toString e))
              | None => ret ()
              end (set_settled None f)).
  assert (Hpre : exists st, pre = (JS.Normal tt, set_settled st f)).
  { subst pre. destruct f as [sc sn vt st w].
    destruct (err (parseXmlStr text)); eexists; reflexivity. }
  destruct Hpre as [st0 ->].
  destruct (verify_server_cases (result (parseXmlStr text)) (set_settled st0 f) sl sec)
    as (c & f' & Hrun & Hreq & Hsto).
  { destruct f; exact Hs. }
  { destruct f; exact Hk. }
  rewrite Hrun.
  assert (Hw : world (set_settled st0 f) = world f) by (destruct f; reflexivity).
  assert (Hsc : scram (set_settled st0 f) = scram f) by (destruct f; reflexivity).
  rewrite Hw, Hsc in *.
  destruct (settled f') as [[v|e]|], c; eexists _, _; (split; [reflexivity|]);
    (split; [exact Hreq|exact Hsto]).
Qed.

Lemma attempt_fails_intro (api : t) (w : World) (e : JS.Error) (sent : list Request)
    (f : Frame) :
  chain api (clientNonce_of w) (entered api w) = (Rejected e, f) ->
  requests (world f) = requests w ++ sent ->
  stored (world f) = stored w ->
  attempt_fails api w e sent.
Proof.
  intros Hc Hr Hs. unfold attempt_fails.
  rewrite login_run. cbn [fst snd]. split; [eexists; exact Hc|].
  split; [reflexivity|].
  unfold chain_caught, catch_. rewrite Hc.
  destruct f as [sc sn vt st [h c b r g d]]. cbn [world requests] in Hr.
  unfold stored in *. cbn [world browser] in Hs.
  unfold report, shown, stored. destruct b as [page|]; login_unfold.
  - cbn [fmap option_fmap option_map]. repeat split; assumption.
  - repeat split; try assumption. apply last_snoc.
Qed.
End LoginFacts.

Lemma lower_fixed_token : lower "__requestverificationtoken" = "__requestverificationtoken".
Proof. reflexivity. Qed.

Lemma axios_headers_absent (lines : list (string * string)) (name : string) :
  (forall k v, (k, v) ∈ lines -> lower k <> name) ->
  axios_headers lines !! name = None.
Proof.
  induction lines as [|[k v] rest IH]; intros H; [apply lookup_empty|].
  cbn [axios_headers].
  assert (Hk : lower k <> name) by (apply (H k v); left).
  assert (Hrest : axios_headers rest !! name = None).
  { apply IH. intros k' v' Hin. apply (H k' v'). right. exact Hin. }
  destruct (axios_headers rest !! lower k);
    rewrite lookup_insert_ne by exact Hk; exact Hrest.
Qed.

Section LoginRuns.
Context {lib : CryptoJS} {host : Host}.
Import HwApi.

Lemma chain_to_challenge_entered (api : t) (w : World) (token0 : string)
    (r1 : AxiosResponse) :
  challenge_answered api (clientNonce_of w) token0 r1 ->
  exists f,
    chain_to_challenge api (clientNonce_of w) (entered api w) = (Fulfilled r1, f)
    /\ scram f = HwScramAuth.new (authPwd api)
    /\ requests (world f) = requests w ++ sent_to_challenge api (clientNonce_of w) token0
    /\ browser (world f) = browser w.
Proof.
  intros H. rewrite (chain_to_challenge_run api _ token0 r1 _ H).
  eexists. split; [reflexivity|]. split; [reflexivity|]. split; [|reflexivity].
  cbn. rewrite <- app_assoc. reflexivity.
Qed.

Lemma attempt_missing_token (api : t) (w : World) (token0 : string) (r1 : AxiosResponse) :
  challenge_answered api (clientNonce_of w) token0 r1 ->
  headers r1 !! "__requestverificationtoken" = None ->
  attempt_fails api w (JS.Error_ "Server did not supply verification token")
                (sent_to_challenge api (clientNonce_of w) token0).
Proof.
  intros Hc Hh.
  destruct (chain_to_challenge_entered api w token0 r1 Hc) as (f & Hrun & _ & Hreq & Hb).
  eapply attempt_fails_intro.
  - unfold chain, chain_to_authentication.
    do 4 (erewrite then_rejected; [reflexivity|]).
    erewrite then_fulfilled by exact Hrun.
    apply on_challenge_reply_missing. exact Hh.
  - destruct f; exact Hreq.
  - unfold stored. destruct f; cbn in *. rewrite Hb. reflexivity.
Qed.

Lemma attempt_rate_limited (api : t) (w : World) (token0 : string) (r1 : AxiosResponse)
    (tok : string) (e : option JS.Error) (doc : XmlDoc) :
  challenge_answered api (clientNonce_of w) token0 r1 ->
  headers r1 !! "__requestverificationtoken" = Some tok ->
  parseXmlStr (data r1) = mkParseResult e (Some doc) ->
  root doc = "error" ->
  attempt_fails api w
    (JS.Error_ ("Too many incorrect login attempts, try again in "
                +:+ array_str (elements (children doc) "waittime") +:+ " minutes."))
    (sent_to_challenge api (clientNonce_of w) token0).
Proof.
  intros Hc Hh Hp Hroot.
  destruct (chain_to_challenge_entered api w token0 r1 Hc) as (f & Hrun & _ & Hreq & Hb).
  eapply attempt_fails_intro.
  - unfold chain, chain_to_authentication.
    do 3 (erewrite then_rejected; [reflexivity|]).
    erewrite then_fulfilled;
      [|erewrite then_fulfilled by exact Hrun;
        apply on_challenge_reply_present; exact Hh].
    apply (on_challenge_body_rate_limited _ _ _ e doc Hp Hroot).
  - destruct f; exact Hreq.
  - unfold stored. destruct f; cbn in *. rewrite Hb. reflexivity.
Qed.

Context {laws : CryptoJSLaws lib}.

Lemma chain_to_authentication_entered (api : t) (w : World) (token0 : string)
    (r1 : AxiosResponse) (tok sNonce saltHex its : string) (r2 : AxiosResponse) :
  authentication_answered api (clientNonce_of w) token0 r1 tok sNonce saltHex its r2 ->
  exists st w',
    chain_to_authentication api (clientNonce_of w) (entered api w) =
      (Fulfilled r2,
       mkFrame (installed (authPwd api) (clientNonce_of w) sNonce saltHex (parseInt10 its))
               (Some sNonce) (Some tok) st w')
    /\ requests w' = requests w
                     ++ sent_to_authentication api (clientNonce_of w) token0 tok sNonce saltHex its
    /\ browser w' = browser w.
Proof.
  intros (Hc & (Hh & doc & sns & sls & itss & Hp & Hroot & Hsn & Hsl & Hit) & Hr2).
  destruct (chain_to_challenge_entered api w token0 r1 Hc) as (f & Hrun & Hsc & Hreq & Hb).
  destruct (on_challenge_body_proof (clientNonce_of w) (data r1) (set_veriToken (Some tok) f)
              doc sNonce saltHex its sns sls itss Hp Hroot Hsn Hsl Hit)
    as (w' & Hbody & Hb' & Hreq').
  assert (Hpw : HwScramAuth.pwd (scram (set_veriToken (Some tok) f)) = authPwd api)
    by (destruct f; cbn in *; rewrite Hsc; reflexivity).
  rewrite Hpw in Hbody.
  assert (Hvt : veriToken (set_veriToken (Some tok) f) = Some tok) by (destruct f; reflexivity).
  rewrite Hvt in Hbody.
  assert (Hw : world (set_veriToken (Some tok) f) = world f) by (destruct f; reflexivity).
  rewrite Hw in Hb', Hreq'.
  eexists _, _. split; [|split].
  - unfold chain_to_authentication.
    erewrite then_fulfilled;
      [|erewrite then_fulfilled;
        [exact Hbody
        |erewrite then_fulfilled by exact Hrun;
         apply on_challenge_reply_present; exact Hh]].
    rewrite (on_proof_run api _ _ r2) by exact Hr2. reflexivity.
  - cbn. rewrite Hreq', Hreq. unfold sent_to_authentication.
    rewrite <- app_assoc. reflexivity.
  - cbn. rewrite Hb', Hb. reflexivity.
Qed.

Lemma installed_salt (p c s sl : string) (i : JS.number) :
  HwScramAuth.salt (installed p c s sl i) = Some sl.
Proof. reflexivity. Qed.

Lemma attempt_key_mismatch (api : t) (w : World) (token0 : string)
    (r1 : AxiosResponse) (tok sNonce saltHex its : string) (r2 : AxiosResponse)
    (doc : XmlDoc) (ssig psig rsaN : string) (ssigs psigs rsaNs : list string) :
  let sc := installed (authPwd api) (clientNonce_of w) sNonce saltHex (parseInt10 its) in
  authentication_answered api (clientNonce_of w) token0 r1 tok sNonce saltHex its r2 ->
  parseXmlStr (data r2) = mkParseResult None (Some doc) ->
  root doc = "response" ->
  elements (children doc) "serversignature" = Some (ssig, ssigs) ->
  elements (children doc) "rsapubkeysignature" = Some (psig, psigs) ->
  elements (children doc) "rsan" = Some (rsaN, rsaNs) ->
  psig <> pubSig_of sc rsaN ->
  attempt_fails api w
    (JS.Error_ (if decide (ssig = serverProof_of sc)
                then "Server provided an invalid RSA public key."
                else "Could not verify server identity."))
    (sent_to_authentication api (clientNonce_of w) token0 tok sNonce saltHex its).
Proof.
  intros sc Ha Hp Hroot Hss Hps Hn Hne.
  destruct (chain_to_authentication_entered api w token0 r1 tok sNonce saltHex its r2 Ha)
    as (st & w' & Hrun & Hreq & Hb).
  set (f2 := mkFrame sc (Some sNonce) (Some tok) st w') in *.
  pose proof (on_authentication_reply_run r2 f2 tok eq_refl) as Hreply.
  set (f3 := match headers r2 !! "__requestverificationtokenone" with
             | Some tok' =>
                 on_world (set_console (fun c => c ++ ["Logged in successfully: " +:+ tok']))
                          (set_veriToken (Some tok') f2)
             | None => f2
             end) in *.
  assert (H3 : scram f3 = sc /\ requests (world f3) = requests w' /\
               browser (world f3) = browser w').
  { subst f3 f2. destruct (headers r2 !! _); cbn; auto. }
  destruct H3 as (Hsc3 & Hreq3 & Hb3).
  destruct (on_authentication_body_mismatch (data r2) f3 saltHex
              (clientNonce_of w +:+ "," +:+ sNonce +:+ "," +:+ sNonce)
              doc ssig psig rsaN ssigs psigs rsaNs) as (f' & Hbody & Hreq' & Hsto');
    try assumption.
  { rewrite Hsc3. reflexivity. }
  { rewrite Hsc3. reflexivity. }
  { rewrite Hsc3. exact Hne. }
  rewrite Hsc3 in Hbody.
  eapply attempt_fails_intro.
  - unfold chain. erewrite then_fulfilled; [exact Hbody|].
    erewrite then_fulfilled by exact Hrun. exact Hreply.
  - rewrite Hreq', Hreq3. exact Hreq.
  - rewrite Hsto'. unfold stored. rewrite Hb3, Hb. reflexivity.
Qed.

Lemma chain_caught_stored (api : t) (clientNonce : string) (f f' : Frame)
    (o : Settled string) :
  chain api clientNonce f = (o, f') ->
  stored (world (chain_caught api clientNonce f).2) = stored (world f').
Proof.
  intros H. unfold chain_caught, catch_. rewrite H.
  destruct o as [v|e|]; [reflexivity| |reflexivity].
  destruct f' as [sc sn vt st [h c b r g d]].
  unfold report, stored. destruct b as [page|]; reflexivity.
Qed.

Lemma stored_only_if_verified (api : t) (w : World) (token0 : string)
    (r1 : AxiosResponse) (tok sNonce saltHex its : string) (r2 : AxiosResponse) :
  let sc := installed (authPwd api) (clientNonce_of w) sNonce saltHex (parseInt10 its) in
  authentication_answered api (clientNonce_of w) token0 r1 tok sNonce saltHex its r2 ->
  stored (world (login api w).2.2) <> stored w ->
  exists doc ssig ssigs psig psigs rsaN rsaNs,
    result (parseXmlStr (data r2)) = Some doc
    /\ root doc = "response"
    /\ elements (children doc) "serversignature" = Some (ssig, ssigs)
    /\ elements (children doc) "rsapubkeysignature" = Some (psig, psigs)
    /\ elements (children doc) "rsan" = Some (rsaN, rsaNs)
    /\ ssig = serverProof_of sc
    /\ psig = pubSig_of sc rsaN.
Proof.
  intros sc Ha Hchanged.
  destruct (chain_to_authentication_entered api w token0 r1 tok sNonce saltHex its r2 Ha)
    as (st & w' & Hrun & Hreq & Hb).
  set (f2 := mkFrame sc (Some sNonce) (Some tok) st w') in *.
  pose proof (on_authentication_reply_run r2 f2 tok eq_refl) as Hreply.
  set (f3 := match headers r2 !! "__requestverificationtokenone" with
             | Some tok' =>
                 on_world (set_console (fun c => c ++ ["Logged in successfully: " +:+ tok']))
                          (set_veriToken (Some tok') f2)
             | None => f2
             end) in *.
  assert (H3 : scram f3 = sc /\ browser (world f3) = browser w').
  { subst f3 f2. destruct (headers r2 !! _); cbn; auto. }
  destruct H3 as (Hsc3 & Hb3).
  destruct (on_authentication_body_frame (data r2) f3 saltHex
              (clientNonce_of w +:+ "," +:+ sNonce +:+ "," +:+ sNonce))
    as (o & f' & Hbody & _ & Hcases).
  { rewrite Hsc3. reflexivity. }
  { rewrite Hsc3. reflexivity. }
  assert (Hchain : chain api (clientNonce_of w) (entered api w) = (o, f')).
  { unfold chain. erewrite then_fulfilled; [exact Hbody|].
    erewrite then_fulfilled by exact Hrun. exact Hreply. }
  rewrite login_run in Hchanged. cbn [snd] in Hchanged.
  rewrite (chain_caught_stored _ _ _ _ _ Hchain) in Hchanged.
  destruct Hcases as [Hsame | Hok].
  - exfalso. apply Hchanged. rewrite Hsame. unfold stored. rewrite Hb3, Hb. reflexivity.
  - rewrite Hsc3 in Hok. exact Hok.
Qed.

End LoginRuns.
(** ** The body of the answer to phase two *)

Section BodyFacts.
Context {lib : CryptoJS} {host : Host} {laws : CryptoJSLaws lib}.
Import HwApi.

(** The frame in which the body of the answer to phase two is parsed. *)
Lemma chain_to_body (api : t) (w : World) (token0 : string)
  (r1 : AxiosResponse) (tok sNonce saltHex its : string) (r2 : AxiosResponse) :
authentication_answered api (clientNonce_of w) token0 r1 tok sNonce saltHex its r2 ->
exists f,
  then_ (chain_to_authentication api (clientNonce_of w)) on_authentication_reply
        (entered api w) = (Fulfilled (data r2), f)
  /\ scram f = installed (authPwd api) (clientNonce_of w) sNonce saltHex (parseInt10 its)
  /\ veriToken f = Some (default tok (headers r2 !! "__requestverificationtokenone"))
  /\ requests (world f)
     = requests w ++ sent_to_authentication api (clientNonce_of w) token0 tok sNonce saltHex its
  /\ browser (world f) = browser w
  /\ (forall tok', headers r2 !! "__requestverificationtokenone" = Some tok' ->
        last (console (world f)) = Some ("Logged in successfully: " +:+ tok')).
Proof.
intros Ha.
destruct (chain_to_authentication_entered api w token0 r1 tok sNonce saltHex its r2 Ha)
  as (st & w' & Hrun & Hreq & Hb).
eexists. split.
{ erewrite then_fulfilled by exact Hrun.
  apply (on_authentication_reply_run r2 _ tok). reflexivity. }
destruct (headers r2 !! "__requestverificationtokenone") as [tok'|]; cbn.
- repeat split; try assumption; try reflexivity.
  intros ? [= <-]. destruct w'. cbn. apply last_snoc.
- repeat split; try assumption; try reflexivity. discriminate.
Qed.

Lemma on_authentication_body_unproved (text : string) (f : Frame) (sl sec : string)
  (doc : XmlDoc) (ssig : string) (ssigs : list string) :
HwScramAuth.salt (scram f) = Some sl ->
HwScramAuth.sigSecret (scram f) = Some sec ->
parseXmlStr text = mkParseResult None (Some doc) ->
root doc = "response" ->
elements (children doc) "serversignature" = Some (ssig, ssigs) ->
ssig <> serverProof_of (scram f) ->
exists f',
  on_authentication_body text f
  = (Rejected (JS.Error_ "Could not verify server identity."), f')
  /\ requests (world f') = requests (world f)
  /\ browser (world f') = browser (world f)
  /\ console (world f') = console (world f)
  /\ veriToken f' = veriToken f.
Proof.
intros Hs Hk Hp Hroot Hss Hne.
destruct f as [sc sn vt st [h c b r g d]]. cbn [scram] in *.
revert Hne. unfold serverProof_of, expected.
rewrite Hs, Hk. cbn [JS.str]. intros Hne.
unfold on_authentication_body, phaseTwo_parsed. rewrite Hp. cbn [err result].
unfold verify_server, new_Promise, try_catch, bind at 1, ret at 1.
unfold bind at 1, call_scram at 1. cbn [set_settled scram world].
rewrite (calcServerProof_run _ sl sec) by assumption.
login_unfold. eff_unfold.
rewrite Hroot. rewrite decide_True by reflexivity. login_unfold.
rewrite Hss. login_unfold.
rewrite decide_False by (intros E; apply Hne; symmetry; exact E).
login_unfold.
eexists. split; [reflexivity|]. repeat split; reflexivity.
Qed.

(** Both comparisons succeed: what is left is to store the key. *)
Lemma on_authentication_body_verified (text : string) (f : Frame) (sl sec : string)
  (doc : XmlDoc) (rsaN : string) (ssigs psigs rsaNs : list string) :
HwScramAuth.salt (scram f) = Some sl ->
HwScramAuth.sigSecret (scram f) = Some sec ->
parseXmlStr text = mkParseResult None (Some doc) ->
root doc = "response" ->
elements (children doc) "serversignature" = Some (serverProof_of (scram f), ssigs) ->
elements (children doc) "rsapubkeysignature" = Some (pubSig_of (scram f) rsaN, psigs) ->
elements (children doc) "rsan" = Some (rsaN, rsaNs) ->
exists f',
  on_authentication_body text f
  = (match browser (world f), elements (children doc) "rsae" with
     | Some _, Some _ => Pending
     | Some _, None =>
         Rejected (JS.Error_ ("Failed to generate server proof. "
                              +:+ JS.Error_toString (cannot_read "0")))
     | None, _ =>
         Rejected (JS.Error_ ("Failed to generate server proof. "
                              +:+ JS.Error_toString
                                    (JS.ReferenceError "window is not defined")))
     end, f')
  /\ requests (world f') = requests (world f)
  /\ console (world f') = console (world f)
  /\ veriToken f' = veriToken f
  /\ browser (world f')
     = match browser (world f), elements (children doc) "rsae" with
       | Some page, Some (rsaE, _) =>
           Some (mkBrowser "Logged in!" ("rsan=" +:+ rsaN +:+ ", rsae=" +:+ rsaE)
                   (<["rsae" := rsaE]> (<["rsan" := rsaN]> (localStorage page))))
       | other, _ => other
       end.
Proof.
intros Hs Hk Hp Hroot Hss Hps Hn.
destruct f as [sc sn vt st [h c b r g d]]. cbn [scram] in *.
revert Hss Hps. unfold serverProof_of, pubSig_of, expected.
rewrite Hs, Hk. cbn [JS.str]. intros Hss Hps.
unfold on_authentication_body, phaseTwo_parsed. rewrite Hp. cbn [err result].
unfold verify_server, new_Promise, try_catch, bind at 1, ret at 1.
unfold bind at 1, call_scram at 1. cbn [set_settled scram world].
rewrite (calcServerProof_run _ sl sec) by assumption.
login_unfold. eff_unfold.
rewrite Hroot. rewrite decide_True by reflexivity. login_unfold.
rewrite Hss. login_unfold.
rewrite decide_True by reflexivity. login_unfold.
rewrite Hps. login_unfold. rewrite Hn. login_unfold.
rewrite (calcPubSig_run _ sl) by assumption.
login_unfold. eff_unfold.
rewrite decide_True by reflexivity. login_unfold.
destruct b as [page|]; login_unfold.
- destruct (elements (children doc) "rsae") as [[rsaE rsaEs]|]; login_unfold.
  + eexists. split; [reflexivity|]. repeat split; reflexivity.
  + eexists. split; [reflexivity|]. repeat split; reflexivity.
- eexists. split; [reflexivity|]. repeat split; reflexivity.
Qed.

(** The answer parses but carries no server proof. *)
Lemma on_authentication_body_unsigned (text : string) (f : Frame) (sl sec : string)
  (doc : XmlDoc) :
HwScramAuth.salt (scram f) = Some sl ->
HwScramAuth.sigSecret (scram f) = Some sec ->
parseXmlStr text = mkParseResult None (Some doc) ->
root doc = "response" ->
elements (children doc) "serversignature" = None ->
exists f',
  on_authentication_body text f
  = (Rejected (JS.Error_ ("Failed to generate server proof. "
                          +:+ JS.Error_toString (cannot_read "0"))), f')
  /\ requests (world f') = requests (world f)
  /\ browser (world f') = browser (world f)
  /\ console (world f') = console (world f).
Proof.
intros Hs Hk Hp Hroot Hss.
destruct f as [sc sn vt st [h c b r g d]]. cbn [scram] in *.
unfold on_authentication_body, phaseTwo_parsed. rewrite Hp. cbn [err result].
unfold verify_server, new_Promise, try_catch, bind at 1, ret at 1.
unfold bind at 1, call_scram at 1. cbn [set_settled scram world].
rewrite (calcServerProof_run _ sl sec) by assumption.
login_unfold. eff_unfold.
rewrite Hroot. rewrite decide_True by reflexivity. login_unfold.
rewrite Hss. login_unfold.
eexists. split; [reflexivity|]. repeat split; reflexivity.
Qed.

(** The parser reports an error and no document. *)
Lemma on_authentication_body_unparsed (text : string) (f : Frame) (sl sec : string)
  (e : JS.Error) :
HwScramAuth.salt (scram f) = Some sl ->
HwScramAuth.sigSecret (scram f) = Some sec ->
parseXmlStr text = mkParseResult (Some e) None ->
exists f',
  on_authentication_body text f
  = (Rejected (JS.Error_ ("SCRAM auth failed. " +:+ JS.Error_toString e)), f')
  /\ requests (world f') = requests (world f)
  /\ browser (world f') = browser (world f)
  /\ console (world f') = console (world f).
Proof.
intros Hs Hk Hp.
destruct f as [sc sn vt st [h c b r g d]]. cbn [scram] in *.
unfold on_authentication_body, phaseTwo_parsed. rewrite Hp. cbn [err result].
unfold verify_server, new_Promise, try_catch, bind at 1, rej, settle, modify.
cbn [set_settled settled].
unfold bind at 1, call_scram at 1. cbn [set_settled scram world].
rewrite (calcServerProof_run _ sl sec) by assumption.
login_unfold. eff_unfold.
eexists. split; [reflexivity|]. repeat split; reflexivity.
Qed.

End BodyFacts.

Section BodyRuns.
Context {lib : CryptoJS} {host : Host} {laws : CryptoJSLaws lib}.
Import HwApi.

Lemma attempt_unsigned (api : t) (w : World) (token0 : string)
  (r1 : AxiosResponse) (tok sNonce saltHex its : string) (r2 : AxiosResponse)
  (doc : XmlDoc) :
authentication_answered api (clientNonce_of w) token0 r1 tok sNonce saltHex its r2 ->
parseXmlStr (data r2) = mkParseResult None (Some doc) ->
root doc = "response" ->
elements (children doc) "serversignature" = None ->
attempt_fails api w
  (JS.Error_ ("Failed to generate server proof. " +:+ JS.Error_toString (cannot_read "0")))
  (sent_to_authentication api (clientNonce_of w) token0 tok sNonce saltHex its).
Proof.
intros Ha Hp Hroot Hss.
destruct (chain_to_body api w token0 r1 tok sNonce saltHex its r2 Ha)
  as (f & Hrun & Hsc & _ & Hreq & Hb & _).
destruct (on_authentication_body_unsigned (data r2) f saltHex
            (clientNonce_of w +:+ "," +:+ sNonce +:+ "," +:+ sNonce) doc)
  as (f' & Hbody & Hreq' & Hb' & _); try assumption.
{ rewrite Hsc. reflexivity. }
{ rewrite Hsc. reflexivity. }
eapply attempt_fails_intro.
- unfold chain. erewrite then_fulfilled by exact Hrun. exact Hbody.
- rewrite Hreq'. exact Hreq.
- unfold stored. rewrite Hb', Hb. reflexivity.
Qed.
End BodyRuns.


(** * The claims *)

Section ScramClaims.
Context {lib : CryptoJS} {laws : CryptoJSLaws lib}.
Import HwScramAuth.

(** C1. With the parameters installed by [setParams], [calcProof] returns
    the hex encoding of clientKey XOR signature, where clientKey is the key
    derived under "Client Key", storedKey is its SHA-256, and signature is
    the HMAC-SHA256 whose message is storedKey and whose key is the
    AuthMessage stored by [setParams]; the XOR covers all eight 32-bit
    words, that is the full 32 bytes. *)
Theorem calcProof_client_proof (s0 : St) (cNonce sNonce saltHex : string)
    (iterations : JS.number) :
  let s := (setParams cNonce sNonce saltHex iterations s0).2 in
  let clientKey := Spec.derive (pwd (self s0)) saltHex iterations "Client Key" in
  let storedKey := digest algo_SHA256 clientKey in
  let signature :=
    HmacSHA256 storedKey (KeyString (cNonce +:+ "," +:+ sNonce +:+ "," +:+ sNonce)) in
  let xored := zip_with Z.lxor (words clientKey) (words signature) in
  (calcProof s).1 = JS.Normal (Hex_stringify (mkWordArray xored 32))
  /\ length xored = 8%nat
  /\ sigBytes clientKey = 32 /\ sigBytes signature = 32
  /\ forall i x y, words clientKey !! i = Some x -> words signature !! i = Some y ->
                   xored !! i = Some (JS.bxor (Some x) (Some y)).
Proof.
  cbv zeta. rewrite setParams_run. cbn [snd].
  erewrite calcProof_run by reflexivity. cbn [fst].
  pose proof (HmacSHA256_is_digest
                (PBKDF2 (pwd (self s0)) (Hex_parse saltHex) algo_SHA256 (Some iterations) 8)
                (KeyString "Client Key")) as (Hb & Hl & Hi).
  pose proof (HmacSHA256_is_digest
                (digest algo_SHA256 (Spec.derive (pwd (self s0)) saltHex iterations "Client Key"))
                (KeyString (cNonce +:+ "," +:+ sNonce +:+ "," +:+ sNonce))) as (Hb' & Hl' & Hi').
  split; [reflexivity|]. split.
  { rewrite length_zip_with. unfold Spec.derive in *. rewrite Hl, Hl'. reflexivity. }
  split; [exact Hb|]. split; [exact Hb'|].
  intros i x y Hx Hy. rewrite lookup_zip_with, Hx, Hy. cbn.
  unfold JS.bxor, JS.int32_of. f_equal.
  rewrite !ToInt32_id; [reflexivity| |].
  - eapply Forall_lookup_1; [exact Hi'|exact Hy].
  - eapply Forall_lookup_1; [exact Hi|exact Hx].
Qed.

(** C2. [deriveKey] runs PBKDF2 with SHA-256 as the hasher over the
    password and the hex-decoded salt for the stored iteration count with
    an output of 8 words, 32 bytes, and returns the HMAC-SHA256 whose
    message is that salted secret and whose key is the label. *)
Theorem deriveKey_pbkdf2_then_hmac (s0 : St) (cNonce sNonce saltHex : string)
    (iterations : JS.number) (label : string) :
  let s := (setParams cNonce sNonce saltHex iterations s0).2 in
  let saltedSecret :=
    PBKDF2 (pwd (self s0)) (Hex_parse saltHex) algo_SHA256 (Some iterations) 8 in
  exists (key : loc) (s' : St),
    deriveKey label s = (JS.Normal key, s')
    /\ heap (world s') !! key = Some (HmacSHA256 saltedSecret (KeyString label))
    /\ HmacSHA256 saltedSecret (KeyString label)
       = Spec.derive (pwd (self s0)) saltHex iterations label
    /\ sigBytes saltedSecret = 32.
Proof.
  cbv zeta. rewrite setParams_run. cbn [snd].
  eexists _, _. split; [apply deriveKey_run; reflexivity|].
  split.
  { destruct s0 as [o [h c b r g d]]. cbn.
    rewrite lookup_app_r by lia.
    replace (length h + 2 - length h)%nat with 2%nat by lia. reflexivity. }
  split; [reflexivity|].
  rewrite PBKDF2_sigBytes. reflexivity.
Qed.

(** C3, amended. The AuthMessage [setParams] stores is clientNonce, a
    comma, serverNonce, a comma, serverNonce; both [calcProof] and
    [calcServerProof] hand it to HMAC-SHA256 as the key, the message being
    storedKey and the derived server key. *)
Theorem authMessage_comma_separated_key (s0 : St) (cNonce sNonce saltHex : string)
    (iterations : JS.number) :
  let s := (setParams cNonce sNonce saltHex iterations s0).2 in
  let authMessage := cNonce +:+ "," +:+ sNonce +:+ "," +:+ sNonce in
  let password := pwd (self s0) in
  sigSecret (self s) = Some authMessage
  /\ (calcProof s).1
     = JS.Normal (Spec.clientProof authMessage saltHex iterations password)
  /\ (calcServerProof s).1
     = JS.Normal (Hex_stringify
                    (HmacSHA256 (Spec.derive password saltHex iterations "Server Key")
                                (KeyString authMessage))).
Proof.
  cbv zeta. rewrite setParams_run. cbn [snd].
  split; [reflexivity|]. split.
  - erewrite calcProof_run by reflexivity. reflexivity.
  - erewrite calcServerProof_run by reflexivity. reflexivity.
Qed.

(** C6. [calcPubSig] returns the HMAC-SHA256 whose key is the derived
    "Server Key" and whose message is the hex-decoded public key, while
    [calcServerProof] uses the derived server key as the message and the
    AuthMessage as the key. *)
Theorem calcPubSig_roles_swapped (s0 : St) (cNonce sNonce saltHex : string)
    (iterations : JS.number) (devicePublicKeyHex : string) :
  let s := (setParams cNonce sNonce saltHex iterations s0).2 in
  let serverKey := Spec.derive (pwd (self s0)) saltHex iterations "Server Key" in
  (calcPubSig devicePublicKeyHex s).1
    = JS.Normal (Hex_stringify
                   (HmacSHA256 (Hex_parse devicePublicKeyHex) (KeyWords serverKey)))
  /\ (calcServerProof s).1
    = JS.Normal (Hex_stringify
                   (HmacSHA256 serverKey
                      (KeyString (cNonce +:+ "," +:+ sNonce +:+ "," +:+ sNonce)))).
Proof.
  cbv zeta. rewrite setParams_run. cbn [snd]. split.
  - erewrite calcPubSig_run by reflexivity. reflexivity.
  - erewrite calcServerProof_run by reflexivity. reflexivity.
Qed.

(** C10. With the parameters installed by [setParams], any sequence of
    calls of [calcProof], [calcServerProof] and [calcPubSig] leaves every
    field of the object as it was and every WordArray that existed before
    untouched, and each call returns the value fixed by the stored
    parameters, the same at every repetition. *)
Theorem proof_calls_frame (s0 : St) (cNonce sNonce saltHex : string)
    (iterations : JS.number) (calls : list ProofCall) :
  let s := (setParams cNonce sNonce saltHex iterations s0).2 in
  let results := (invoke_all calls s).1 in
  let s' := (invoke_all calls s).2 in
  results = map (fun c => JS.Normal (expected (self s) c)) calls
  /\ self s' = self s
  /\ self s = installed (pwd (self s0)) cNonce sNonce saltHex iterations
  /\ exists fresh, heap (world s') = heap (world s) ++ fresh.
Proof.
  cbv zeta. rewrite setParams_run. cbn [snd].
  edestruct (invoke_all_run calls) as (cells & lines & ->); [reflexivity..|].
  cbn [fst snd self]. split; [reflexivity|]. split; [reflexivity|].
  split; [reflexivity|]. exists cells. reflexivity.
Qed.

End ScramClaims.

(** C7. For a 32-byte clientKey and a 32-byte signature, XORing clientKey
    with signature word by word, as the loop of [calcProof] does, and then
    XORing the result with the same signature again gives back the original
    clientKey. *)
Theorem xor_words_self_inverse (s : HwScramAuth.St) (clientKey signature : loc)
    (ck sg : WordArray) :
  heap (HwScramAuth.world s) !! clientKey = Some ck ->
  heap (HwScramAuth.world s) !! signature = Some sg ->
  clientKey <> signature ->
  is_digest ck -> is_digest sg ->
  exists s1,
    HwScramAuth.xor_words clientKey signature s = (JS.Normal tt, s1)
    /\ heap (HwScramAuth.world s1) !! clientKey
       = Some (mkWordArray (zip_with Z.lxor (words ck) (words sg)) 32)
    /\ HwScramAuth.xor_words clientKey signature s1 = (JS.Normal tt, s).
Proof.
  intros Hck Hsg Hne Dck Dsg.
  pose proof (lookup_lt_Some _ _ _ Hck) as Hlt.
  pose proof Dck as (Hb & Hl & Hi). pose proof Dsg as (Hb' & Hl' & Hi').
  set (xored := mkWordArray (zip_with Z.lxor (words ck) (words sg)) 32).
  eexists. split; [apply (xor_words_run s clientKey signature ck sg); assumption|].
  split; [apply list_lookup_insert_eq; exact Hlt|].
  rewrite (xor_words_run _ clientKey signature xored sg).
  - destruct s as [o [h c b r g d]].
    subst xored. unfold HwScramAuth.on_world, set_heap.
    cbn [HwScramAuth.world HwScramAuth.self heap console browser requests rng draws
         words] in *.
    rewrite list_insert_insert_eq.
    rewrite zip_lxor_cancel by lia.
    rewrite list_insert_id; [reflexivity|].
    rewrite Hck. destruct ck as [ws sb]. cbn in *. subst sb. reflexivity.
  - apply list_lookup_insert_eq. exact Hlt.
  - cbn. rewrite list_lookup_insert_ne by exact Hne. exact Hsg.
  - exact Hne.
  - split; [reflexivity|]. cbn [words xored]. split.
    + rewrite length_zip_with. lia.
    + apply zip_lxor_int32; assumption.
  - exact Dsg.
Qed.

Section LoginClaims.
Context {lib : CryptoJS} {host : Host}.
Import HwApi.

(** C9. If the response to phase one carries no verification-token
    header, whatever the case of the header names, the attempt fails with
    the error "Server did not supply verification token": the chain
    rejects with it, the final [catch] handles it, and phase two is never
    sent. *)
Theorem missing_token_fails (api : t) (w : World) (token0 : string)
    (r1 : AxiosResponse) (lines : list (string * string)) :
  challenge_answered api (clientNonce_of w) token0 r1 ->
  headers r1 = axios_headers lines ->
  (forall k v, (k, v) ∈ lines -> lower k <> lower "__RequestVerificationToken") ->
  attempt_fails api w (JS.Error_ "Server did not supply verification token")
                (sent_to_challenge api (clientNonce_of w) token0).
Proof.
  intros Hc Hh Hlines. apply (attempt_missing_token api w token0 r1 Hc).
  rewrite Hh. apply axios_headers_absent. exact Hlines.
Qed.

(** C8, amended. If the response to phase one carries the
    verification-token header and its XML body has an error element with
    waittime [minutes], the attempt fails with the error "Too many
    incorrect login attempts, try again in [minutes] minutes." and with no
    other, and phase two is never sent. *)
Theorem rate_limit_fails_after_token (api : t) (w : World) (token0 : string)
    (r1 : AxiosResponse) (tok : string) (e : option JS.Error) (doc : XmlDoc)
    (minutes : string) :
  challenge_answered api (clientNonce_of w) token0 r1 ->
  headers r1 !! "__requestverificationtoken" = Some tok ->
  parseXmlStr (data r1) = mkParseResult e (Some doc) ->
  root doc = "error" ->
  elements (children doc) "waittime" = Some (minutes, []) ->
  attempt_fails api w
    (JS.Error_ ("Too many incorrect login attempts, try again in "
                +:+ minutes +:+ " minutes."))
    (sent_to_challenge api (clientNonce_of w) token0).
Proof.
  intros Hc Hh Hp Hroot Hw.
  pose proof (attempt_rate_limited api w token0 r1 tok e doc Hc Hh Hp Hroot) as H.
  rewrite Hw in H. exact H.
Qed.

Context {laws : CryptoJSLaws lib}.

(** C5, amended. If the response to phase two parses and carries
    serversignature, rsapubkeysignature and rsan, and the received
    rsapubkeysignature differs from the signature computed over rsan, the
    attempt fails with one of the two identity errors, "Server provided an
    invalid RSA public key." when the server proof matched and "Could not
    verify server identity." when it did not, and the stored key is left as
    it was; whenever the stored key changes, both the server proof and the
    signature of the public key have matched. *)
Theorem key_mismatch_fails_and_keeps_key (api : t) (w : World) (token0 : string)
    (r1 : AxiosResponse) (tok sNonce saltHex its : string) (r2 : AxiosResponse) :
  let authMessage := clientNonce_of w +:+ "," +:+ sNonce +:+ "," +:+ sNonce in
  let serverProof := Spec.serverProof authMessage saltHex (parseInt10 its) (authPwd api) in
  let publicKeySignature :=
    Spec.publicKeySignature saltHex (parseInt10 its) (authPwd api) in
  authentication_answered api (clientNonce_of w) token0 r1 tok sNonce saltHex its r2 ->
  (forall doc ssig ssigs psig psigs rsaN rsaNs,
      parseXmlStr (data r2) = mkParseResult None (Some doc) ->
      root doc = "response" ->
      elements (children doc) "serversignature" = Some (ssig, ssigs) ->
      elements (children doc) "rsapubkeysignature" = Some (psig, psigs) ->
      elements (children doc) "rsan" = Some (rsaN, rsaNs) ->
      psig <> publicKeySignature rsaN ->
      attempt_fails api w
        (JS.Error_ (if decide (ssig = serverProof)
                    then "Server provided an invalid RSA public key."
                    else "Could not verify server identity."))
        (sent_to_authentication api (clientNonce_of w) token0 tok sNonce saltHex its))
  /\ (stored (world (login api w).2.2) <> stored w ->
      exists doc ssig ssigs psig psigs rsaN rsaNs,
        result (parseXmlStr (data r2)) = Some doc
        /\ root doc = "response"
        /\ elements (children doc) "serversignature" = Some (ssig, ssigs)
        /\ elements (children doc) "rsapubkeysignature" = Some (psig, psigs)
        /\ elements (children doc) "rsan" = Some (rsaN, rsaNs)
        /\ ssig = serverProof
        /\ psig = publicKeySignature rsaN).
Proof.
  intros authMessage serverProof publicKeySignature Ha. split.
  - intros doc ssig ssigs psig psigs rsaN rsaNs Hp Hroot Hss Hps Hn Hne.
    exact (attempt_key_mismatch api w token0 r1 tok sNonce saltHex its r2
             doc ssig psig rsaN ssigs psigs rsaNs Ha Hp Hroot Hss Hps Hn Hne).
  - intros Hchanged.
    exact (stored_only_if_verified api w token0 r1 tok sNonce saltHex its r2 Ha Hchanged).
Qed.

End LoginClaims.

(** C4. [login] returns its variable [veriToken] as it stands before any
    callback of the chain has run: the value is [undefined] whatever the
    device answers, also in a run that later ends with the token set and the
    device key stored. *)
Theorem login_returns_before_chain :
  (forall (lib : CryptoJS) (host : Host) (api : HwApi.t) (w : World),
      (HwApi.login api w).1 = JS.Normal None)
  /\ (forall (lib : CryptoJS) (host host' : Host) (api : HwApi.t) (w : World),
        (@HwApi.login lib host api w).1 = (@HwApi.login lib host' api w).1)
  /\ (let run := @HwApi.login RefCryptoJS honest_device sample_api page_world in
      run.1 = JS.Normal None
      /\ HwApi.veriToken run.2.2 = Some "csrf-three"
      /\ stored page_world = Some ∅
      /\ stored (HwApi.world run.2.2)
         = Some (<["rsae" := "010001"]> (<["rsan" := "00c0ffee"]> ∅))).
Proof.
  split; [|split].
  - intros. rewrite login_run. reflexivity.
  - intros. rewrite !login_run. reflexivity.
  - vm_compute. repeat split; reflexivity.
Qed.
(** * Further properties of the code *)

(** ** HwRequest *)

Lemma append_assoc (a b c : string) : (a +:+ b) +:+ c = a +:+ b +:+ c.
Proof.
  induction a as [|x a IH]; [reflexivity|].
  change (String x ((a +:+ b) +:+ c) = String x (a +:+ b +:+ c)). f_equal. exact IH.
Qed.

Lemma append_nil_r (a : string) : a +:+ EmptyString = a.
Proof.
  induction a as [|x a IH]; [reflexivity|].
  change (String x (a +:+ EmptyString) = String x a). f_equal. exact IH.
Qed.

Lemma add_all_run (ps : list (string * string)) :
  forall r : HwRequest.t,
    add_all ps r = HwRequest.mk (HwRequest.xmlStr r +:+ elements_xml ps)
                                (HwRequest.uri r) (HwRequest.headers r).
Proof.
  induction ps as [|[n c] ps IH]; intros [x u h].
  - cbn. rewrite append_nil_r. reflexivity.
  - cbn [add_all fold_left]. fold (add_all ps). rewrite IH.
    cbn. unfold element. rewrite !append_assoc. reflexivity.
Qed.

(** X5. The request [send] hands to axios after any sequence of [add]
    calls is a POST to the address and with the headers given to the
    constructor, whose body is the XML declaration, the opening tag of
    [request], one element for each call in the order of the calls, and the
    closing tag. *)
Theorem request_body_of_adds (uri_ : string) (headers_ : list (string * option string))
    (ps : list (string * string)) :
  HwRequest.request (add_all ps (HwRequest.new uri_ headers_))
  = mkRequest "post" uri_ headers_
      (Some (xml_declaration +:+ "<request>" +:+ elements_xml ps +:+ "</request>")).
Proof.
  rewrite add_all_run. unfold HwRequest.request.
  cbn [HwRequest.xmlStr HwRequest.uri HwRequest.headers].
  rewrite append_assoc.
  change (HwRequest.xmlStr (HwRequest.new uri_ headers_))
    with (xml_declaration +:+ "<request>").
  rewrite append_assoc. reflexivity.
Qed.

(** X6. [add] does not escape its content: content that closes the
    element, holds another element and opens the first again gives the same
    request as three separate calls of [add]. *)
Theorem add_does_not_escape (node x inner y z : string) (r : HwRequest.t) :
  HwRequest.add node (x +:+ "</" +:+ node +:+ ">" +:+ element inner y
                        +:+ "<" +:+ node +:+ ">" +:+ z) r
  = HwRequest.add node z (HwRequest.add inner y (HwRequest.add node x r)).
Proof.
  destruct r as [s u h]. unfold HwRequest.add, element.
  cbn [HwRequest.xmlStr HwRequest.uri HwRequest.headers].
  f_equal. rewrite !append_assoc. reflexivity.
Qed.

(** ** HwScramAuth *)

Section ScramFurther.
Context {lib : CryptoJS}.
Import HwScramAuth.

(** X1. On an object on which [setParams] has not been called,
  [calcProof], [calcServerProof] and [calcPubSig] each throw a TypeError
  and leave the object, the heap and the console as they were. *)
Theorem proofs_need_setParams (pwd_ : string) (w : World) (c : ProofCall) :
let s := mkSt (new pwd_) w in
exists msg, invoke c s = (JS.Throw (JS.TypeError msg), s).
Proof.
cbv zeta. destruct c; eexists; reflexivity.
Qed.

Context {laws : CryptoJSLaws lib}.

(** X2. With the parameters installed by [setParams], [calcProof] under
  node logs exactly eleven lines: the nonces and the salt, the client
  digest as it was before the XOR, the stored and the signature digest,
  and as login proof the value it returns; in a browser it logs nothing,
  and [calcServerProof] and [calcPubSig] log nothing anywhere. *)
Theorem calcProof_debug_output (s0 : St) (cNonce sNonce saltHex : string)
  (iterations : JS.number) :
let s := (setParams cNonce sNonce saltHex iterations s0).2 in
let clientKey := Spec.derive (pwd (self s0)) saltHex iterations "Client Key" in
let storedKey := digest algo_SHA256 clientKey in
let signature :=
  HmacSHA256 storedKey (KeyString (cNonce +:+ "," +:+ sNonce +:+ "," +:+ sNonce)) in
let logged (r : JS.Completion string * St) :=
  drop (length (console (world s0))) (console (world r.2)) in
(exists proof,
    (calcProof s).1 = JS.Normal proof
    /\ logged (calcProof s)
       = match browser (world s0) with
         | Some _ => []
         | None =>
             [EmptyString;
              "Client nonce:     " +:+ cNonce;
              "Server nonce:     " +:+ sNonce;
              "Salt:             " +:+ saltHex;
              "----------------------------";
              "Client digest:    " +:+ Hex_stringify clientKey;
              "Stored digest:    " +:+ Hex_stringify storedKey;
              "Signature digest: " +:+ Hex_stringify signature;
              "----------------------------";
              "Login proof:      " +:+ proof;
              EmptyString]
         end
    /\ take (length (console (world s0))) (console (world (calcProof s).2))
       = console (world s0))
/\ console (world (calcServerProof s).2) = console (world s0)
/\ forall key, console (world (calcPubSig key s).2) = console (world s0).
Proof.
cbv zeta. rewrite setParams_run. cbn [snd].
split; [|split].
- erewrite calcProof_run by reflexivity. cbn [fst snd].
  eexists. split; [reflexivity|].
  destruct s0 as [o [h c b r g d]]. cbn.
  rewrite drop_app_length, take_app_length.
  destruct b; split; reflexivity.
- erewrite calcServerProof_run by reflexivity. destruct s0 as [o [h c b r g d]]. reflexivity.
- intros key. erewrite calcPubSig_run by reflexivity.
  destruct s0 as [o [h c b r g d]]. reflexivity.
Qed.

End ScramFurther.

Lemma Ref_bytes_of_length (w : WordArray) :
  length (Ref.bytes_of w) = Z.to_nat (sigBytes w).
Proof.
  unfold Ref.bytes_of. rewrite length_take, length_app, length_replicate. lia.
Qed.

Lemma Ref_hex_digit_lower (d : Z) : lower_hex (Ref.hex_digit d).
Proof.
  unfold lower_hex, Ref.hex_digit.
  destruct (Nat.lt_ge_cases (Z.to_nat d) 16) as [H|H].
  - apply nth_In. exact H.
  - rewrite nth_overflow by exact H. left. reflexivity.
Qed.

Lemma Ref_to_hex_lower (bs : list Z) :
  Forall lower_hex (list_ascii_of_string (Ref.to_hex bs)).
Proof.
  induction bs as [|b bs IH]; [constructor|].
  cbn [Ref.to_hex fold_right list_ascii_of_string]. fold (Ref.to_hex bs).
  constructor; [apply Ref_hex_digit_lower|].
  constructor; [apply Ref_hex_digit_lower|exact IH].
Qed.

(** X3. When the random source gives 32 bytes, [generateNonce] returns
    them as 64 lower-case hexadecimal digits and leaves the fields of the
    object alone; the next call returns the next draw. *)
Theorem generateNonce_hex_of_draw (s : HwScramAuth.St) :
  let w := HwScramAuth.world s in
  sigBytes (rng w (draws w) 32) = 32 ->
  exists nonce s',
    @HwScramAuth.generateNonce RefCryptoJS s = (JS.Normal nonce, s')
    /\ String.length nonce = 64%nat
    /\ Forall lower_hex (list_ascii_of_string nonce)
    /\ HwScramAuth.self s' = HwScramAuth.self s
    /\ draws (HwScramAuth.world s') = S (draws w)
    /\ (@HwScramAuth.generateNonce RefCryptoJS s').1
       = JS.Normal (Ref.stringify (rng w (S (draws w)) 32)).
Proof.
  cbv zeta. intros Hb. destruct s as [o [h c b r g d]]. cbn in Hb.
  eexists _, _. split.
  { unfold HwScramAuth.generateNonce. eff_unfold. cbn [set_draws heap console browser requests rng draws].
    heap_norm. reflexivity. }
  cbn [Hex_stringify RefCryptoJS].
  split.
  { unfold Ref.stringify. rewrite Ref_to_hex_length, Ref_bytes_of_length, Hb. reflexivity. }
  split; [apply Ref_to_hex_lower|].
  split; [reflexivity|]. split; [reflexivity|].
  unfold HwScramAuth.generateNonce. eff_unfold. cbn [set_draws heap console browser requests rng draws].
  heap_norm. reflexivity.
Qed.

Lemma array_set_lookup (a : nat) (v : Z) (acc : list Z) (i : nat) :
  (a <= length acc)%nat ->
  JS.array_set a v acc !! i = if decide (i = a) then Some v else acc !! i.
Proof.
  intros Ha. unfold JS.array_set.
  destruct (decide (a < length acc)%nat) as [Hlt|Hge].
  - destruct (decide (i = a)) as [->|Hne].
    + apply list_lookup_insert_eq. exact Hlt.
    + apply list_lookup_insert_ne. congruence.
  - assert (a = length acc) as -> by lia.
    rewrite Nat.sub_diag. cbn [replicate app].
    destruct (decide (i = length acc)) as [->|Hne].
    + apply list_lookup_middle. reflexivity.
    + destruct (Nat.lt_ge_cases i (length acc)) as [Hi|Hi].
      * apply lookup_app_l. exact Hi.
      * rewrite !lookup_ge_None_2; [reflexivity|lia|rewrite length_app; cbn; lia].
Qed.

Lemma array_set_length (a : nat) (v : Z) (acc : list Z) :
  (a <= length acc)%nat -> length (JS.array_set a v acc) = (length acc `max` S a)%nat.
Proof.
  intros Ha. unfold JS.array_set.
  destruct (decide (a < length acc)%nat) as [Hlt|Hge].
  - rewrite length_insert. lia.
  - rewrite !length_app, length_replicate. cbn. lia.
Qed.

Lemma xor_into_lookup (n : nat) :
  forall (a : nat) (acc sg : list Z),
    (a <= length acc)%nat ->
    length (xor_into (seq a n) acc sg) = (length acc `max` (a + n))%nat
    /\ forall i,
         xor_into (seq a n) acc sg !! i
         = if decide (a <= i < a + n)%nat then Some (JS.bxor (acc !! i) (sg !! i))
           else acc !! i.
Proof.
  induction n as [|n IH]; intros a acc sg Ha.
  - cbn. split; [lia|]. intros i. rewrite decide_False by lia. reflexivity.
  - cbn [seq xor_into fold_left].
    change (fold_left _ (seq (S a) n) ?l) with (xor_into (seq (S a) n) l sg).
    set (v := JS.bxor (acc !! a) (sg !! a)).
    pose proof (array_set_length a v acc Ha) as Hlen.
    destruct (IH (S a) (JS.array_set a v acc) sg ltac:(lia)) as [Hl Hi].
    split; [lia|]. intros i. rewrite Hi, array_set_lookup by exact Ha.
    destruct (decide (i = a)) as [->|Hne].
    + rewrite decide_False by lia. rewrite decide_True by lia. reflexivity.
    + destruct (decide (S a <= i < S a + n)%nat).
      * rewrite decide_True by lia. reflexivity.
      * rewrite decide_False by lia. reflexivity.
Qed.

Lemma bxor_int32 (x y : option Z) : int32 (JS.bxor x y).
Proof.
  unfold JS.bxor. apply lxor_int32.
  - destruct x; [apply ToInt32_int32|]. unfold int32; cbn; lia.
  - destruct y; [apply ToInt32_int32|]. unfold int32; cbn; lia.
Qed.

Section XorFurther.
Context {lib : CryptoJS}.
Import HwScramAuth.

(** X4. For a key of [4 * n] significant bytes and a signature that is
  another object, the loop of [calcProof] ends and changes the words of
  the key alone: word [i] below [n] becomes the XOR of the two words at
  [i], a missing word counting as 0, and is a 32-bit integer; the words
  from [n] on and [sigBytes] stay as they were. *)
Theorem xor_words_any_shape (s : St) (clientKey signature : loc) (ck sg : WordArray)
  (n : nat) :
heap (world s) !! clientKey = Some ck ->
heap (world s) !! signature = Some sg ->
clientKey <> signature ->
sigBytes ck = 4 * Z.of_nat n -> Z.of_nat n < 2 ^ 32 ->
exists ws,
  xor_words clientKey signature s
  = (JS.Normal tt,
     on_world (set_heap (fun h => <[clientKey := mkWordArray ws (sigBytes ck)]> h)) s)
  /\ length ws = (length (words ck) `max` n)%nat
  /\ (forall i, (i < n)%nat ->
        ws !! i = Some (JS.bxor (words ck !! i) (words sg !! i)))
  /\ (forall i, (n <= i)%nat -> ws !! i = words ck !! i)
  /\ (forall i x, (i < n)%nat -> ws !! i = Some x -> int32 x).
Proof.
intros Hck Hsg Hne Hb Hn.
pose proof (lookup_lt_Some _ _ _ Hck) as Hlt.
apply list_lookup_total_correct in Hck, Hsg.
destruct (xor_into_lookup n 0 (words ck) (words sg) ltac:(lia)) as [Hl Hi].
exists (xor_into (seq 0 n) (words ck) (words sg)).
split; [|split; [exact Hl|split; [|split]]].
- destruct s as [o [h c b r g d]]. cbn [world heap] in *.
  unfold xor_words. eff_unfold. rewrite Hck.
  unfold array_keys. rewrite Hb.
  replace (4 * Z.of_nat n / 4) with (Z.of_nat n)
    by (symmetry; rewrite Z.mul_comm; apply Z.div_mul; lia).
  rewrite decide_True
    by (split; [rewrite Z.mul_comm; apply Z.mod_mul; lia|lia]).
  rewrite Nat2Z.id. eff_unfold.
  rewrite xor_loop_run by assumption.
  eff_unfold. rewrite Hck, Hsg, Hb. reflexivity.
- intros i Hin. rewrite Hi, decide_True by lia. reflexivity.
- intros i Hin. rewrite Hi, decide_False by lia. reflexivity.
- intros i x Hin Hx. rewrite Hi, decide_True in Hx by lia.
  inversion Hx; subst. apply bxor_int32.
Qed.
End XorFurther.

(** ** Failures of login *)

Lemma elements_absent (cs : list (string * string)) (name : string) :
  (forall c, c ∈ cs -> c.1 <> name) -> HwApi.elements cs name = None.
Proof.
  intros H. unfold HwApi.elements.
  replace (filter (fun c => c.1 = name) cs) with (@nil (string * string)); [reflexivity|].
  induction cs as [|c cs IH]; [reflexivity|].
  rewrite filter_cons_False by (apply H; left).
  apply IH. intros c' Hin. apply H. right. exact Hin.
Qed.

Section EarlyFailures.
Context {lib : CryptoJS} {host : Host}.
Import HwApi.

(** X7. If the device answers the first request with a status text other
  than "OK", the attempt fails with "Session failed to initialize": that
  request is the only one sent, and the stored key is as it was. *)
Theorem session_not_ok_fails (api : t) (w : World) (r0 : AxiosResponse) :
axios (get_request (server api)) = Resolves r0 ->
statusText r0 <> "OK" ->
attempt_fails api w (JS.Error_ "Session failed to initialize")
              [get_request (server api)].
Proof.
intros Hr0 Hno.
apply (attempt_fails_intro api w _ _ (entered api w)); [|reflexivity|reflexivity].
unfold chain, chain_to_authentication, chain_to_challenge.
do 6 (erewrite then_rejected; [reflexivity|]).
unfold initSession_resume, on_session. login_unfold. rewrite Hr0. login_unfold.
rewrite bool_decide_eq_false_2 by exact Hno. reflexivity.
Qed.

(** X8. If the first request fails in transport, the attempt fails with
  the error of the transport: that request is the only one made, and the
  stored key is as it was. *)
Theorem unreachable_device_fails (api : t) (w : World) (e : JS.Error) :
axios (get_request (server api)) = Rejects e ->
attempt_fails api w e [get_request (server api)].
Proof.
intros Hr0.
apply (attempt_fails_intro api w _ _ (entered api w)); [|reflexivity|reflexivity].
unfold chain, chain_to_authentication, chain_to_challenge.
do 7 (erewrite then_rejected; [reflexivity|]).
unfold initSession_resume. login_unfold. rewrite Hr0. reflexivity.
Qed.

(** X9. If the response to phase one carries the verification-token
  header and an error element without a waittime, the attempt fails with
  "Too many incorrect login attempts, try again in undefined minutes.",
  and phase two is never sent. *)
Theorem rate_limit_without_waittime (api : t) (w : World) (token0 : string)
  (r1 : AxiosResponse) (tok : string) (e : option JS.Error) (doc : XmlDoc) :
challenge_answered api (clientNonce_of w) token0 r1 ->
headers r1 !! "__requestverificationtoken" = Some tok ->
parseXmlStr (data r1) = mkParseResult e (Some doc) ->
root doc = "error" ->
(forall c, c ∈ children doc -> c.1 <> "waittime") ->
attempt_fails api w
  (JS.Error_ "Too many incorrect login attempts, try again in undefined minutes.")
  (sent_to_challenge api (clientNonce_of w) token0).
Proof.
intros Hc Hh Hp Hroot Hno.
pose proof (attempt_rate_limited api w token0 r1 tok e doc Hc Hh Hp Hroot) as H.
replace (elements (children doc) "waittime") with (@None (string * list string)) in H.
- exact H.
- symmetry. apply elements_absent. exact Hno.
Qed.

End EarlyFailures.

Section LateFailures.
Context {lib : CryptoJS} {host : Host} {laws : CryptoJSLaws lib}.
Import HwApi.




Lemma installed_sigSecret (p c s sl : string) (i : JS.number) :
HwScramAuth.sigSecret (installed p c s sl i) = Some (c +:+ "," +:+ s +:+ "," +:+ s).
Proof. reflexivity. Qed.

(** X11. If the serversignature of the response to phase two differs
  from the server proof computed, the attempt fails with "Could not verify
  server identity.", whatever the response says about the public key, and
  the stored key is as it was. *)
Theorem server_proof_mismatch_fails (api : t) (w : World) (token0 : string)
  (r1 : AxiosResponse) (tok sNonce saltHex its : string) (r2 : AxiosResponse)
  (doc : XmlDoc) (ssig : string) (ssigs : list string) :
authentication_answered api (clientNonce_of w) token0 r1 tok sNonce saltHex its r2 ->
parseXmlStr (data r2) = mkParseResult None (Some doc) ->
root doc = "response" ->
elements (children doc) "serversignature" = Some (ssig, ssigs) ->
ssig <> Spec.serverProof (clientNonce_of w +:+ "," +:+ sNonce +:+ "," +:+ sNonce)
          saltHex (parseInt10 its) (authPwd api) ->
attempt_fails api w (JS.Error_ "Could not verify server identity.")
  (sent_to_authentication api (clientNonce_of w) token0 tok sNonce saltHex its).
Proof.
intros Ha Hp Hroot Hss Hne.
destruct (chain_to_body api w token0 r1 tok sNonce saltHex its r2 Ha)
  as (f & Hrun & Hsc & _ & Hreq & Hb & _).
destruct (on_authentication_body_unproved (data r2) f saltHex
            (clientNonce_of w +:+ "," +:+ sNonce +:+ "," +:+ sNonce) doc ssig ssigs)
  as (f' & Hbody & Hreq' & Hb' & _); try assumption.
{ rewrite Hsc. reflexivity. }
{ rewrite Hsc. reflexivity. }
{ rewrite Hsc. exact Hne. }
eapply attempt_fails_intro.
- unfold chain. erewrite then_fulfilled by exact Hrun. exact Hbody.
- rewrite Hreq'. exact Hreq.
- unfold stored. rewrite Hb', Hb. reflexivity.
Qed.

(** X12. In a browser, when the server proof and the signature of the
  public key both match and the response carries rsae, the key is stored:
  localStorage gets rsan and rsae, the page shows "Logged in!" and the
  key, the token is the one of the second response if it carries one and
  that of the first otherwise; the final promise stays pending, and
  [login] has returned [undefined]. *)
Theorem verified_login_stores_key (api : t) (w : World) (token0 : string)
  (r1 : AxiosResponse) (tok sNonce saltHex its : string) (r2 : AxiosResponse)
  (doc : XmlDoc) (rsaN rsaE : string) (ssigs psigs rsaNs rsaEs : list string)
  (page : Browser) :
let authMessage := clientNonce_of w +:+ "," +:+ sNonce +:+ "," +:+ sNonce in
authentication_answered api (clientNonce_of w) token0 r1 tok sNonce saltHex its r2 ->
browser w = Some page ->
parseXmlStr (data r2) = mkParseResult None (Some doc) ->
root doc = "response" ->
elements (children doc) "serversignature"
  = Some (Spec.serverProof authMessage saltHex (parseInt10 its) (authPwd api), ssigs) ->
elements (children doc) "rsapubkeysignature"
  = Some (Spec.publicKeySignature saltHex (parseInt10 its) (authPwd api) rsaN, psigs) ->
elements (children doc) "rsan" = Some (rsaN, rsaNs) ->
elements (children doc) "rsae" = Some (rsaE, rsaEs) ->
let run := login api w in
run.1 = JS.Normal None
/\ run.2.1 = Pending
/\ browser (world run.2.2)
   = Some (mkBrowser "Logged in!" ("rsan=" +:+ rsaN +:+ ", rsae=" +:+ rsaE)
             (<["rsae" := rsaE]> (<["rsan" := rsaN]> (localStorage page))))
/\ veriToken run.2.2
   = Some (default tok (headers r2 !! "__requestverificationtokenone"))
/\ requests (world run.2.2)
   = requests w ++ sent_to_authentication api (clientNonce_of w) token0 tok sNonce saltHex its.
Proof.
intros authMessage Ha Hpage Hp Hroot Hss Hps Hn He. cbv zeta.
destruct (chain_to_body api w token0 r1 tok sNonce saltHex its r2 Ha)
  as (f & Hrun & Hsc & Hvt & Hreq & Hb & _).
destruct (on_authentication_body_verified (data r2) f saltHex authMessage doc rsaN
            ssigs psigs rsaNs)
  as (f' & Hbody & Hreq' & _ & Hvt' & Hb'); try assumption.
{ rewrite Hsc. reflexivity. }
{ rewrite Hsc. reflexivity. }
{ rewrite Hsc. exact Hss. }
{ rewrite Hsc. exact Hps. }
rewrite Hb, Hpage, He in Hbody, Hb'.
rewrite login_run. cbn [fst snd].
unfold chain_caught, catch_, chain.
erewrite then_fulfilled by exact Hrun. rewrite Hbody. cbn [fst snd].
split; [reflexivity|]. split; [reflexivity|]. split; [exact Hb'|].
split; [rewrite Hvt'; exact Hvt|]. rewrite Hreq'. exact Hreq.
Qed.

(** X13. Under node, where there is no [window], an attempt in which the
  server proof and the signature of the public key both match fails with
  "Failed to generate server proof. ReferenceError: window is not
  defined": the verified key cannot be stored. *)
Theorem node_login_fails_at_storage (api : t) (w : World) (token0 : string)
  (r1 : AxiosResponse) (tok sNonce saltHex its : string) (r2 : AxiosResponse)
  (doc : XmlDoc) (rsaN : string) (ssigs psigs rsaNs : list string) :
let authMessage := clientNonce_of w +:+ "," +:+ sNonce +:+ "," +:+ sNonce in
authentication_answered api (clientNonce_of w) token0 r1 tok sNonce saltHex its r2 ->
browser w = None ->
parseXmlStr (data r2) = mkParseResult None (Some doc) ->
root doc = "response" ->
elements (children doc) "serversignature"
  = Some (Spec.serverProof authMessage saltHex (parseInt10 its) (authPwd api), ssigs) ->
elements (children doc) "rsapubkeysignature"
  = Some (Spec.publicKeySignature saltHex (parseInt10 its) (authPwd api) rsaN, psigs) ->
elements (children doc) "rsan" = Some (rsaN, rsaNs) ->
attempt_fails api w
  (JS.Error_ "Failed to generate server proof. ReferenceError: window is not defined")
  (sent_to_authentication api (clientNonce_of w) token0 tok sNonce saltHex its).
Proof.
intros authMessage Ha Hnode Hp Hroot Hss Hps Hn.
destruct (chain_to_body api w token0 r1 tok sNonce saltHex its r2 Ha)
  as (f & Hrun & Hsc & Hvt & Hreq & Hb & _).
destruct (on_authentication_body_verified (data r2) f saltHex authMessage doc rsaN
            ssigs psigs rsaNs)
  as (f' & Hbody & Hreq' & _ & Hvt' & Hb'); try assumption.
{ rewrite Hsc. reflexivity. }
{ rewrite Hsc. reflexivity. }
{ rewrite Hsc. exact Hss. }
{ rewrite Hsc. exact Hps. }
rewrite Hb, Hnode in Hbody, Hb'.
eapply attempt_fails_intro.
- unfold chain. erewrite then_fulfilled by exact Hrun. exact Hbody.
- rewrite Hreq'. exact Hreq.
- unfold stored. rewrite Hb', Hnode. reflexivity.
Qed.

(** X14. If the parser reports an error for the body of the response to
  phase two, the attempt fails with "SCRAM auth failed. " followed by that
  error, and the stored key is as it was. *)
Theorem unparsed_authentication_fails (api : t) (w : World) (token0 : string)
  (r1 : AxiosResponse) (tok sNonce saltHex its : string) (r2 : AxiosResponse)
  (e : JS.Error) :
authentication_answered api (clientNonce_of w) token0 r1 tok sNonce saltHex its r2 ->
parseXmlStr (data r2) = mkParseResult (Some e) None ->
attempt_fails api w (JS.Error_ ("SCRAM auth failed. " +:+ JS.Error_toString e))
  (sent_to_authentication api (clientNonce_of w) token0 tok sNonce saltHex its).
Proof.
intros Ha Hp.
destruct (chain_to_body api w token0 r1 tok sNonce saltHex its r2 Ha)
  as (f & Hrun & Hsc & _ & Hreq & Hb & _).
destruct (on_authentication_body_unparsed (data r2) f saltHex
            (clientNonce_of w +:+ "," +:+ sNonce +:+ "," +:+ sNonce) e)
  as (f' & Hbody & Hreq' & Hb' & _); try assumption.
{ rewrite Hsc. reflexivity. }
{ rewrite Hsc. reflexivity. }
eapply attempt_fails_intro.
- unfold chain. erewrite then_fulfilled by exact Hrun. exact Hbody.
- rewrite Hreq'. exact Hreq.
- unfold stored. rewrite Hb', Hb. reflexivity.
Qed.

(** X15. In a browser, when both comparisons succeed but the response
  carries no rsae, the attempt fails with "Failed to generate server
  proof. TypeError: ..." and nothing is stored: rsan is not stored
  alone. *)
Theorem missing_exponent_stores_nothing (api : t) (w : World) (token0 : string)
  (r1 : AxiosResponse) (tok sNonce saltHex its : string) (r2 : AxiosResponse)
  (doc : XmlDoc) (rsaN : string) (ssigs psigs rsaNs : list string) (page : Browser) :
let authMessage := clientNonce_of w +:+ "," +:+ sNonce +:+ "," +:+ sNonce in
authentication_answered api (clientNonce_of w) token0 r1 tok sNonce saltHex its r2 ->
browser w = Some page ->
parseXmlStr (data r2) = mkParseResult None (Some doc) ->
root doc = "response" ->
elements (children doc) "serversignature"
  = Some (Spec.serverProof authMessage saltHex (parseInt10 its) (authPwd api), ssigs) ->
elements (children doc) "rsapubkeysignature"
  = Some (Spec.publicKeySignature saltHex (parseInt10 its) (authPwd api) rsaN, psigs) ->
elements (children doc) "rsan" = Some (rsaN, rsaNs) ->
(forall c, c ∈ children doc -> c.1 <> "rsae") ->
exists reason,
  attempt_fails api w
    (JS.Error_ ("Failed to generate server proof. TypeError: " +:+ reason))
    (sent_to_authentication api (clientNonce_of w) token0 tok sNonce saltHex its)
  /\ localStorage <$> browser (world (login api w).2.2) = Some (localStorage page).
Proof.
intros authMessage Ha Hpage Hp Hroot Hss Hps Hn Hno.
assert (He : elements (children doc) "rsae" = None).
{ apply elements_absent. exact Hno. }
destruct (chain_to_body api w token0 r1 tok sNonce saltHex its r2 Ha)
  as (f & Hrun & Hsc & Hvt & Hreq & Hb & _).
destruct (on_authentication_body_verified (data r2) f saltHex authMessage doc rsaN
            ssigs psigs rsaNs)
  as (f' & Hbody & Hreq' & _ & Hvt' & Hb'); try assumption.
{ rewrite Hsc. reflexivity. }
{ rewrite Hsc. reflexivity. }
{ rewrite Hsc. exact Hss. }
{ rewrite Hsc. exact Hps. }
rewrite Hb, Hpage, He in Hbody, Hb'.
assert (Hfail : attempt_fails api w
          (JS.Error_ ("Failed to generate server proof. TypeError: "
                      +:+ "Cannot read properties of undefined (reading '0')"))
          (sent_to_authentication api (clientNonce_of w) token0 tok sNonce saltHex its)).
{ eapply attempt_fails_intro.
  - unfold chain. erewrite then_fulfilled by exact Hrun. exact Hbody.
  - rewrite Hreq'. exact Hreq.
  - unfold stored. rewrite Hb', Hpage. reflexivity. }
eexists. split; [exact Hfail|].
destruct Hfail as (_ & _ & _ & _ & Hsto & _).
unfold stored in Hsto. rewrite Hsto, Hpage. reflexivity.
Qed.

End LateFailures.

Section Logged.
Context {lib : CryptoJS} {host : Host} {laws : CryptoJSLaws lib}.
Import HwApi.

Lemma chain_caught_rejected (api : t) (clientNonce : string) (f f' : Frame) (e : JS.Error) :
chain api clientNonce f = (Rejected e, f') ->
exists f'',
  chain_caught api clientNonce f = (Fulfilled None, f'')
  /\ veriToken f'' = veriToken f'
  /\ exists l, console (world f'') = console (world f') ++ l.
Proof.
intros H. unfold chain_caught, catch_. rewrite H.
destruct f' as [sc sn vt st [h c b r g d]].
unfold report. destruct b as [page|]; login_unfold.
- eexists. split; [reflexivity|]. split; [reflexivity|].
  exists []. cbn. rewrite app_nil_r. reflexivity.
- eexists. split; [reflexivity|]. split; [reflexivity|].
  eexists. reflexivity.
Qed.

(** X16. If the response to phase two carries the header
  [__requestverificationtokenone], the line "Logged in successfully: "
  with that token is on the console and the token replaces the former
  one, also when the server proof then turns out wrong and the attempt
  fails. *)
Theorem success_logged_before_verification (api : t) (w : World) (token0 : string)
  (r1 : AxiosResponse) (tok sNonce saltHex its : string) (r2 : AxiosResponse)
  (doc : XmlDoc) (ssig : string) (ssigs : list string) (tok' : string) :
authentication_answered api (clientNonce_of w) token0 r1 tok sNonce saltHex its r2 ->
headers r2 !! "__requestverificationtokenone" = Some tok' ->
parseXmlStr (data r2) = mkParseResult None (Some doc) ->
root doc = "response" ->
elements (children doc) "serversignature" = Some (ssig, ssigs) ->
ssig <> Spec.serverProof (clientNonce_of w +:+ "," +:+ sNonce +:+ "," +:+ sNonce)
          saltHex (parseInt10 its) (authPwd api) ->
let run := login api w in
("Logged in successfully: " +:+ tok') ∈ console (world run.2.2)
/\ veriToken run.2.2 = Some tok'
/\ run.2.1 = Fulfilled None.
Proof.
intros Ha Hh Hp Hroot Hss Hne. cbv zeta.
destruct (chain_to_body api w token0 r1 tok sNonce saltHex its r2 Ha)
  as (f & Hrun & Hsc & Hvt & _ & _ & Hlast).
specialize (Hlast tok' Hh). rewrite Hh in Hvt. cbn in Hvt.
destruct (on_authentication_body_unproved (data r2) f saltHex
            (clientNonce_of w +:+ "," +:+ sNonce +:+ "," +:+ sNonce) doc ssig ssigs)
  as (f' & Hbody & _ & _ & Hcon & Hvt'); try assumption.
{ rewrite Hsc. reflexivity. }
{ rewrite Hsc. reflexivity. }
{ rewrite Hsc. exact Hne. }
assert (Hchain : chain api (clientNonce_of w) (entered api w)
                 = (Rejected (JS.Error_ "Could not verify server identity."), f')).
{ unfold chain. erewrite then_fulfilled by exact Hrun. exact Hbody. }
destruct (chain_caught_rejected _ _ _ _ _ Hchain) as (f'' & Hcaught & Hvt'' & l & Hl).
rewrite login_run. cbn [fst snd]. rewrite Hcaught. cbn [fst snd].
split; [|split; [|reflexivity]].
- rewrite Hl, Hcon. apply elem_of_app. left.
  apply last_Some in Hlast. destruct Hlast as [l' ->].
  apply elem_of_app. right. left.
- rewrite Hvt'', Hvt'. exact Hvt.
Qed.
End Logged.

(** ** Invariants through effects and promises *)

Section Rules.
Context {S : Type}.
Implicit Types P Q I : S -> Prop.

Lemma leaves_weaken {R} P P' Q Q' (m : S -> R * S) :
leaves P' m Q' -> (forall s, P s -> P' s) -> (forall s, Q' s -> Q s) -> leaves P m Q.
Proof. intros H HP HQ s Hs. apply HQ, (H s), HP, Hs. Qed.

Lemma keeps_ret {A} I (a : A) : keeps I (ret (S := S) a).
Proof. intros s Hs. exact Hs. Qed.

Lemma keeps_throw {A} I (e : JS.Error) : keeps I (throw (S := S) (A := A) e).
Proof. intros s Hs. exact Hs. Qed.

Lemma keeps_gets {A} I (g : S -> A) : keeps I (gets g).
Proof. intros s Hs. exact Hs. Qed.

Lemma keeps_modify I (g : S -> S) : (forall s, I s -> I (g s)) -> keeps I (modify g).
Proof. intros H s Hs. exact (H s Hs). Qed.

Lemma leaves_bind {A B} P P' Q (m : Eff S A) (k : A -> Eff S B) :
leaves P m P' -> (forall a, leaves P' (k a) Q) -> (forall s, P' s -> Q s) ->
leaves P (bind m k) Q.
Proof.
intros Hm Hk Hw s Hs. unfold bind. specialize (Hm s Hs). cbn in Hm.
destruct (m s) as [[a|e] s']; cbn in *.
- exact (Hk a s' Hm).
- exact (Hw s' Hm).
Qed.

Lemma leaves_bind_after {A B} P Q (m : Eff S A) (k : A -> Eff S B) :
keeps P m -> (forall a, leaves P (k a) Q) -> (forall s, P s -> Q s) ->
leaves P (bind m k) Q.
Proof. apply leaves_bind. Qed.

Lemma leaves_of_keeps {R} P Q (m : S -> R * S) :
keeps P m -> (forall s, P s -> Q s) -> leaves P m Q.
Proof. intros H HQ. apply (leaves_weaken P P Q P); auto. Qed.

Lemma keeps_bind {A B} I (m : Eff S A) (k : A -> Eff S B) :
keeps I m -> (forall a, keeps I (k a)) -> keeps I (bind m k).
Proof. intros Hm Hk. apply (leaves_bind I I I); auto. Qed.

Lemma leaves_try_catch {A} P P' Q (m : Eff S A) (h : JS.Error -> Eff S A) :
leaves P m P' -> (forall e, leaves P' (h e) Q) -> (forall s, P' s -> Q s) ->
leaves P (try_catch m h) Q.
Proof.
intros Hm Hh Hw s Hs. unfold try_catch. specialize (Hm s Hs). cbn in Hm.
destruct (m s) as [[a|e] s']; cbn in *.
- exact (Hw s' Hm).
- exact (Hh e s' Hm).
Qed.

Lemma keeps_try_catch {A} I (m : Eff S A) (h : JS.Error -> Eff S A) :
keeps I m -> (forall e, keeps I (h e)) -> keeps I (try_catch m h).
Proof. intros Hm Hh. apply (leaves_try_catch I I I); auto. Qed.

Lemma keeps_for_of {A} I (xs : list A) (body : A -> Eff S unit) :
(forall x, keeps I (body x)) -> keeps I (for_of xs body).
Proof.
intros H. induction xs as [|x xs IH]; [apply keeps_ret|].
cbn [for_of]. apply keeps_bind; [apply H|intros _; exact IH].
Qed.

Lemma keeps_run {A} I (m : Eff S A) : keeps I m -> keeps I (run m).
Proof.
intros H s Hs. specialize (H s Hs). unfold run.
destruct (m s) as [[a|e] s']; exact H.
Qed.

Lemma leaves_run {A} P Q (m : Eff S A) : leaves P m Q -> leaves P (run m) Q.
Proof.
intros H s Hs. specialize (H s Hs). unfold run.
destruct (m s) as [[a|e] s']; exact H.
Qed.

Lemma triple_then {A B} P (Q : Settled A -> S -> Prop) (R : Settled B -> S -> Prop)
  (p : Promise S A) (f : A -> Promise S B) :
triple P p Q ->
(forall a, triple (Q (Fulfilled a)) (f a) R) ->
(forall e s, Q (Rejected e) s -> R (Rejected e) s) ->
(forall s, Q Pending s -> R Pending s) ->
triple P (then_ p f) R.
Proof.
intros Hp Hf He Hn s Hs. unfold then_. specialize (Hp s Hs).
destruct (p s) as [[a|e|] s']; cbn in *.
- exact (Hf a s' Hp).
- exact (He e s' Hp).
- exact (Hn s' Hp).
Qed.

Lemma keeps_then {A B} I (p : Promise S A) (f : A -> Promise S B) :
keeps I p -> (forall a, keeps I (f a)) -> keeps I (then_ p f).
Proof.
intros Hp Hf. apply (triple_then I (fun _ => I) (fun _ => I)); auto.
Qed.

Lemma leaves_catch {A} P P' Q (p : Promise S A) (h : JS.Error -> Eff S unit) :
leaves P p P' -> (forall e, leaves P' (h e) Q) -> (forall s, P' s -> Q s) ->
leaves P (catch_ p h) Q.
Proof.
intros Hp Hh Hw s Hs. unfold catch_. specialize (Hp s Hs).
destruct (p s) as [[a|e|] s']; cbn in *.
- exact (Hw s' Hp).
- apply (leaves_run P' Q); [|exact Hp].
  apply (leaves_bind P' Q Q); [apply Hh|intros; apply keeps_ret|auto].
- exact (Hw s' Hp).
Qed.

End Rules.

(** Splits a goal [keeps I m] along the structure of [m]. *)
Ltac keeps_split :=
  repeat first
    [ apply keeps_ret | apply keeps_throw | apply keeps_gets
    | apply keeps_bind; [|intros ?]
    | apply keeps_try_catch; [|intros ?]
    | apply keeps_for_of; intros ?
    | match goal with
      | |- keeps _ (match ?x with _ => _ end) => destruct x
      | |- keeps _ (if ?c then _ else _) => destruct c
      end ].

(** ** HwScramAuth touches only the heap, the console and the random source *)

Section ScramOutside.
Context {lib : CryptoJS}.
Import HwScramAuth.
Variable J : option (gmap string string) * list Request -> Prop.
Let I (s : St) : Prop := J (outside (world s)).

Ltac scram_op := intros [? [? ? ? ? ? ?]] Hs; exact Hs.

Lemma keeps_alloc (w : WordArray) : keeps I (alloc w).
Proof. scram_op. Qed.
Lemma keeps_deref (l : loc) : keeps I (deref l).
Proof. scram_op. Qed.
Lemma keeps_store (l : loc) (w : WordArray) : keeps I (store l w).
Proof. scram_op. Qed.
Lemma keeps_scram_log (line : string) : keeps I (console_log line).
Proof. scram_op. Qed.

Lemma keeps_parse_hex (v : option string) : keeps I (parse_hex v).
Proof. destruct v; [apply keeps_alloc|apply keeps_throw]. Qed.

Lemma keeps_array_keys (n : Z) : keeps I (array_keys n).
Proof. unfold array_keys. destruct (decide _); [apply keeps_ret|apply keeps_throw]. Qed.

Lemma keeps_hmac_string_key (l : loc) (k : option string) : keeps I (hmac_string_key l k).
Proof. destruct k; [|apply keeps_throw]. cbn. keeps_split. apply keeps_alloc. Qed.

Lemma keeps_setParams (c s sl : string) (i : JS.number) : keeps I (setParams c s sl i).
Proof. scram_op. Qed.

Ltac scram_leaf :=
first [apply keeps_alloc|apply keeps_store|apply keeps_scram_log
      |apply keeps_parse_hex|apply keeps_array_keys|apply keeps_hmac_string_key].

Lemma keeps_calcProof : keeps I calcProof.
Proof. unfold calcProof. keeps_split; scram_leaf. Qed.

Lemma keeps_calcServerProof : keeps I calcServerProof.
Proof. unfold calcServerProof. keeps_split; scram_leaf. Qed.

Lemma keeps_calcPubSig (key : string) : keeps I (calcPubSig key).
Proof. unfold calcPubSig. keeps_split; scram_leaf. Qed.

End ScramOutside.

(** A step that leaves the part of the frame the invariant speaks of as it
    is. *)
Ltac frame_op :=
  intros [? ? ? [[?|?]|] [? ? [?|] ? ? ?]] Hf; exact Hf.

Section FrameRules.
Context {lib : CryptoJS} {host : Host}.
Import HwApi.

Lemma keeps_call_scram_outside {A} (J : option (gmap string string) * list Request -> Prop)
  (m : Eff HwScramAuth.St A) :
keeps (fun s => J (outside (HwScramAuth.world s))) m ->
keeps (fun f => J (outside (world f))) (call_scram m).
Proof.
intros H f Hf. unfold call_scram.
specialize (H (HwScramAuth.mkSt (scram f) (world f)) Hf).
destruct (m _) as [c s]. exact H.
Qed.

Lemma keeps_call_scram_settled {A} (J : option (JS.Completion string) -> Prop)
  (m : Eff HwScramAuth.St A) :
keeps (fun f => J (settled f)) (call_scram m).
Proof.
intros f Hf. unfold call_scram. destruct (m _) as [c s]. exact Hf.
Qed.

Lemma leaves_new_Promise (P Q : Frame -> Prop) (executor : Eff Frame unit) :
leaves P executor Q -> (forall f, P f -> P (set_settled None f)) ->
leaves P (new_Promise executor) Q.
Proof.
intros H Hs f Hf. unfold new_Promise.
specialize (H (set_settled None f) (Hs f Hf)).
destruct (executor _) as [c f']. cbn in *.
destruct (settled f') as [[v|e]|]; [exact H|exact H|destruct c; exact H].
Qed.

Lemma keeps_axios_answer (I : Frame -> Prop) (req : Request) : keeps I (axios_answer req).
Proof. intros f Hf. unfold axios_answer. destruct (axios req); exact Hf. Qed.

End FrameRules.

(** Splits a goal about a callback of [login] along its structure; what is
    left are the calls on [scram] and the steps that touch what the
    invariant speaks of. *)
Ltac keeps_callback :=
  repeat first
    [ apply keeps_ret | apply keeps_throw | apply keeps_gets
    | apply keeps_axios_answer
    | apply keeps_run
    | apply keeps_then; [|intros ?]
    | apply keeps_bind; [|intros ?]
    | apply keeps_try_catch; [|intros ?]
    | progress unfold HwApi.result_prop, HwApi.member, HwApi.first
    | match goal with
      | |- keeps _ (match ?x with _ => _ end) => destruct x
      | |- keeps _ (if ?c then _ else _) => destruct c
      end
    | solve [frame_op] ].

(** ** The final promise never resolves *)

Section NeverResolved.
Context {lib : CryptoJS} {host : Host}.
Import HwApi.

Let unresolved (f : Frame) : Prop :=
match settled f with Some (JS.Normal _) => False | _ => True end.

Lemma phaseTwo_parsed_unresolved (p : ParseResult) : keeps unresolved (phaseTwo_parsed p).
Proof.
unfold phaseTwo_parsed, verify_server. cbv zeta.
keeps_callback;
  apply (keeps_call_scram_settled
           (fun st => match st with Some (JS.Normal _) => False | _ => True end)).
Qed.

(** X17. The promise chain of [login] is never fulfilled, whatever the
  device answers: it ends rejected or stays pending, since the executor of
  its last promise never calls [res]. *)
Theorem chain_never_fulfils (api : t) (clientNonce : string) (f : Frame) :
match (chain api clientNonce f).1 with
| Fulfilled _ => False
| Rejected _ | Pending => True
end.
Proof.
unfold chain. unfold then_ at 1.
destruct (then_ _ on_authentication_reply f) as [[text|e|] f1]; cbn; [|exact I|exact I].
unfold on_authentication_body, new_Promise.
pose proof (phaseTwo_parsed_unresolved (parseXmlStr text) (set_settled None f1)) as H.
destruct (phaseTwo_parsed _ _) as [c f2]. cbn in *.
assert (Hu : unresolved (set_settled None f1)) by (destruct f1; exact I).
specialize (H Hu). unfold unresolved in H.
destruct (settled f2) as [[v|e]|]; [contradiction|exact I|destruct c; exact I].
Qed.

End NeverResolved.

(** ** What the callbacks before the last leave alone *)

Section Untouched.
Context {lib : CryptoJS} {host : Host}.
Import HwApi.
Variable J : option (gmap string string) * list Request -> Prop.
Let I (f : Frame) : Prop := J (outside (world f)).

Ltac scram_call :=
apply (keeps_call_scram_outside J);
first [apply keeps_setParams|apply keeps_calcProof|apply keeps_calcServerProof
      |apply keeps_calcPubSig].

Lemma keeps_initSession_resume (api : t) : keeps I (initSession_resume api).
Proof. unfold initSession_resume. keeps_callback. Qed.

Lemma keeps_on_challenge_reply (r : AxiosResponse) : keeps I (on_challenge_reply r).
Proof. unfold on_challenge_reply. keeps_callback. Qed.

Lemma keeps_on_challenge_body (clientNonce body : string) :
keeps I (on_challenge_body clientNonce body).
Proof.
unfold on_challenge_body. apply leaves_new_Promise; [|frame_op].
unfold phaseOne_parsed. cbv zeta. keeps_callback; scram_call.
Qed.

Lemma keeps_on_authentication_reply (r : AxiosResponse) :
keeps I (on_authentication_reply r).
Proof. unfold on_authentication_reply. keeps_callback. Qed.

Lemma keeps_report (e : JS.Error) : keeps I (report e).
Proof. unfold report. cbv zeta. keeps_callback. Qed.

End Untouched.

(** ** The stored key changes as a whole or not at all *)

Section StoredWhole.
Context {lib : CryptoJS} {host : Host}.
Import HwApi.
Variable before : option (gmap string string).

Let same (o : option (gmap string string) * list Request) : Prop := o.1 = before.
Let whole (o : option (gmap string string) * list Request) : Prop :=
key_stored_whole before o.1.
Let Same (f : Frame) : Prop := same (outside (world f)).
Let Whole (f : Frame) : Prop := whole (outside (world f)).

Lemma Same_Whole (f : Frame) : Same f -> Whole f.
Proof. intros H. left. exact H. Qed.

Lemma keeps_Same_send (req : Request) : keeps Same (axios_send req).
Proof. frame_op. Qed.

Lemma store_key_whole (rsaN rsaE : string) (page : option Browser) :
leaves Same
  (do setItem "rsan" rsaN ;;
   do setItem "rsae" rsaE ;;
   match page with
   | Some _ =>
       do set_h2 "Logged in!" ;;
       set_code ("rsan=" +:+ rsaN +:+ ", rsae=" +:+ rsaE)
   | None => console_log "Server identity successfully verified."
   end)%eff
  Whole.
Proof.
intros [sc sn vt st [h c b r g d]] Hf.
unfold Same, same, outside, stored in Hf. cbn in Hf. subst before.
right. exists rsaN, rsaE.
destruct page, b; reflexivity.
Qed.

Ltac scram_call :=
apply (keeps_call_scram_outside same);
first [apply keeps_calcServerProof|apply keeps_calcPubSig].

Lemma verify_server_whole (res_ : option XmlDoc) : leaves Same (verify_server res_) Whole.
Proof.
unfold verify_server.
repeat first
  [ apply store_key_whole
  | apply (leaves_of_keeps Same Whole);
      [solve [keeps_callback; try scram_call] | apply Same_Whole]
  | apply (leaves_bind_after Same Whole);
      [solve [keeps_callback; try scram_call] | intros ? | apply Same_Whole]
  | match goal with
    | |- leaves _ (match ?x with _ => _ end) _ => destruct x
    | |- leaves _ (if ?c then _ else _) _ => destruct c
    end ].
Qed.

Lemma on_authentication_body_whole (text : string) :
leaves Same (on_authentication_body text) Whole.
Proof.
unfold on_authentication_body. apply leaves_new_Promise; [|frame_op].
unfold phaseTwo_parsed.
apply (leaves_bind_after Same Whole); [keeps_callback| |apply Same_Whole].
intros _. apply (leaves_try_catch Same Whole Whole); [apply verify_server_whole| |auto].
intros e. frame_op.
Qed.

Lemma chain_to_authentication_Same (api : t) (clientNonce : string) :
keeps Same (chain_to_authentication api clientNonce).
Proof.
unfold chain_to_authentication, chain_to_challenge, on_session, on_token.
keeps_callback. apply (keeps_on_challenge_body same).
Qed.

Lemma chain_caught_whole (api : t) (clientNonce : string) :
leaves Same (chain_caught api clientNonce) Whole.
Proof.
unfold chain_caught, chain.
apply (leaves_catch Same Whole Whole); [|intros e; apply (keeps_report whole)|auto].
apply (triple_then Same (fun _ => Same) (fun _ => Whole));
  [|intros text; apply on_authentication_body_whole
   |intros; apply Same_Whole; assumption|intros; apply Same_Whole; assumption].
apply keeps_then; [apply chain_to_authentication_Same|].
intros r. apply (keeps_on_authentication_reply same).
Qed.

End StoredWhole.

Section StoredWholeClaim.
Context {lib : CryptoJS} {host : Host}.

(** X19. Whatever the device answers, after an attempt the stored key is
  what it was or has both rsan and rsae set: no run stores one part
  alone. *)
Theorem key_stored_whole_or_not_at_all (api : HwApi.t) (w : World) :
key_stored_whole (stored w) (stored (HwApi.world (HwApi.login api w).2.2)).
Proof.
rewrite login_run. cbn [snd].
apply (chain_caught_whole (stored w) api (clientNonce_of w) (entered api w)).
reflexivity.
Qed.
End StoredWholeClaim.

(** ** The requests follow the protocol *)

Section InOrder.
Context {lib : CryptoJS} {host : Host}.
Import HwApi.
Variable api : t.
Variable before : list Request.

Let upto (k : nat) (o : option (gmap string string) * list Request) : Prop :=
exists sent,
  o.2 = before ++ sent
  /\ map (fun r => (method r, uri r)) sent = take k (protocol_order api).
Let At (k : nat) (f : Frame) : Prop := upto k (outside (world f)).
Let Within (k : nat) (f : Frame) : Prop := exists j, (1 <= j <= k)%nat /\ At j f.

(** After a stage that ran to its end the requests are the first [k]; if
  it failed they are some of them. *)
Let Reached {A} (k : nat) (o : Settled A) (f : Frame) : Prop :=
match o with
| Fulfilled _ => At k f
| Rejected _ | Pending => Within k f
end.

Lemma At_sent_in_order (k : nat) (f : Frame) : At k f <-> sent_in_order api before k f.
Proof. reflexivity. Qed.

Lemma axios_send_next (k : nat) (req : Request) :
protocol_order api !! k = Some (method req, uri req) ->
leaves (At k) (axios_send req) (At (S k)).
Proof.
intros Hk [sc sn vt st [h c b r g d]] (sent & Hreq & Hord).
cbn in Hreq. subst r. exists (sent ++ [req]). split.
- cbn. rewrite <- app_assoc. reflexivity.
- rewrite map_app, Hord. cbn [map].
  rewrite (take_S_r _ _ _ Hk). reflexivity.
Qed.

Lemma Reached_of_At {A} (j k : nat) (o : Settled A) (f : Frame) :
(1 <= j <= k)%nat -> At j f -> (forall a, o = Fulfilled a -> j = k) -> Reached k o f.
Proof.
intros Hj Hf Ho. destruct o as [a| |]; cbn.
- rewrite <- (Ho a eq_refl). exact Hf.
- exists j. auto.
- exists j. auto.
Qed.

Lemma stage_keeps {A} (k : nat) (p : Promise Frame A) :
(1 <= k)%nat -> keeps (At k) p -> triple (At k) p (Reached k).
Proof.
intros Hk H f Hf. apply (Reached_of_At k k); [lia|exact (H f Hf)|auto].
Qed.

Lemma stage_sends {A} (k : nat) (p : Promise Frame A) :
leaves (At k) p (At (S k)) -> triple (At k) p (Reached (S k)).
Proof.
intros H f Hf. apply (Reached_of_At (S k) (S k)); [lia|exact (H f Hf)|auto].
Qed.

Lemma stage_then {A B} (P : Frame -> Prop) (k k' : nat)
  (p : Promise Frame A) (g : A -> Promise Frame B) :
(k <= k')%nat ->
triple P p (Reached k) -> (forall a, triple (At k) (g a) (Reached k')) ->
triple P (then_ p g) (Reached k').
Proof.
intros Hk Hp Hg. apply (triple_then P (Reached k) (Reached k')); [exact Hp|exact Hg| |].
- intros e f (j & Hj & Hf). exists j. split; [lia|exact Hf].
- intros f (j & Hj & Hf). exists j. split; [lia|exact Hf].
Qed.

Lemma HwRequest_send_next (k : nat) (r : HwRequest.t) :
protocol_order api !! k = Some ("post", HwRequest.uri r) ->
leaves (At k) (HwRequest_send r) (At (S k)).
Proof.
intros Hk. unfold HwRequest_send.
apply (triple_then (At k) (fun _ => At (S k)) (fun _ => At (S k))); auto.
- apply leaves_run. apply axios_send_next. exact Hk.
- intros _. apply keeps_axios_answer.
Qed.

Lemma on_session_reached (ok : bool) : triple (At 1) (on_session api ok) (Reached 2).
Proof.
destruct ok; cbn [on_session].
- apply stage_sends. unfold getServerToken.
  apply (triple_then (At 1) (fun _ => At 2) (fun _ => At 2)); auto.
  + apply leaves_run. apply axios_send_next. reflexivity.
  + intros _. keeps_callback.
- intros f Hf. exists 1%nat. split; [lia|exact Hf].
Qed.

Lemma on_token_reached (clientNonce : string) (token : option (string * list string)) :
triple (At 2) (on_token api clientNonce token) (Reached 3).
Proof.
unfold on_token. apply (stage_then (At 2) 2 3); [lia| |].
- apply stage_keeps; [lia|]. keeps_callback.
- intros token0. apply stage_sends. apply HwRequest_send_next. reflexivity.
Qed.

Lemma on_proof_reached (loginProof : string) :
triple (At 3) (on_proof api loginProof) (Reached 4).
Proof.
apply stage_sends. intros f Hf.
assert (H : on_proof api loginProof f
            = HwRequest_send (scramTwo api (veriToken f) loginProof (serverNonce f)) f)
  by (destruct f; reflexivity).
rewrite H. apply (HwRequest_send_next 3); [reflexivity|exact Hf].
Qed.

Lemma chain_reached (clientNonce : string) :
triple (At 1) (chain api clientNonce) (Reached 4).
Proof.
unfold chain, chain_to_authentication, chain_to_challenge.
apply (stage_then (At 1) 4 4); [lia| |].
apply (stage_then (At 1) 4 4); [lia| |].
apply (stage_then (At 1) 3 4); [lia| |].
apply (stage_then (At 1) 3 3); [lia| |].
apply (stage_then (At 1) 3 3); [lia| |].
apply (stage_then (At 1) 2 3); [lia| |].
apply (stage_then (At 1) 1 2); [lia| |].
- apply stage_keeps; [lia|]. apply (keeps_initSession_resume (upto 1)).
- apply on_session_reached.
- apply on_token_reached.
- intros r. apply stage_keeps; [lia|]. apply (keeps_on_challenge_reply (upto 3)).
- intros body. apply stage_keeps; [lia|]. apply (keeps_on_challenge_body (upto 3)).
- apply on_proof_reached.
- intros r. apply stage_keeps; [lia|]. apply (keeps_on_authentication_reply (upto 4)).
- intros text. apply stage_keeps; [lia|].
  unfold on_authentication_body. apply leaves_new_Promise; [|frame_op].
  unfold phaseTwo_parsed, verify_server. cbv zeta.
  keeps_callback;
    apply (keeps_call_scram_outside (upto 4));
    first [apply keeps_calcServerProof|apply keeps_calcPubSig].
Qed.

Lemma chain_caught_within (clientNonce : string) :
leaves (At 1) (chain_caught api clientNonce) (Within 4).
Proof.
unfold chain_caught.
apply (leaves_catch (At 1) (Within 4) (Within 4)); [| |auto].
- intros f Hf. pose proof (chain_reached clientNonce f Hf) as H.
  destruct (chain api clientNonce f) as [[v|e|] f']; cbn in *;
    [exists 4%nat; split; [lia|exact H]|exact H|exact H].
- intros e f (j & Hj & Hf). exists j. split; [exact Hj|].
  exact (keeps_report (upto j) e f Hf).
Qed.

End InOrder.

Section InOrderClaim.
Context {lib : CryptoJS} {host : Host}.

(** X18. Whatever the device answers, an attempt sends at least one and
  at most four requests, and they are the first of the protocol in its
  order: GET to the server, GET of the token, POST of phase one, POST of
  phase two. *)
Theorem requests_follow_protocol (api : HwApi.t) (w : World) :
exists k, (1 <= k <= 4)%nat
          /\ sent_in_order api (requests w) k (HwApi.login api w).2.2.
Proof.
rewrite login_run. cbn [snd].
apply (chain_caught_within api (requests w) (clientNonce_of w) (entered api w)).
exists [HwApi.get_request (HwApi.server api)]. split; reflexivity.
Qed.
End InOrderClaim.

(** * The claims on sample inputs *)

Lemma calcProof_client_proof_witness :
  CryptoJSLaws RefCryptoJS
  /\ (@HwScramAuth.calcProof RefCryptoJS
        (HwScramAuth.setParams "c1c2" "5e5f" "aabb" (JS.Num 2) fresh_scram).2).1
     = JS.Normal "fa4ee34b6b70047e3f87fa462838e9918d952cea41686ac08260c5837c0abaa2".
Proof.
  split; [exact RefCryptoJS_laws|].
  destruct (calcProof_client_proof (lib := RefCryptoJS) (laws := RefCryptoJS_laws)
              fresh_scram "c1c2" "5e5f" "aabb" (JS.Num 2)) as [H _].
  rewrite H. vm_compute. reflexivity.
Defined.

Lemma deriveKey_pbkdf2_then_hmac_witness :
  CryptoJSLaws RefCryptoJS
  /\ exists (key : loc) (s' : HwScramAuth.St),
       @HwScramAuth.deriveKey RefCryptoJS "Server Key"
         (HwScramAuth.setParams "c1c2" "5e5f" "aabb" (JS.Num 2) fresh_scram).2
       = (JS.Normal key, s')
       /\ Ref.stringify <$> heap (HwScramAuth.world s') !! key
          = Some "46e6cb5b0189182a63c22b5e1c686567b9ed498e558dce6720c36dea8a7388ef".
Proof.
  split; [exact RefCryptoJS_laws|].
  destruct (deriveKey_pbkdf2_then_hmac (lib := RefCryptoJS) (laws := RefCryptoJS_laws)
              fresh_scram "c1c2" "5e5f" "aabb" (JS.Num 2) "Server Key")
    as (key & s' & Hrun & Hkey & _).
  exists key, s'. split; [exact Hrun|].
  rewrite Hkey. vm_compute. reflexivity.
Defined.

(** C3, as stated, fails: for the nonces "a" and "b" the stored AuthMessage
    is "a,b,b", not "abb"; and the server proof is not the HMAC that takes
    the AuthMessage for its message and the server key for its key. *)
Lemma authMessage_plain_concatenation_counterexample :
  let s := (HwScramAuth.setParams "a" "b" "aabb" (JS.Num 2) fresh_scram).2 in
  HwScramAuth.sigSecret (HwScramAuth.self s) = Some "a,b,b"
  /\ HwScramAuth.sigSecret (HwScramAuth.self s) <> Some (Spec.authMessage "a" "b")
  /\ (@HwScramAuth.calcServerProof RefCryptoJS s).1
     <> JS.Normal
          (Ref.stringify
             (Ref.HmacSHA256 (Ref.of_bytes (Ref.utf8 "a,b,b"))
                (KeyWords (@Spec.derive RefCryptoJS "admin" "aabb" (JS.Num 2) "Server Key")))).
Proof.
  cbv zeta. split; [reflexivity|]. split.
  - vm_compute. discriminate.
  - vm_compute. discriminate.
Qed.

Lemma authMessage_comma_separated_key_witness :
  CryptoJSLaws RefCryptoJS
  /\ (let s := (HwScramAuth.setParams "a" "b" "aabb" (JS.Num 2) fresh_scram).2 in
      HwScramAuth.sigSecret (HwScramAuth.self s) = Some "a,b,b"
      /\ (@HwScramAuth.calcProof RefCryptoJS s).1
         = JS.Normal (@Spec.clientProof RefCryptoJS "a,b,b" "aabb" (JS.Num 2) "admin")
      /\ (@HwScramAuth.calcServerProof RefCryptoJS s).1
         = JS.Normal "e857cf0d8d3fead6ca93da18251b61062bdba27d11017301c8b51865e1358e59").
Proof.
  split; [exact RefCryptoJS_laws|].
  destruct (authMessage_comma_separated_key (lib := RefCryptoJS) (laws := RefCryptoJS_laws)
              fresh_scram "a" "b" "aabb" (JS.Num 2)) as (Hsec & Hproof & Hserver).
  cbv zeta. split; [exact Hsec|]. split; [exact Hproof|].
  rewrite Hserver. vm_compute. reflexivity.
Defined.

Lemma calcPubSig_roles_swapped_witness :
  CryptoJSLaws RefCryptoJS
  /\ (let s := (HwScramAuth.setParams "c1c2" "5e5f" "aabb" (JS.Num 2) fresh_scram).2 in
      (@HwScramAuth.calcPubSig RefCryptoJS "00c0ffee" s).1
      = JS.Normal "c53ba8fe570489dd7c2a0f7b9ffc0be471459ad140d5b6166d8b53ae61c2d999"
      /\ (@HwScramAuth.calcServerProof RefCryptoJS s).1
         = JS.Normal "2a8d9a4fb2581453b86483cc9584b2ce6f8170164f1caa6a9eb473dda6b83c40").
Proof.
  split; [exact RefCryptoJS_laws|].
  destruct (calcPubSig_roles_swapped (lib := RefCryptoJS) (laws := RefCryptoJS_laws)
              fresh_scram "c1c2" "5e5f" "aabb" (JS.Num 2) "00c0ffee") as [Hp Hs].
  cbv zeta. rewrite Hp, Hs. split; vm_compute; reflexivity.
Defined.

Lemma xor_words_self_inverse_witness :
  exists s1,
    HwScramAuth.xor_words 0 1 two_digests = (JS.Normal tt, s1)
    /\ Ref.stringify <$> heap (HwScramAuth.world s1) !! 0%nat
       = Some "8c70aa1e6b4f692e9329abb3ed8c42052891a117bd91c16d536a90c09e3c872f"
    /\ HwScramAuth.xor_words 0 1 s1 = (JS.Normal tt, two_digests).
Proof.
  destruct (xor_words_self_inverse two_digests 0 1
              (Ref.SHA256 (Ref.of_bytes (Ref.utf8 "abc")))
              (Ref.SHA256 (Ref.of_bytes (Ref.utf8 "xyz"))))
    as (s1 & Hrun & Hcell & Hback).
  - reflexivity.
  - reflexivity.
  - lia.
  - apply Ref_digest_of_is_digest, Ref_sha256_words_length.
  - apply Ref_digest_of_is_digest, Ref_sha256_words_length.
  - exists s1. split; [exact Hrun|]. split; [|exact Hback].
    rewrite Hcell. vm_compute. reflexivity.
Defined.

Lemma proof_calls_frame_witness :
  CryptoJSLaws RefCryptoJS
  /\ (let s := (HwScramAuth.setParams "c1c2" "5e5f" "aabb" (JS.Num 2) fresh_scram).2 in
      let calls := [CallProof; CallServerProof; CallProof] in
      (@invoke_all RefCryptoJS calls s).1
      = [JS.Normal "fa4ee34b6b70047e3f87fa462838e9918d952cea41686ac08260c5837c0abaa2";
         JS.Normal "2a8d9a4fb2581453b86483cc9584b2ce6f8170164f1caa6a9eb473dda6b83c40";
         JS.Normal "fa4ee34b6b70047e3f87fa462838e9918d952cea41686ac08260c5837c0abaa2"]
      /\ HwScramAuth.self (@invoke_all RefCryptoJS calls s).2
         = installed "admin" "c1c2" "5e5f" "aabb" (JS.Num 2)).
Proof.
  split; [exact RefCryptoJS_laws|].
  destruct (proof_calls_frame (lib := RefCryptoJS) (laws := RefCryptoJS_laws)
              fresh_scram "c1c2" "5e5f" "aabb" (JS.Num 2)
              [CallProof; CallServerProof; CallProof])
    as (Hres & Hself & Hinst & _).
  cbv zeta. rewrite Hres, Hself, Hinst. split; [vm_compute|]; reflexivity.
Defined.

Lemma sample_session_opens (challenge authentication : AxiosResponse) :
  session_opens (host := device challenge authentication) sample_api sample_token.
Proof.
  split.
  - eexists. split; reflexivity.
  - exists (mkAxiosResponse "OK" ∅ (xml_of token_doc)), token_doc, [].
    repeat split; reflexivity.
Qed.

Lemma sample_challenge_answered (challenge authentication : AxiosResponse) :
  challenge_answered (host := device challenge authentication) sample_api
    (clientNonce_of (lib := RefCryptoJS) page_world) sample_token challenge.
Proof.
  split; [apply sample_session_opens|]. reflexivity.
Qed.

Lemma missing_token_fails_witness :
  attempt_fails (lib := RefCryptoJS) (host := tokenless_device) sample_api page_world
    (JS.Error_ "Server did not supply verification token")
    (sent_to_challenge sample_api (clientNonce_of (lib := RefCryptoJS) page_world)
                       sample_token).
Proof.
  apply (missing_token_fails (lib := RefCryptoJS) (host := tokenless_device)
           sample_api page_world sample_token
           (mkAxiosResponse "OK" (axios_headers [("Content-Type", "text/html")])
                            (xml_of challenge_doc))
           [("Content-Type", "text/html")]).
  - apply sample_challenge_answered.
  - reflexivity.
  - intros k v Hin. apply list_elem_of_singleton in Hin. inversion Hin; subst.
    vm_compute. discriminate.
Defined.

Lemma rate_limit_fails_after_token_witness :
  attempt_fails (lib := RefCryptoJS) (host := locked_device) sample_api page_world
    (JS.Error_ "Too many incorrect login attempts, try again in 5 minutes.")
    (sent_to_challenge sample_api (clientNonce_of (lib := RefCryptoJS) page_world)
                       sample_token).
Proof.
  apply (rate_limit_fails_after_token (lib := RefCryptoJS) (host := locked_device)
           sample_api page_world sample_token
           (mkAxiosResponse "OK"
              (axios_headers [("__RequestVerificationToken", "csrf-two")])
              (xml_of rate_limit_doc))
           "csrf-two" None rate_limit_doc "5").
  - apply sample_challenge_answered.
  - vm_compute. reflexivity.
  - vm_compute. reflexivity.
  - reflexivity.
  - vm_compute. reflexivity.
Defined.

(** C8, as stated, fails: a device that answers phase one with an error
    element of waittime 5 but without the verification-token header makes
    the attempt fail with the missing-token error, not the rate-limit one. *)
Lemma rate_limit_without_token_counterexample :
  let r1 := mkAxiosResponse "OK" ∅ (xml_of rate_limit_doc) in
  let sent := sent_to_challenge sample_api (clientNonce_of (lib := RefCryptoJS) page_world)
                                sample_token in
  challenge_answered (host := locked_silent_device) sample_api
    (clientNonce_of (lib := RefCryptoJS) page_world) sample_token r1
  /\ parseXmlStr (Host := locked_silent_device) (data r1)
     = mkParseResult None (Some rate_limit_doc)
  /\ root rate_limit_doc = "error"
  /\ HwApi.elements (children rate_limit_doc) "waittime" = Some ("5", [])
  /\ attempt_fails (lib := RefCryptoJS) (host := locked_silent_device) sample_api page_world
       (JS.Error_ "Server did not supply verification token") sent
  /\ ~ attempt_fails (lib := RefCryptoJS) (host := locked_silent_device) sample_api page_world
         (JS.Error_ "Too many incorrect login attempts, try again in 5 minutes.") sent.
Proof.
  cbv zeta.
  assert (Hfails : attempt_fails (lib := RefCryptoJS) (host := locked_silent_device)
                     sample_api page_world
                     (JS.Error_ "Server did not supply verification token")
                     (sent_to_challenge sample_api
                        (clientNonce_of (lib := RefCryptoJS) page_world) sample_token)).
  { apply (attempt_missing_token (lib := RefCryptoJS) (host := locked_silent_device)
             sample_api page_world sample_token
             (mkAxiosResponse "OK" ∅ (xml_of rate_limit_doc))).
    - apply sample_challenge_answered.
    - reflexivity. }
  split; [apply sample_challenge_answered|].
  split; [vm_compute; reflexivity|].
  split; [reflexivity|].
  split; [vm_compute; reflexivity|].
  split; [exact Hfails|].
  intros [[f Hf] _]. destruct Hfails as [[f' Hf'] _].
  rewrite Hf' in Hf. discriminate Hf.
Qed.

Lemma sample_authentication_answered (authentication : AxiosResponse) :
  authentication_answered (lib := RefCryptoJS)
    (host := device challenge_response authentication) sample_api
    (clientNonce_of (lib := RefCryptoJS) page_world) sample_token challenge_response
    "csrf-two" sample_serverNonce "aabb" "2" authentication.
Proof.
  split; [apply sample_challenge_answered|]. split.
  - split; [vm_compute; reflexivity|].
    exists challenge_doc, [], [], []. repeat split; vm_compute; reflexivity.
  - reflexivity.
Qed.

Lemma sample_serverProof :
  Spec.serverProof (lib := RefCryptoJS)
    (clientNonce_of (lib := RefCryptoJS) page_world +:+ "," +:+ sample_serverNonce
       +:+ "," +:+ sample_serverNonce)
    "aabb" (parseInt10 "2") (HwApi.authPwd sample_api)
  = sample_serversignature.
Proof. vm_compute. reflexivity. Qed.

Lemma sample_publicKeySignature :
  Spec.publicKeySignature (lib := RefCryptoJS) "aabb" (parseInt10 "2")
    (HwApi.authPwd sample_api) sample_rsan
  = sample_pubkeysignature.
Proof. vm_compute. reflexivity. Qed.

Lemma key_mismatch_fails_and_keeps_key_witness :
  CryptoJSLaws RefCryptoJS
  /\ attempt_fails (lib := RefCryptoJS) (host := forged_key_device) sample_api page_world
       (JS.Error_ "Server provided an invalid RSA public key.")
       (sent_to_authentication (lib := RefCryptoJS) sample_api
          (clientNonce_of (lib := RefCryptoJS) page_world)
          sample_token "csrf-two" sample_serverNonce "aabb" "2").
Proof.
  split; [exact RefCryptoJS_laws|].
  destruct (key_mismatch_fails_and_keeps_key (lib := RefCryptoJS) (host := forged_key_device)
              (laws := RefCryptoJS_laws) sample_api page_world sample_token
              challenge_response "csrf-two" sample_serverNonce "aabb" "2"
              (authentication_response corrupted_doc)
              (sample_authentication_answered (authentication_response corrupted_doc)))
    as [Hfail _].
  pose proof (Hfail corrupted_doc sample_serversignature [] corrupted_pubkeysignature []
                sample_rsan []) as H.
  rewrite sample_serverProof, sample_publicKeySignature in H.
  apply H.
  - vm_compute. reflexivity.
  - reflexivity.
  - reflexivity.
  - reflexivity.
  - reflexivity.
  - discriminate.
Defined.

(** The sample devices whose parser knows further documents answer the
    session, the challenge and phase two. *)

Lemma among_challenge_answered (docs : list XmlDoc) (challenge authentication : AxiosResponse) :
  challenge_answered (host := device_among docs challenge authentication) sample_api
    (clientNonce_of (lib := RefCryptoJS) page_world) sample_token challenge.
Proof.
  split; [|reflexivity]. split.
  - eexists. split; reflexivity.
  - exists (mkAxiosResponse "OK" ∅ (xml_of token_doc)), token_doc, [].
    repeat split; reflexivity.
Qed.

Lemma sample_challenge_of (docs : list XmlDoc) (authentication : AxiosResponse) :
  challenge_of (host := device_among (challenge_doc :: docs) challenge_response authentication)
    challenge_response "csrf-two" sample_serverNonce "aabb" "2".
Proof.
  split; [vm_compute; reflexivity|].
  exists challenge_doc, [], [], []. repeat split; vm_compute; reflexivity.
Qed.

Lemma among_authentication_answered (docs : list XmlDoc) (authentication : AxiosResponse) :
  authentication_answered (lib := RefCryptoJS)
    (host := device_among (challenge_doc :: docs) challenge_response authentication)
    sample_api (clientNonce_of (lib := RefCryptoJS) page_world) sample_token
    challenge_response "csrf-two" sample_serverNonce "aabb" "2" authentication.
Proof.
  split; [apply among_challenge_answered|].
  split; [apply sample_challenge_of|reflexivity].
Qed.

(** C5, as stated, fails: a device whose answer to phase two carries a
    wrong rsapubkeysignature but no serversignature makes the attempt fail
    with "Failed to generate server proof. TypeError: ...", which is neither
    of the two identity errors. *)
Lemma key_mismatch_without_server_proof_counterexample :
  let r2 := authentication_response unsigned_doc in
  let sent := sent_to_authentication (lib := RefCryptoJS) sample_api
                (clientNonce_of (lib := RefCryptoJS) page_world)
                sample_token "csrf-two" sample_serverNonce "aabb" "2" in
  authentication_answered (lib := RefCryptoJS) (host := unsigned_device) sample_api
    (clientNonce_of (lib := RefCryptoJS) page_world) sample_token challenge_response
    "csrf-two" sample_serverNonce "aabb" "2" r2
  /\ parseXmlStr (Host := unsigned_device) (data r2) = mkParseResult None (Some unsigned_doc)
  /\ HwApi.elements (children unsigned_doc) "rsapubkeysignature"
     = Some (corrupted_pubkeysignature, [])
  /\ HwApi.elements (children unsigned_doc) "rsan" = Some (sample_rsan, [])
  /\ corrupted_pubkeysignature
     <> Spec.publicKeySignature (lib := RefCryptoJS) "aabb" (parseInt10 "2")
          (HwApi.authPwd sample_api) sample_rsan
  /\ attempt_fails (lib := RefCryptoJS) (host := unsigned_device) sample_api page_world
       (JS.Error_ "Failed to generate server proof. TypeError: Cannot read properties of undefined (reading '0')")
       sent
  /\ ~ attempt_fails (lib := RefCryptoJS) (host := unsigned_device) sample_api page_world
         (JS.Error_ "Server provided an invalid RSA public key.") sent
  /\ ~ attempt_fails (lib := RefCryptoJS) (host := unsigned_device) sample_api page_world
         (JS.Error_ "Could not verify server identity.") sent.
Proof.
  cbv zeta.
  assert (Ha : authentication_answered (lib := RefCryptoJS) (host := unsigned_device)
                 sample_api (clientNonce_of (lib := RefCryptoJS) page_world) sample_token
                 challenge_response "csrf-two" sample_serverNonce "aabb" "2"
                 (authentication_response unsigned_doc))
    by apply among_authentication_answered.
  assert (Hp : parseXmlStr (Host := unsigned_device)
                 (data (authentication_response unsigned_doc))
               = mkParseResult None (Some unsigned_doc))
    by (vm_compute; reflexivity).
  assert (Hfails : attempt_fails (lib := RefCryptoJS) (host := unsigned_device)
                     sample_api page_world
                     (JS.Error_ "Failed to generate server proof. TypeError: Cannot read properties of undefined (reading '0')")
                     (sent_to_authentication (lib := RefCryptoJS) sample_api
                        (clientNonce_of (lib := RefCryptoJS) page_world)
                        sample_token "csrf-two" sample_serverNonce "aabb" "2")).
  { exact (attempt_unsigned (lib := RefCryptoJS) (host := unsigned_device)
             (laws := RefCryptoJS_laws) sample_api page_world sample_token
             challenge_response "csrf-two" sample_serverNonce "aabb" "2"
             (authentication_response unsigned_doc) unsigned_doc Ha Hp eq_refl eq_refl). }
  split; [exact Ha|]. split; [exact Hp|].
  split; [reflexivity|]. split; [reflexivity|].
  split; [rewrite sample_publicKeySignature; discriminate|].
  split; [exact Hfails|].
  destruct Hfails as [[f' Hf'] _].
  split; intros [[f Hf] _]; rewrite Hf' in Hf; discriminate Hf.
Qed.
(** * The further properties on sample inputs *)

Lemma calcProof_debug_output_witness :
  CryptoJSLaws RefCryptoJS
  /\ (let s := (HwScramAuth.setParams "c1c2" "5e5f" "aabb" (JS.Num 2) fresh_scram).2 in
      length (drop (length (console (HwScramAuth.world fresh_scram)))
                (console (HwScramAuth.world (@HwScramAuth.calcProof RefCryptoJS s).2)))
      = 11%nat
      /\ console (HwScramAuth.world (@HwScramAuth.calcServerProof RefCryptoJS s).2) = []).
Proof.
  split; [exact RefCryptoJS_laws|].
  destruct (calcProof_debug_output (lib := RefCryptoJS) (laws := RefCryptoJS_laws)
              fresh_scram "c1c2" "5e5f" "aabb" (JS.Num 2))
    as ((proof & _ & Hlog & _) & Hserver & _).
  cbv zeta. split; [|exact Hserver].
  exact (f_equal length Hlog).
Defined.

Lemma generateNonce_hex_of_draw_witness :
  exists nonce s',
    @HwScramAuth.generateNonce RefCryptoJS
      (HwScramAuth.mkSt (HwScramAuth.new "admin") page_world) = (JS.Normal nonce, s')
    /\ String.length nonce = 64%nat.
Proof.
  destruct (generateNonce_hex_of_draw
              (HwScramAuth.mkSt (HwScramAuth.new "admin") page_world) eq_refl)
    as (nonce & s' & Hrun & Hlen & _).
  exists nonce, s'. split; assumption.
Defined.

Lemma xor_words_any_shape_witness :
  exists ws,
    HwScramAuth.xor_words 0 1 uneven_words
    = (JS.Normal tt,
       HwScramAuth.on_world (set_heap (fun h => <[0%nat := mkWordArray ws 8]> h))
                            uneven_words)
    /\ ws !! 0%nat = Some 4 /\ ws !! 1%nat = Some 2 /\ ws !! 2%nat = Some 3.
Proof.
  destruct (xor_words_any_shape uneven_words 0 1
              (mkWordArray [1; 2; 3] 8) (mkWordArray [5] 4) 2)
    as (ws & Hrun & _ & Hlow & Hhigh & _);
    [reflexivity | reflexivity | lia | reflexivity | reflexivity |].
  exists ws. split; [exact Hrun|].
  split; [apply (Hlow 0%nat); lia|].
  split; [apply (Hlow 1%nat); lia|apply (Hhigh 2%nat); lia].
Defined.

Lemma session_not_ok_fails_witness :
  attempt_fails (lib := RefCryptoJS) (host := terse_device) sample_api page_world
    (JS.Error_ "Session failed to initialize")
    [HwApi.get_request (HwApi.server sample_api)].
Proof.
  apply (session_not_ok_fails (lib := RefCryptoJS) (host := terse_device)
           sample_api page_world (mkAxiosResponse EmptyString ∅ "<html></html>")).
  - reflexivity.
  - discriminate.
Defined.

Lemma unreachable_device_fails_witness :
  attempt_fails (lib := RefCryptoJS) (host := honest_device) stray_api page_world
    (JS.Error_ "Network Error") [HwApi.get_request (HwApi.server stray_api)].
Proof.
  apply (unreachable_device_fails (lib := RefCryptoJS) (host := honest_device)
           stray_api page_world (JS.Error_ "Network Error")).
  reflexivity.
Defined.

Lemma rate_limit_without_waittime_witness :
  attempt_fails (lib := RefCryptoJS) (host := refusing_device) sample_api page_world
    (JS.Error_ "Too many incorrect login attempts, try again in undefined minutes.")
    (sent_to_challenge sample_api (clientNonce_of (lib := RefCryptoJS) page_world)
                       sample_token).
Proof.
  apply (rate_limit_without_waittime (lib := RefCryptoJS) (host := refusing_device)
           sample_api page_world sample_token
           (mkAxiosResponse "OK"
              (axios_headers [("__RequestVerificationToken", "csrf-two")])
              (xml_of bare_error_doc))
           "csrf-two" None bare_error_doc).
  - apply among_challenge_answered.
  - vm_compute. reflexivity.
  - vm_compute. reflexivity.
  - reflexivity.
  - intros c Hin. apply list_elem_of_singleton in Hin. subst c. discriminate.
Defined.



Lemma server_proof_mismatch_fails_witness :
  CryptoJSLaws RefCryptoJS
  /\ attempt_fails (lib := RefCryptoJS) (host := unproved_device) sample_api page_world
       (JS.Error_ "Could not verify server identity.")
       (sent_to_authentication (lib := RefCryptoJS) sample_api
          (clientNonce_of (lib := RefCryptoJS) page_world)
          sample_token "csrf-two" sample_serverNonce "aabb" "2").
Proof.
  split; [exact RefCryptoJS_laws|].
  apply (server_proof_mismatch_fails (lib := RefCryptoJS) (host := unproved_device)
           (laws := RefCryptoJS_laws) sample_api page_world sample_token
           challenge_response "csrf-two" sample_serverNonce "aabb" "2"
           (authentication_response unproved_doc) unproved_doc
           "ff5815afc49991eb113033a2253077468634f85e6d6e3d0b5bed089a7f4c8a03" []).
  - apply among_authentication_answered.
  - vm_compute. reflexivity.
  - reflexivity.
  - reflexivity.
  - rewrite sample_serverProof. discriminate.
Defined.

Lemma verified_login_stores_key_witness :
  CryptoJSLaws RefCryptoJS
  /\ (let run := @HwApi.login RefCryptoJS honest_device sample_api page_world in
      run.2.1 = Pending
      /\ browser (HwApi.world run.2.2)
         = Some (mkBrowser "Logged in!" "rsan=00c0ffee, rsae=010001"
                   (<["rsae" := "010001"]> (<["rsan" := "00c0ffee"]> ∅)))
      /\ HwApi.veriToken run.2.2 = Some "csrf-three").
Proof.
  split; [exact RefCryptoJS_laws|].
  destruct (verified_login_stores_key (lib := RefCryptoJS) (host := honest_device)
              (laws := RefCryptoJS_laws) sample_api page_world sample_token
              challenge_response "csrf-two" sample_serverNonce "aabb" "2"
              (authentication_response authentication_doc) authentication_doc
              sample_rsan "010001" [] [] [] []
              (mkBrowser EmptyString EmptyString ∅))
    as (_ & Hpending & Hpage & Htok & _).
  - apply sample_authentication_answered.
  - reflexivity.
  - vm_compute. reflexivity.
  - reflexivity.
  - rewrite sample_serverProof. reflexivity.
  - rewrite sample_publicKeySignature. reflexivity.
  - reflexivity.
  - reflexivity.
  - cbv zeta. split; [exact Hpending|]. split; [exact Hpage|].
    rewrite Htok. vm_compute. reflexivity.
Defined.

Lemma node_world_clientNonce :
  clientNonce_of (lib := RefCryptoJS) node_world
  = clientNonce_of (lib := RefCryptoJS) page_world.
Proof.
  unfold clientNonce_of, node_world. cbn [rng draws].
  unfold page_world. cbn [rng draws]. reflexivity.
Qed.

Lemma node_login_fails_at_storage_witness :
  CryptoJSLaws RefCryptoJS
  /\ attempt_fails (lib := RefCryptoJS) (host := honest_device) sample_api node_world
       (JS.Error_ "Failed to generate server proof. ReferenceError: window is not defined")
       (sent_to_authentication (lib := RefCryptoJS) sample_api
          (clientNonce_of (lib := RefCryptoJS) node_world)
          sample_token "csrf-two" sample_serverNonce "aabb" "2").
Proof.
  split; [exact RefCryptoJS_laws|].
  apply (node_login_fails_at_storage (lib := RefCryptoJS) (host := honest_device)
           (laws := RefCryptoJS_laws) sample_api node_world sample_token
           challenge_response "csrf-two" sample_serverNonce "aabb" "2"
           (authentication_response authentication_doc) authentication_doc
           sample_rsan [] [] []).
  - rewrite node_world_clientNonce. apply sample_authentication_answered.
  - reflexivity.
  - vm_compute. reflexivity.
  - reflexivity.
  - rewrite node_world_clientNonce, sample_serverProof. reflexivity.
  - rewrite sample_publicKeySignature. reflexivity.
  - reflexivity.
Defined.

Lemma unparsed_authentication_fails_witness :
  CryptoJSLaws RefCryptoJS
  /\ attempt_fails (lib := RefCryptoJS) (host := garbled_device) sample_api page_world
       (JS.Error_ "SCRAM auth failed. Error: Unexpected input")
       (sent_to_authentication (lib := RefCryptoJS) sample_api
          (clientNonce_of (lib := RefCryptoJS) page_world)
          sample_token "csrf-two" sample_serverNonce "aabb" "2").
Proof.
  split; [exact RefCryptoJS_laws|].
  apply (unparsed_authentication_fails (lib := RefCryptoJS) (host := garbled_device)
           (laws := RefCryptoJS_laws) sample_api page_world sample_token
           challenge_response "csrf-two" sample_serverNonce "aabb" "2"
           (authentication_response authentication_doc) (JS.Error_ "Unexpected input")).
  - apply among_authentication_answered.
  - vm_compute. reflexivity.
Defined.

Lemma missing_exponent_stores_nothing_witness :
  CryptoJSLaws RefCryptoJS
  /\ localStorage <$> browser (HwApi.world
       (@HwApi.login RefCryptoJS no_exponent_device sample_api page_world).2.2)
     = Some ∅.
Proof.
  split; [exact RefCryptoJS_laws|].
  destruct (missing_exponent_stores_nothing (lib := RefCryptoJS) (host := no_exponent_device)
              (laws := RefCryptoJS_laws) sample_api page_world sample_token
              challenge_response "csrf-two" sample_serverNonce "aabb" "2"
              (authentication_response no_exponent_doc) no_exponent_doc
              sample_rsan [] [] [] (mkBrowser EmptyString EmptyString ∅))
    as (reason & _ & Hsto).
  - apply among_authentication_answered.
  - reflexivity.
  - vm_compute. reflexivity.
  - reflexivity.
  - rewrite sample_serverProof. reflexivity.
  - rewrite sample_publicKeySignature. reflexivity.
  - reflexivity.
  - intros c Hin. cbn in Hin.
    repeat (apply elem_of_cons in Hin; destruct Hin as [->|Hin]; [discriminate|]).
    apply elem_of_nil in Hin. contradiction.
  - exact Hsto.
Defined.

Lemma success_logged_before_verification_witness :
  CryptoJSLaws RefCryptoJS
  /\ (let run := @HwApi.login RefCryptoJS unproved_device sample_api page_world in
      "Logged in successfully: csrf-three" ∈ console (HwApi.world run.2.2)
      /\ HwApi.veriToken run.2.2 = Some "csrf-three"
      /\ run.2.1 = Fulfilled None).
Proof.
  split; [exact RefCryptoJS_laws|].
  apply (success_logged_before_verification (lib := RefCryptoJS) (host := unproved_device)
           (laws := RefCryptoJS_laws) sample_api page_world sample_token
           challenge_response "csrf-two" sample_serverNonce "aabb" "2"
           (authentication_response unproved_doc) unproved_doc
           "ff5815afc49991eb113033a2253077468634f85e6d6e3d0b5bed089a7f4c8a03" []
           "csrf-three").
  - apply among_authentication_answered.
  - vm_compute. reflexivity.
  - vm_compute. reflexivity.
  - reflexivity.
  - reflexivity.
  - rewrite sample_serverProof. discriminate.
Defined.
